(** * Hand-gesture controller: classification and dispatch state machine

    A shallow embedding of [EnhancedGestureController]
    (gesture_controller.py) together with the properties of its
    classifier, hold-time gate and mode dispatcher.

    Numbers.  Python floats are modelled by exact rationals [Q]; pixel
    coordinates, which the caller passes as Python ints, by [Z].  Every
    branch of the source is kept as a boolean test on those numbers.
    The one place where the rounding of double-precision arithmetic
    decides an integer that the program passes to the host, the smoothed
    cursor position of [_mouse_control], is computed with [round64],
    which rounds every intermediate result as binary64 does.
    Clock readings ([time.time()]) are parameters of the function that
    takes them.  Calls into pyautogui and into the Windows audio endpoint
    are recorded in a log, and a [Host] decides which of them raise. *)

From Stdlib Require Import QArith Qabs Qround Qpower ZArith List Bool Lia Lqa
  String Sorted SpecFloat.
Import ListNotations.

Open Scope Q_scope.

(** ** Python arithmetic on rationals *)

Definition Qltb (x y : Q) : bool := negb (Qle_bool y x).

Notation "x <? y" := (Qltb x y) (at level 70, no associativity) : Q_scope.
Notation "x >? y" := (Qltb y x) (at level 70, no associativity) : Q_scope.

(** [max(a, b)] and [min(a, b)] of the Python builtins: the first argument
    is kept unless the second is strictly larger (smaller). *)
Definition py_max (a b : Q) : Q := if a <? b then b else a.
Definition py_min (a b : Q) : Q := if b <? a then b else a.

(** [a / b]; [None] is ZeroDivisionError. *)
Definition py_div (a b : Q) : option Q :=
  if Qeq_bool b 0 then None else Some (a / b).

(** [int(q)]: truncation toward zero. *)
Definition py_int (q : Q) : Z := Z.quot (Qnum q) (Zpos (Qden q)).

(** ** Double-precision rounding

    A Python float is an IEEE 754 binary64 number, and every arithmetic
    operation on floats returns the exact result rounded to the nearest
    such number, ties to the even significand.  [round64 q] is that
    rounding of the exact value [q]: a significand of 53 bits, gradual
    underflow below [2^-1022].  The exponent has no upper limit here, so
    overflow, which needs magnitudes of [2^1024], is not modelled. *)

(** The [e] with [2^e <= |q| < 2^(e+1)], for [q] other than 0. *)
Definition binade (q : Q) : Z :=
  let e := (Z.log2 (Z.abs (Qnum q)) - Z.log2 (Zpos (Qden q)))%Z in
  if Qle_bool (2 ^ e) (Qabs q) then e else (e - 1)%Z.

(** The integer nearest to [q], the even one of two equally near. *)
Definition rne (q : Q) : Z :=
  let f := Qfloor q in
  match Qcompare (q - inject_Z f) (1 # 2) with
  | Lt => f
  | Gt => (f + 1)%Z
  | Eq => if Z.even f then f else (f + 1)%Z
  end.

Definition round64 (q : Q) : Q :=
  let e := Z.max (binade q - 52) (-1074) in
  inject_Z (rne (q / 2 ^ e)) * 2 ^ e.

(** [int(current + (target - current) * (1 - smoothing))] on two Python
    ints and a float, lines 336-337: [target - current] is a subtraction
    of ints; each int meeting a float is converted to a float; the
    subtraction from 1, the product and the sum are each rounded.  The
    field [mouse_smoothing] holds the decimal literal of the source, the
    program the double nearest to it. *)
Definition smoothed (current target : Z) (smoothing : Q) : Z :=
  py_int (round64 (round64 (inject_Z current)
                   + round64 (round64 (inject_Z (target - current))
                              * round64 (1 - round64 smoothing)))).

Arguments smoothed : simpl never.

(** ** Enumerations *)

Inductive ControlMode : Type := MEDIA | MOUSE | WINDOW | PRESENTATION.

Inductive Gesture : Type :=
  | FIST | OPEN_HAND | PEACE | POINTING | THUMBS_UP | PINCH
  | ROTATE_LEFT | ROTATE_RIGHT
  | SWIPE_LEFT | SWIPE_RIGHT | SWIPE_UP | SWIPE_DOWN
  | PALM_PUSH | PALM_PULL | NONE.

Definition Gesture_eq_dec (a b : Gesture) : {a = b} + {a <> b}.
Proof. decide equality. Defined.

Definition gesture_eqb (a b : Gesture) : bool :=
  if Gesture_eq_dec a b then true else false.

Definition ControlMode_eq_dec (a b : ControlMode) : {a = b} + {a <> b}.
Proof. decide equality. Defined.

(** ** The controller object *)

Record Controller : Type := mkController {
  mode : ControlMode;
  sensitivity : Q;
  current_gesture : Gesture;
  last_gesture : Gesture;
  gesture_start_time : Q;
  cooldown_time : Q;
  last_action_time : Q;
  last_rotation : option Q;
  rotation_threshold : Q;
  rotation_accumulator : Q;
  last_palm_x : option Z;
  last_palm_y : option Z;
  last_palm_z : option Q;
  swipe_threshold : Q;
  depth_threshold : Q;
  finger_states : list bool;
  mouse_smoothing : Q;
  mouse_anchor : option (Z * Z);
  is_clicking : bool;
  is_dragging : bool;
  screen_w : Z;
  screen_h : Z;
  volume_control : bool
}.

Definition with_mode (v : ControlMode) (self : Controller) : Controller :=
  {| mode := v; sensitivity := sensitivity self;
     current_gesture := current_gesture self;
     last_gesture := last_gesture self;
     gesture_start_time := gesture_start_time self;
     cooldown_time := cooldown_time self;
     last_action_time := last_action_time self;
     last_rotation := last_rotation self;
     rotation_threshold := rotation_threshold self;
     rotation_accumulator := rotation_accumulator self;
     last_palm_x := last_palm_x self; last_palm_y := last_palm_y self;
     last_palm_z := last_palm_z self;
     swipe_threshold := swipe_threshold self;
     depth_threshold := depth_threshold self;
     finger_states := finger_states self;
     mouse_smoothing := mouse_smoothing self;
     mouse_anchor := mouse_anchor self; is_clicking := is_clicking self;
     is_dragging := is_dragging self; screen_w := screen_w self;
     screen_h := screen_h self; volume_control := volume_control self |}.

Definition with_sensitivity (v : Q) (self : Controller) : Controller :=
  {| mode := mode self; sensitivity := v;
     current_gesture := current_gesture self;
     last_gesture := last_gesture self;
     gesture_start_time := gesture_start_time self;
     cooldown_time := cooldown_time self;
     last_action_time := last_action_time self;
     last_rotation := last_rotation self;
     rotation_threshold := rotation_threshold self;
     rotation_accumulator := rotation_accumulator self;
     last_palm_x := last_palm_x self; last_palm_y := last_palm_y self;
     last_palm_z := last_palm_z self;
     swipe_threshold := swipe_threshold self;
     depth_threshold := depth_threshold self;
     finger_states := finger_states self;
     mouse_smoothing := mouse_smoothing self;
     mouse_anchor := mouse_anchor self; is_clicking := is_clicking self;
     is_dragging := is_dragging self; screen_w := screen_w self;
     screen_h := screen_h self; volume_control := volume_control self |}.

Definition with_current_gesture (v : Gesture) (self : Controller) : Controller :=
  {| mode := mode self; sensitivity := sensitivity self;
     current_gesture := v; last_gesture := last_gesture self;
     gesture_start_time := gesture_start_time self;
     cooldown_time := cooldown_time self;
     last_action_time := last_action_time self;
     last_rotation := last_rotation self;
     rotation_threshold := rotation_threshold self;
     rotation_accumulator := rotation_accumulator self;
     last_palm_x := last_palm_x self; last_palm_y := last_palm_y self;
     last_palm_z := last_palm_z self;
     swipe_threshold := swipe_threshold self;
     depth_threshold := depth_threshold self;
     finger_states := finger_states self;
     mouse_smoothing := mouse_smoothing self;
     mouse_anchor := mouse_anchor self; is_clicking := is_clicking self;
     is_dragging := is_dragging self; screen_w := screen_w self;
     screen_h := screen_h self; volume_control := volume_control self |}.

Definition with_last_gesture (v : Gesture) (self : Controller) : Controller :=
  {| mode := mode self; sensitivity := sensitivity self;
     current_gesture := current_gesture self; last_gesture := v;
     gesture_start_time := gesture_start_time self;
     cooldown_time := cooldown_time self;
     last_action_time := last_action_time self;
     last_rotation := last_rotation self;
     rotation_threshold := rotation_threshold self;
     rotation_accumulator := rotation_accumulator self;
     last_palm_x := last_palm_x self; last_palm_y := last_palm_y self;
     last_palm_z := last_palm_z self;
     swipe_threshold := swipe_threshold self;
     depth_threshold := depth_threshold self;
     finger_states := finger_states self;
     mouse_smoothing := mouse_smoothing self;
     mouse_anchor := mouse_anchor self; is_clicking := is_clicking self;
     is_dragging := is_dragging self; screen_w := screen_w self;
     screen_h := screen_h self; volume_control := volume_control self |}.

Definition with_gesture_start_time (v : Q) (self : Controller) : Controller :=
  {| mode := mode self; sensitivity := sensitivity self;
     current_gesture := current_gesture self;
     last_gesture := last_gesture self; gesture_start_time := v;
     cooldown_time := cooldown_time self;
     last_action_time := last_action_time self;
     last_rotation := last_rotation self;
     rotation_threshold := rotation_threshold self;
     rotation_accumulator := rotation_accumulator self;
     last_palm_x := last_palm_x self; last_palm_y := last_palm_y self;
     last_palm_z := last_palm_z self;
     swipe_threshold := swipe_threshold self;
     depth_threshold := depth_threshold self;
     finger_states := finger_states self;
     mouse_smoothing := mouse_smoothing self;
     mouse_anchor := mouse_anchor self; is_clicking := is_clicking self;
     is_dragging := is_dragging self; screen_w := screen_w self;
     screen_h := screen_h self; volume_control := volume_control self |}.

Definition with_cooldown_time (v : Q) (self : Controller) : Controller :=
  {| mode := mode self; sensitivity := sensitivity self;
     current_gesture := current_gesture self;
     last_gesture := last_gesture self;
     gesture_start_time := gesture_start_time self; cooldown_time := v;
     last_action_time := last_action_time self;
     last_rotation := last_rotation self;
     rotation_threshold := rotation_threshold self;
     rotation_accumulator := rotation_accumulator self;
     last_palm_x := last_palm_x self; last_palm_y := last_palm_y self;
     last_palm_z := last_palm_z self;
     swipe_threshold := swipe_threshold self;
     depth_threshold := depth_threshold self;
     finger_states := finger_states self;
     mouse_smoothing := mouse_smoothing self;
     mouse_anchor := mouse_anchor self; is_clicking := is_clicking self;
     is_dragging := is_dragging self; screen_w := screen_w self;
     screen_h := screen_h self; volume_control := volume_control self |}.

Definition with_last_action_time (v : Q) (self : Controller) : Controller :=
  {| mode := mode self; sensitivity := sensitivity self;
     current_gesture := current_gesture self;
     last_gesture := last_gesture self;
     gesture_start_time := gesture_start_time self;
     cooldown_time := cooldown_time self; last_action_time := v;
     last_rotation := last_rotation self;
     rotation_threshold := rotation_threshold self;
     rotation_accumulator := rotation_accumulator self;
     last_palm_x := last_palm_x self; last_palm_y := last_palm_y self;
     last_palm_z := last_palm_z self;
     swipe_threshold := swipe_threshold self;
     depth_threshold := depth_threshold self;
     finger_states := finger_states self;
     mouse_smoothing := mouse_smoothing self;
     mouse_anchor := mouse_anchor self; is_clicking := is_clicking self;
     is_dragging := is_dragging self; screen_w := screen_w self;
     screen_h := screen_h self; volume_control := volume_control self |}.

Definition with_last_rotation (v : option Q) (self : Controller) : Controller :=
  {| mode := mode self; sensitivity := sensitivity self;
     current_gesture := current_gesture self;
     last_gesture := last_gesture self;
     gesture_start_time := gesture_start_time self;
     cooldown_time := cooldown_time self;
     last_action_time := last_action_time self; last_rotation := v;
     rotation_threshold := rotation_threshold self;
     rotation_accumulator := rotation_accumulator self;
     last_palm_x := last_palm_x self; last_palm_y := last_palm_y self;
     last_palm_z := last_palm_z self;
     swipe_threshold := swipe_threshold self;
     depth_threshold := depth_threshold self;
     finger_states := finger_states self;
     mouse_smoothing := mouse_smoothing self;
     mouse_anchor := mouse_anchor self; is_clicking := is_clicking self;
     is_dragging := is_dragging self; screen_w := screen_w self;
     screen_h := screen_h self; volume_control := volume_control self |}.

Definition with_rotation_threshold (v : Q) (self : Controller) : Controller :=
  {| mode := mode self; sensitivity := sensitivity self;
     current_gesture := current_gesture self;
     last_gesture := last_gesture self;
     gesture_start_time := gesture_start_time self;
     cooldown_time := cooldown_time self;
     last_action_time := last_action_time self;
     last_rotation := last_rotation self; rotation_threshold := v;
     rotation_accumulator := rotation_accumulator self;
     last_palm_x := last_palm_x self; last_palm_y := last_palm_y self;
     last_palm_z := last_palm_z self;
     swipe_threshold := swipe_threshold self;
     depth_threshold := depth_threshold self;
     finger_states := finger_states self;
     mouse_smoothing := mouse_smoothing self;
     mouse_anchor := mouse_anchor self; is_clicking := is_clicking self;
     is_dragging := is_dragging self; screen_w := screen_w self;
     screen_h := screen_h self; volume_control := volume_control self |}.

Definition with_rotation_accumulator (v : Q) (self : Controller) : Controller :=
  {| mode := mode self; sensitivity := sensitivity self;
     current_gesture := current_gesture self;
     last_gesture := last_gesture self;
     gesture_start_time := gesture_start_time self;
     cooldown_time := cooldown_time self;
     last_action_time := last_action_time self;
     last_rotation := last_rotation self;
     rotation_threshold := rotation_threshold self;
     rotation_accumulator := v; last_palm_x := last_palm_x self;
     last_palm_y := last_palm_y self; last_palm_z := last_palm_z self;
     swipe_threshold := swipe_threshold self;
     depth_threshold := depth_threshold self;
     finger_states := finger_states self;
     mouse_smoothing := mouse_smoothing self;
     mouse_anchor := mouse_anchor self; is_clicking := is_clicking self;
     is_dragging := is_dragging self; screen_w := screen_w self;
     screen_h := screen_h self; volume_control := volume_control self |}.

Definition with_last_palm_x (v : option Z) (self : Controller) : Controller :=
  {| mode := mode self; sensitivity := sensitivity self;
     current_gesture := current_gesture self;
     last_gesture := last_gesture self;
     gesture_start_time := gesture_start_time self;
     cooldown_time := cooldown_time self;
     last_action_time := last_action_time self;
     last_rotation := last_rotation self;
     rotation_threshold := rotation_threshold self;
     rotation_accumulator := rotation_accumulator self; last_palm_x := v;
     last_palm_y := last_palm_y self; last_palm_z := last_palm_z self;
     swipe_threshold := swipe_threshold self;
     depth_threshold := depth_threshold self;
     finger_states := finger_states self;
     mouse_smoothing := mouse_smoothing self;
     mouse_anchor := mouse_anchor self; is_clicking := is_clicking self;
     is_dragging := is_dragging self; screen_w := screen_w self;
     screen_h := screen_h self; volume_control := volume_control self |}.

Definition with_last_palm_y (v : option Z) (self : Controller) : Controller :=
  {| mode := mode self; sensitivity := sensitivity self;
     current_gesture := current_gesture self;
     last_gesture := last_gesture self;
     gesture_start_time := gesture_start_time self;
     cooldown_time := cooldown_time self;
     last_action_time := last_action_time self;
     last_rotation := last_rotation self;
     rotation_threshold := rotation_threshold self;
     rotation_accumulator := rotation_accumulator self;
     last_palm_x := last_palm_x self; last_palm_y := v;
     last_palm_z := last_palm_z self;
     swipe_threshold := swipe_threshold self;
     depth_threshold := depth_threshold self;
     finger_states := finger_states self;
     mouse_smoothing := mouse_smoothing self;
     mouse_anchor := mouse_anchor self; is_clicking := is_clicking self;
     is_dragging := is_dragging self; screen_w := screen_w self;
     screen_h := screen_h self; volume_control := volume_control self |}.

Definition with_last_palm_z (v : option Q) (self : Controller) : Controller :=
  {| mode := mode self; sensitivity := sensitivity self;
     current_gesture := current_gesture self;
     last_gesture := last_gesture self;
     gesture_start_time := gesture_start_time self;
     cooldown_time := cooldown_time self;
     last_action_time := last_action_time self;
     last_rotation := last_rotation self;
     rotation_threshold := rotation_threshold self;
     rotation_accumulator := rotation_accumulator self;
     last_palm_x := last_palm_x self; last_palm_y := last_palm_y self;
     last_palm_z := v; swipe_threshold := swipe_threshold self;
     depth_threshold := depth_threshold self;
     finger_states := finger_states self;
     mouse_smoothing := mouse_smoothing self;
     mouse_anchor := mouse_anchor self; is_clicking := is_clicking self;
     is_dragging := is_dragging self; screen_w := screen_w self;
     screen_h := screen_h self; volume_control := volume_control self |}.

Definition with_swipe_threshold (v : Q) (self : Controller) : Controller :=
  {| mode := mode self; sensitivity := sensitivity self;
     current_gesture := current_gesture self;
     last_gesture := last_gesture self;
     gesture_start_time := gesture_start_time self;
     cooldown_time := cooldown_time self;
     last_action_time := last_action_time self;
     last_rotation := last_rotation self;
     rotation_threshold := rotation_threshold self;
     rotation_accumulator := rotation_accumulator self;
     last_palm_x := last_palm_x self; last_palm_y := last_palm_y self;
     last_palm_z := last_palm_z self; swipe_threshold := v;
     depth_threshold := depth_threshold self;
     finger_states := finger_states self;
     mouse_smoothing := mouse_smoothing self;
     mouse_anchor := mouse_anchor self; is_clicking := is_clicking self;
     is_dragging := is_dragging self; screen_w := screen_w self;
     screen_h := screen_h self; volume_control := volume_control self |}.

Definition with_depth_threshold (v : Q) (self : Controller) : Controller :=
  {| mode := mode self; sensitivity := sensitivity self;
     current_gesture := current_gesture self;
     last_gesture := last_gesture self;
     gesture_start_time := gesture_start_time self;
     cooldown_time := cooldown_time self;
     last_action_time := last_action_time self;
     last_rotation := last_rotation self;
     rotation_threshold := rotation_threshold self;
     rotation_accumulator := rotation_accumulator self;
     last_palm_x := last_palm_x self; last_palm_y := last_palm_y self;
     last_palm_z := last_palm_z self;
     swipe_threshold := swipe_threshold self; depth_threshold := v;
     finger_states := finger_states self;
     mouse_smoothing := mouse_smoothing self;
     mouse_anchor := mouse_anchor self; is_clicking := is_clicking self;
     is_dragging := is_dragging self; screen_w := screen_w self;
     screen_h := screen_h self; volume_control := volume_control self |}.

Definition with_finger_states (v : list bool) (self : Controller) : Controller :=
  {| mode := mode self; sensitivity := sensitivity self;
     current_gesture := current_gesture self;
     last_gesture := last_gesture self;
     gesture_start_time := gesture_start_time self;
     cooldown_time := cooldown_time self;
     last_action_time := last_action_time self;
     last_rotation := last_rotation self;
     rotation_threshold := rotation_threshold self;
     rotation_accumulator := rotation_accumulator self;
     last_palm_x := last_palm_x self; last_palm_y := last_palm_y self;
     last_palm_z := last_palm_z self;
     swipe_threshold := swipe_threshold self;
     depth_threshold := depth_threshold self; finger_states := v;
     mouse_smoothing := mouse_smoothing self;
     mouse_anchor := mouse_anchor self; is_clicking := is_clicking self;
     is_dragging := is_dragging self; screen_w := screen_w self;
     screen_h := screen_h self; volume_control := volume_control self |}.

Definition with_mouse_anchor (v : option (Z * Z)) (self : Controller) : Controller :=
  {| mode := mode self; sensitivity := sensitivity self;
     current_gesture := current_gesture self;
     last_gesture := last_gesture self;
     gesture_start_time := gesture_start_time self;
     cooldown_time := cooldown_time self;
     last_action_time := last_action_time self;
     last_rotation := last_rotation self;
     rotation_threshold := rotation_threshold self;
     rotation_accumulator := rotation_accumulator self;
     last_palm_x := last_palm_x self; last_palm_y := last_palm_y self;
     last_palm_z := last_palm_z self;
     swipe_threshold := swipe_threshold self;
     depth_threshold := depth_threshold self;
     finger_states := finger_states self;
     mouse_smoothing := mouse_smoothing self; mouse_anchor := v;
     is_clicking := is_clicking self; is_dragging := is_dragging self;
     screen_w := screen_w self; screen_h := screen_h self;
     volume_control := volume_control self |}.

Definition with_is_clicking (v : bool) (self : Controller) : Controller :=
  {| mode := mode self; sensitivity := sensitivity self;
     current_gesture := current_gesture self;
     last_gesture := last_gesture self;
     gesture_start_time := gesture_start_time self;
     cooldown_time := cooldown_time self;
     last_action_time := last_action_time self;
     last_rotation := last_rotation self;
     rotation_threshold := rotation_threshold self;
     rotation_accumulator := rotation_accumulator self;
     last_palm_x := last_palm_x self; last_palm_y := last_palm_y self;
     last_palm_z := last_palm_z self;
     swipe_threshold := swipe_threshold self;
     depth_threshold := depth_threshold self;
     finger_states := finger_states self;
     mouse_smoothing := mouse_smoothing self;
     mouse_anchor := mouse_anchor self; is_clicking := v;
     is_dragging := is_dragging self; screen_w := screen_w self;
     screen_h := screen_h self; volume_control := volume_control self |}.

Definition with_is_dragging (v : bool) (self : Controller) : Controller :=
  {| mode := mode self; sensitivity := sensitivity self;
     current_gesture := current_gesture self;
     last_gesture := last_gesture self;
     gesture_start_time := gesture_start_time self;
     cooldown_time := cooldown_time self;
     last_action_time := last_action_time self;
     last_rotation := last_rotation self;
     rotation_threshold := rotation_threshold self;
     rotation_accumulator := rotation_accumulator self;
     last_palm_x := last_palm_x self; last_palm_y := last_palm_y self;
     last_palm_z := last_palm_z self;
     swipe_threshold := swipe_threshold self;
     depth_threshold := depth_threshold self;
     finger_states := finger_states self;
     mouse_smoothing := mouse_smoothing self;
     mouse_anchor := mouse_anchor self; is_clicking := is_clicking self;
     is_dragging := v; screen_w := screen_w self; screen_h := screen_h self;
     volume_control := volume_control self |}.
(** ** The host: what the process runs on *)

(** Calls the controller makes into pyautogui and into the Windows audio
    endpoint ([IAudioEndpointVolume]). *)
Inductive Call : Type :=
  | press (key : string)
  | hotkey (k1 k2 : string)
  | position
  | moveTo (x y : Z)
  | click
  | rightClick
  | scroll (amount : Z)
  | mouseDown
  | mouseUp
  | GetMasterVolumeLevelScalar
  | SetMasterVolumeLevelScalar (level : Q).

(** A log entry is a call together with whether it returned normally
    ([true]) or raised ([false]). *)
Definition Log : Type := list (Call * bool).

Record Host : Type := mkHost {
  platform_windows : bool;            (* platform.system() == "Windows" *)
  WINDOWS_AUDIO_AVAILABLE : bool;
  PYAUTOGUI_AVAILABLE : bool;
  activate_ok : bool;                 (* GetSpeakers().Activate(...) succeeds *)
  pyautogui_size : Z * Z;
  raises : Log -> Call -> bool;       (* does this call raise, given the past *)
  position_result : Log -> Z * Z;     (* pyautogui.position() *)
  volume_result : Log -> Q            (* GetMasterVolumeLevelScalar() *)
}.

(** ** Construction, mode, sensitivity, reset *)

Section Controller_on_host.

Variable host : Host.

(** [__init__(mode, sensitivity)].  [t0] is the reading of [time.time()]
    on line 67.  [None] is the ZeroDivisionError of [0.8 / sensitivity]. *)
Definition __init__ (t0 : Q) (mode0 : ControlMode) (sensitivity0 : Q)
  : option Controller :=
  match py_div 0.8 sensitivity0, py_div 25 sensitivity0,
        py_div 100 sensitivity0, py_div 0.08 sensitivity0 with
  | Some cd, Some rt, Some sw, Some dp =>
      Some {| mode := mode0;
              sensitivity := sensitivity0;
              current_gesture := NONE;
              last_gesture := NONE;
              gesture_start_time := t0;
              cooldown_time := py_max 0.3 cd;
              last_action_time := 0;
              last_rotation := None;
              rotation_threshold := py_max 15 rt;
              rotation_accumulator := 0;
              last_palm_x := None;
              last_palm_y := None;
              last_palm_z := None;
              swipe_threshold := py_max 60 sw;
              depth_threshold := dp;
              finger_states := [false; false; false; false; false];
              mouse_smoothing := 0.3;
              mouse_anchor := None;
              is_clicking := false;
              is_dragging := false;
              screen_w := if PYAUTOGUI_AVAILABLE host
                          then fst (pyautogui_size host) else 1920%Z;
              screen_h := if PYAUTOGUI_AVAILABLE host
                          then snd (pyautogui_size host) else 1080%Z;
              volume_control := platform_windows host
                                && WINDOWS_AUDIO_AVAILABLE host
                                && activate_ok host |}
  | _, _, _, _ => None
  end.

(** [reset_state()], lines 128-137. *)
Definition reset_state (self : Controller) : Controller :=
  let self := with_last_palm_x None self in
  let self := with_last_palm_y None self in
  let self := with_last_palm_z None self in
  let self := with_last_rotation None self in
  let self := with_rotation_accumulator 0 self in
  let self := with_mouse_anchor None self in
  let self := with_is_clicking false self in
  let self := with_is_dragging false self in
  self.

(** [set_mode(mode)], lines 110-117 (the printing is left out). *)
Definition set_mode (m : ControlMode) (self : Controller) : Controller :=
  let self := with_mode m self in
  reset_state self.

(** [set_sensitivity(sensitivity)], lines 119-126.  [None] is the
    ZeroDivisionError of a division by the stored sensitivity. *)
Definition set_sensitivity (s : Q) (self : Controller) : option Controller :=
  let self := with_sensitivity (py_max 0.3 (py_min 3.0 s)) self in
  match py_div 0.8 (sensitivity self) with
  | None => None
  | Some cd =>
  let self := with_cooldown_time (py_max 0.3 cd) self in
  match py_div 25 (sensitivity self) with
  | None => None
  | Some rt =>
  let self := with_rotation_threshold (py_max 15 rt) self in
  match py_div 100 (sensitivity self) with
  | None => None
  | Some sw =>
  let self := with_swipe_threshold (py_max 60 sw) self in
  match py_div 0.08 (sensitivity self) with
  | None => None
  | Some dp =>
  let self := with_depth_threshold dp self in
  Some self
  end end end end.

End Controller_on_host.

(** ** Gesture classification *)

(** One hand landmark, a tuple [(x, y, z)] of normalized coordinates. *)
Definition Landmark : Type := (Q * Q * Q)%type.

Definition lm0 (p : Landmark) : Q := fst (fst p).   (* p[0] *)
Definition lm1 (p : Landmark) : Q := snd (fst p).   (* p[1] *)

(** [fingers[i] = v] on a list that is long enough. *)
Fixpoint list_assign {A : Type} (l : list A) (i : nat) (v : A) : list A :=
  match l, i with
  | [], _ => []
  | _ :: t, O => v :: t
  | h :: t, S j => h :: list_assign t j v
  end.

(** [enumerate(zip(xs, ys))]. *)
Fixpoint enumerate_from {A : Type} (i : nat) (l : list A) : list (nat * A) :=
  match l with
  | [] => []
  | a :: t => (i, a) :: enumerate_from (S i) t
  end.

(** The [for] loop of lines 157-160.  [None] is an IndexError. *)
Fixpoint finger_loop (landmarks : list Landmark)
    (pairs : list (nat * (nat * nat))) (fingers : list bool)
  : option (list bool) :=
  match pairs with
  | [] => Some fingers
  | (i, (tip_idx, base_idx)) :: rest =>
      match nth_error landmarks tip_idx, nth_error landmarks base_idx with
      | Some tip, Some base =>
          finger_loop landmarks rest
            (list_assign fingers (i + 1) (lm1 tip <? lm1 base - 0.03))
      | _, _ => None
      end
  end.

(** [_detect_finger_states(landmarks)], lines 139-162. *)
Definition _detect_finger_states (landmarks : list Landmark)
  : option (list bool) :=
  let fingers := [false; false; false; false; false] in
  match nth_error landmarks 4, nth_error landmarks 2 with
  | Some thumb_tip, Some thumb_base =>
      let fingers :=
        list_assign fingers 0 (Qabs (lm0 thumb_tip - lm0 thumb_base) >? 0.04) in
      let finger_tips := [8; 12; 16; 20]%nat in
      let finger_bases := [6; 10; 14; 18]%nat in
      finger_loop landmarks
        (enumerate_from 0 (combine finger_tips finger_bases)) fingers
  | _, _ => None
  end.

(** [math.sqrt(v) < d] on exact numbers: the rationals have no square
    root, and for [v >= 0] the root is below [d] exactly when [d] is
    positive and [v < d * d]. *)
Definition sqrt_ltb (v d : Q) : bool := (0 <? d) && (v <? d * d).

(** [_detect_pinch(landmarks)], lines 164-172. *)
Definition _detect_pinch (landmarks : list Landmark) : option bool :=
  match nth_error landmarks 4, nth_error landmarks 8 with
  | Some thumb_tip, Some index_tip =>
      Some (sqrt_ltb
              ((lm0 thumb_tip - lm0 index_tip) ^ 2
               + (lm1 thumb_tip - lm1 index_tip) ^ 2)
              0.05)
  | _, _ => None
  end.

(** [any(l)]. *)
Definition any (l : list bool) : bool := existsb (fun b => b) l.

(** [l[i]] for a list of flags known to have five entries. *)
Definition flag (l : list bool) (i : nat) : bool := nth i l false.

(** Lines 185-197: the finger-combination and openness rules. *)
Definition shape_rules (pinch : bool) (fs : list bool) (openness : Q)
  : Gesture :=
  if pinch then PINCH
  else if flag fs 1 && negb (any (skipn 2 fs)) then POINTING
  else if flag fs 1 && flag fs 2 && negb (any (skipn 3 fs)) then PEACE
  else if flag fs 0 && negb (any (skipn 1 fs)) then THUMBS_UP
  else if openness <? 25 then FIST
  else if openness >? 75 then OPEN_HAND
  else NONE.

(** Lines 200-205: push and pull. *)
Definition depth_rule (self : Controller) (palm_z : Q) (gesture : Gesture)
  : Gesture :=
  match last_palm_z self with
  | Some last_z =>
      let z_diff := palm_z - last_z in
      if z_diff <? - depth_threshold self then PALM_PUSH
      else if z_diff >? depth_threshold self then PALM_PULL
      else gesture
  | None => gesture
  end.

(** Lines 209-213: the rotation difference brought back by one turn. *)
Definition rot_diff (rotation last : Q) : Q :=
  let rot_diff := rotation - last in
  if rot_diff >? 180 then rot_diff - 360
  else if rot_diff <? -180 then rot_diff + 360
  else rot_diff.

(** Lines 208-222: accumulation of rotation and the rotate gestures. *)
Definition rotation_rule (self : Controller) (rotation : Q)
    (gesture : Gesture) : Controller * Gesture :=
  match last_rotation self with
  | Some last =>
      let self :=
        with_rotation_accumulator
          (rotation_accumulator self + rot_diff rotation last) self in
      if Qabs (rotation_accumulator self) >? rotation_threshold self then
        let gesture :=
          if rotation_accumulator self >? 0 then ROTATE_RIGHT
          else ROTATE_LEFT in
        (with_rotation_accumulator 0 self, gesture)
      else (self, gesture)
  | None => (self, gesture)
  end.

(** The gesture a swipe along one axis yields (lines 230 and 233). *)
Definition swipe_x (x_diff : Z) : Gesture :=
  if (x_diff >? 0)%Z then SWIPE_RIGHT else SWIPE_LEFT.

Definition swipe_y (y_diff : Z) : Gesture :=
  if (y_diff <? 0)%Z then SWIPE_UP else SWIPE_DOWN.

(** Lines 225-234: swipes. *)
Definition swipe_rule (self : Controller) (palm_x palm_y : Z)
    (gesture : Gesture) : Controller * Gesture :=
  match last_palm_x self, last_palm_y self with
  | Some last_x, Some last_y =>
      let x_diff := (palm_x - last_x)%Z in
      let y_diff := (palm_y - last_y)%Z in
      if (inject_Z (Z.abs x_diff) >? swipe_threshold self)
         && (Z.abs y_diff <? Z.abs x_diff)%Z then
        (with_last_palm_x (Some palm_x) self, swipe_x x_diff)
      else if (inject_Z (Z.abs y_diff) >? swipe_threshold self)
              && (Z.abs x_diff <? Z.abs y_diff)%Z then
        (with_last_palm_y (Some palm_y) self, swipe_y y_diff)
      else (self, gesture)
  | _, _ => (self, gesture)
  end.

Definition is_swipe (g : Gesture) : bool :=
  match g with
  | SWIPE_LEFT | SWIPE_RIGHT | SWIPE_UP | SWIPE_DOWN => true
  | _ => false
  end.

Definition is_rotate (g : Gesture) : bool :=
  match g with ROTATE_LEFT | ROTATE_RIGHT => true | _ => false end.

(** Lines 237-241: the position baselines follow small movements only. *)
Definition update_tracking (self : Controller) (palm_x palm_y : Z)
    (gesture : Gesture) : Controller :=
  if negb (is_swipe gesture) then
    let self :=
      match last_palm_x self with
      | None => with_last_palm_x (Some palm_x) self
      | Some last_x =>
          if (Z.abs (palm_x - last_x) <? 10)%Z
          then with_last_palm_x (Some palm_x) self else self
      end in
    let self :=
      match last_palm_y self with
      | None => with_last_palm_y (Some palm_y) self
      | Some last_y =>
          if (Z.abs (palm_y - last_y) <? 10)%Z
          then with_last_palm_y (Some palm_y) self else self
      end in
    self
  else self.

(** [detect_gesture(openness, rotation, palm_x, palm_y, palm_z, landmarks)],
    lines 174-246.  [None] is the IndexError of a landmark list that is
    too short; it is raised before any attribute is assigned. *)
Definition detect_gesture (self : Controller) (openness rotation : Q)
    (palm_x palm_y : Z) (palm_z : Q) (landmarks : list Landmark)
  : option (Controller * Gesture) :=
  match _detect_finger_states landmarks with
  | None => None
  | Some fs =>
  let self := with_finger_states fs self in
  match _detect_pinch landmarks with
  | None => None
  | Some pinch =>
  let gesture := shape_rules pinch (finger_states self) openness in
  let gesture := depth_rule self palm_z gesture in
  let '(self, gesture) := rotation_rule self rotation gesture in
  let '(self, gesture) := swipe_rule self palm_x palm_y gesture in
  let self := update_tracking self palm_x palm_y gesture in
  let self := with_last_rotation (Some rotation) self in
  let self := with_last_palm_z (Some palm_z) self in
  let self := with_current_gesture gesture self in
  Some (self, gesture)
  end end.

(** ** Calls into the host, exceptions and the action log *)

(** A computation over a state [St] that may log calls and may raise:
    the state and the log reached at the point of the exception are
    kept, as assignments made before a Python exception are. *)
Definition M (St A : Type) : Type := St -> Log -> St * Log * option A.

Definition ret {St A : Type} (a : A) : M St A :=
  fun s l => (s, l, Some a).

Definition bind {St A B : Type} (m : M St A) (k : A -> M St B) : M St B :=
  fun s l =>
    match m s l with
    | (s', l', Some a) => k a s' l'
    | (s', l', None) => (s', l', None)
    end.

Declare Scope py_scope.
Delimit Scope py_scope with py.
Notation "x <- m ;; k" := (bind m (fun x => k))
  (at level 61, m at next level, right associativity) : py_scope.
Notation "m ;; k" := (bind m (fun _ => k))
  (at level 61, right associativity) : py_scope.
Open Scope py_scope.

Definition get {St : Type} : M St St := fun s l => (s, l, Some s).

Definition modify {St : Type} (f : St -> St) : M St unit :=
  fun s l => (f s, l, Some tt).

(** [try: body  except Exception: handler]. *)
Definition try_except {St : Type} (body handler : M St unit) : M St unit :=
  fun s l =>
    match body s l with
    | (s', l', Some _) => (s', l', Some tt)
    | (s', l', None) => handler s' l'
    end.

(** [for _ in range(n): body]. *)
Fixpoint repeat_body {St : Type} (n : nat) (body : M St unit) : M St unit :=
  match n with
  | O => ret tt
  | S k => body ;; repeat_body k body
  end.

Definition for_range {St : Type} (n : Z) (body : M St unit) : M St unit :=
  repeat_body (Z.to_nat n) body.

(** The body of a method with the local variable [action_taken]: the
    state is the object together with that variable, initially [False]. *)
Definition Locals : Type := (Controller * bool)%type.

Definition self_ : M Locals Controller := fun s l => (s, l, Some (fst s)).

Definition assign (f : Controller -> Controller) : M Locals unit :=
  modify (fun s => (f (fst s), snd s)).

Definition action_taken_True : M Locals unit :=
  modify (fun s => (fst s, true)).

Definition with_action_taken (body : M Locals unit) : M Controller bool :=
  fun self l =>
    match body (self, false) l with
    | (s, l', Some _) => (fst s, l', Some (snd s))
    | (s, l', None) => (fst s, l', None)
    end.

Section Dispatch.

Variable host : Host.

(** A call that returns nothing of interest. *)
Definition invoke {St : Type} (c : Call) : M St unit :=
  fun s l =>
    if raises host l c then (s, l ++ [(c, false)], None)
    else (s, l ++ [(c, true)], Some tt).

Definition invoke_position {St : Type} : M St (Z * Z) :=
  fun s l =>
    if raises host l position then (s, l ++ [(position, false)], None)
    else (s, l ++ [(position, true)], Some (position_result host l)).

Definition invoke_GetMasterVolumeLevelScalar {St : Type} : M St Q :=
  fun s l =>
    if raises host l GetMasterVolumeLevelScalar
    then (s, l ++ [(GetMasterVolumeLevelScalar, false)], None)
    else (s, l ++ [(GetMasterVolumeLevelScalar, true)],
          Some (volume_result host l)).

(** [_adjust_volume(change)], lines 480-495. *)
Definition _adjust_volume (change : Q) : M Locals unit :=
  self <- self_ ;;
  if platform_windows host && volume_control self then
    try_except
      (current <- invoke_GetMasterVolumeLevelScalar ;;
       let new_volume := py_max 0.0 (py_min 1.0 (current + change)) in
       invoke (SetMasterVolumeLevelScalar new_volume))
      (ret tt)
  else if PYAUTOGUI_AVAILABLE host then
    if change >? 0 then
      for_range (py_int (Qabs change * 20)) (invoke (press "volumeup"))
    else
      for_range (py_int (Qabs change * 20)) (invoke (press "volumedown"))
  else ret tt.

(** The [try] body of [_media_control], lines 271-310. *)
Definition media_actions (gesture : Gesture) : M Locals unit :=
  match gesture with
  | FIST => invoke (press "playpause") ;; action_taken_True
  | OPEN_HAND => invoke (press "playpause") ;; action_taken_True
  | ROTATE_LEFT => _adjust_volume (-0.05) ;; action_taken_True
  | ROTATE_RIGHT => _adjust_volume 0.05 ;; action_taken_True
  | SWIPE_LEFT => invoke (press "prevtrack") ;; action_taken_True
  | SWIPE_RIGHT => invoke (press "nexttrack") ;; action_taken_True
  | SWIPE_UP => _adjust_volume 0.1 ;; action_taken_True
  | SWIPE_DOWN => _adjust_volume (-0.1) ;; action_taken_True
  | PEACE => invoke (press "space") ;; action_taken_True
  | THUMBS_UP => invoke (hotkey "ctrl" "up") ;; action_taken_True
  | _ => ret tt
  end.

(** The [try] body of [_window_management], lines 396-427. *)
Definition window_actions (gesture : Gesture) : M Locals unit :=
  match gesture with
  | SWIPE_LEFT => invoke (hotkey "win" "left") ;; action_taken_True
  | SWIPE_RIGHT => invoke (hotkey "win" "right") ;; action_taken_True
  | SWIPE_UP => invoke (hotkey "win" "up") ;; action_taken_True
  | SWIPE_DOWN => invoke (hotkey "win" "down") ;; action_taken_True
  | FIST => invoke (hotkey "alt" "f4") ;; action_taken_True
  | PEACE => invoke (hotkey "alt" "tab") ;; action_taken_True
  | OPEN_HAND => invoke (hotkey "win" "d") ;; action_taken_True
  | THUMBS_UP => invoke (hotkey "win" "tab") ;; action_taken_True
  | _ => ret tt
  end.

(** The [try] body of [_presentation_control], lines 448-471. *)
Definition presentation_actions (gesture : Gesture) : M Locals unit :=
  match gesture with
  | SWIPE_RIGHT | POINTING => invoke (press "right") ;; action_taken_True
  | SWIPE_LEFT => invoke (press "left") ;; action_taken_True
  | FIST => invoke (press "b") ;; action_taken_True
  | OPEN_HAND => invoke (press "w") ;; action_taken_True
  | PEACE => invoke (press "home") ;; action_taken_True
  | THUMBS_UP => invoke (press "end") ;; action_taken_True
  | _ => ret tt
  end.

(** The shape shared by [_media_control], [_window_management] and
    [_presentation_control]: the cooldown gate, the availability guard,
    the guarded [try] body and the update of [last_action_time]. [now] is
    the reading of [time.time()] on the first line of the method. *)
Definition rate_gated (actions : Gesture -> M Locals unit) (now : Q)
    (gesture : Gesture) : M Controller bool :=
  self <- get ;;
  if now - last_action_time self <? cooldown_time self then ret false
  else if negb (PYAUTOGUI_AVAILABLE host) then ret false
  else
    action_taken <- with_action_taken
                      (try_except (actions gesture) (ret tt)) ;;
    (if action_taken : bool
     then modify (with_last_action_time now) else ret tt) ;;
    ret action_taken.

(** [_media_control(gesture)], lines 260-317. *)
Definition _media_control : Q -> Gesture -> M Controller bool :=
  rate_gated media_actions.

(** [_window_management(gesture)], lines 384-434. *)
Definition _window_management : Q -> Gesture -> M Controller bool :=
  rate_gated window_actions.

(** [_presentation_control(gesture)], lines 436-478. *)
Definition _presentation_control : Q -> Gesture -> M Controller bool :=
  rate_gated presentation_actions.

(** The [try] body of [_mouse_control], lines 327-377. *)
Definition mouse_actions (gesture : Gesture) (palm_x palm_y : Z)
  : M Locals unit :=
  (match gesture with
   | OPEN_HAND | POINTING =>
       self <- self_ ;;
       let target_x := py_int (inject_Z (palm_x * screen_w self) / 640) in
       let target_y := py_int (inject_Z (palm_y * screen_h self) / 480) in
       cur <- invoke_position ;;
       let current_x := fst cur in
       let current_y := snd cur in
       let new_x := smoothed current_x target_x (mouse_smoothing self) in
       let new_y := smoothed current_y target_y (mouse_smoothing self) in
       invoke (moveTo new_x new_y) ;;
       action_taken_True
   | PINCH =>
       self <- self_ ;;
       (if negb (is_clicking self)
        then invoke click ;; assign (with_is_clicking true)
        else ret tt) ;;
       action_taken_True
   | _ => assign (with_is_clicking false)
   end) ;;
  self <- self_ ;;
  (if gesture_eqb gesture PEACE && negb (is_clicking self)
   then invoke rightClick ;;
        assign (with_is_clicking true) ;;
        action_taken_True
   else ret tt) ;;
  self <- self_ ;;
  (if gesture_eqb gesture FIST then
     match last_palm_y self with
     | Some last_y =>
         let scroll_amount := ((palm_y - last_y) * 2)%Z in
         if (Z.abs scroll_amount >? 5)%Z
         then invoke (scroll scroll_amount) ;; action_taken_True
         else ret tt
     | None => ret tt
     end
   else ret tt) ;;
  self <- self_ ;;
  if gesture_eqb gesture THUMBS_UP then
    (if negb (is_dragging self)
     then invoke mouseDown ;; assign (with_is_dragging true)
     else ret tt) ;;
    action_taken_True
  else
    if is_dragging self
    then invoke mouseUp ;; assign (with_is_dragging false)
    else ret tt.

(** [_mouse_control(gesture, palm_x, palm_y)], lines 319-382. *)
Definition _mouse_control (gesture : Gesture) (palm_x palm_y : Z)
  : M Controller bool :=
  if negb (PYAUTOGUI_AVAILABLE host) then ret false
  else with_action_taken
         (try_except (mouse_actions gesture palm_x palm_y) (ret tt)).

(** [execute_action(gesture, palm_x, palm_y)], lines 248-258. *)
Definition execute_action (now : Q) (gesture : Gesture) (palm_x palm_y : Z)
  : M Controller bool :=
  self <- get ;;
  match mode self with
  | MEDIA => _media_control now gesture
  | MOUSE => _mouse_control gesture palm_x palm_y
  | WINDOW => _window_management now gesture
  | PRESENTATION => _presentation_control now gesture
  end.

(** One frame of input, as [main.run] passes it to [process_frame]. *)
Record Frame : Type := mkFrame {
  openness : Q;
  rotation : Q;
  palm_x : Z;
  palm_y : Z;
  palm_z : Q;
  landmarks : list Landmark
}.

(** The readings of [time.time()] during one [process_frame]: on line 502
    (taken only when the gesture changes), on line 508 (taken only for a
    gesture other than NONE) and at the head of the rate-gated method. *)
Record Clock : Type := mkClock {
  t_start : Q;
  t_hold : Q;
  t_now : Q
}.

Definition hold_time (m : ControlMode) : Q :=
  match m with MOUSE => 0.2 | _ => 0.3 end.

(** [detect_gesture] as a step of the object's state. *)
Definition detect (f : Frame) : M Controller Gesture :=
  fun self l =>
    match detect_gesture self (openness f) (rotation f) (palm_x f)
            (palm_y f) (palm_z f) (landmarks f) with
    | Some (self', g) => (self', l, Some g)
    | None => (self, l, None)
    end.

(** [process_frame(...)], lines 497-511. *)
Definition process_frame (clk : Clock) (f : Frame)
  : M Controller (Gesture * bool) :=
  gesture <- detect f ;;
  self <- get ;;
  (if negb (gesture_eqb gesture NONE)
      && negb (gesture_eqb gesture (last_gesture self))
   then modify (with_gesture_start_time (t_start clk)) ;;
        modify (with_last_gesture gesture)
   else ret tt) ;;
  self <- get ;;
  if negb (gesture_eqb gesture NONE)
     && (t_hold clk - gesture_start_time self >? hold_time (mode self))
  then
    action_taken <- execute_action (t_now clk) gesture (palm_x f) (palm_y f) ;;
    ret (gesture, action_taken)
  else ret (gesture, false).

End Dispatch.

(** ** Concrete hosts, hands and controllers used in examples *)

(** A machine with pyautogui, no Windows audio, where no call fails. *)
Definition quiet_host : Host :=
  {| platform_windows := false;
     WINDOWS_AUDIO_AVAILABLE := false;
     PYAUTOGUI_AVAILABLE := true;
     activate_ok := false;
     pyautogui_size := (1920, 1080)%Z;
     raises := fun _ _ => false;
     position_result := fun _ => (0, 0)%Z;
     volume_result := fun _ => 0.5 |}.

(** The same machine with every pyautogui call raising. *)
Definition broken_host : Host :=
  {| platform_windows := false;
     WINDOWS_AUDIO_AVAILABLE := false;
     PYAUTOGUI_AVAILABLE := true;
     activate_ok := false;
     pyautogui_size := (1920, 1080)%Z;
     raises := fun _ _ => true;
     position_result := fun _ => (0, 0)%Z;
     volume_result := fun _ => 0.5 |}.

(** A Windows machine whose audio endpoint was activated at construction
    and whose volume query raises afterwards. *)
Definition windows_host : Host :=
  {| platform_windows := true;
     WINDOWS_AUDIO_AVAILABLE := true;
     PYAUTOGUI_AVAILABLE := true;
     activate_ok := true;
     pyautogui_size := (1920, 1080)%Z;
     raises := fun _ c =>
                 match c with
                 | GetMasterVolumeLevelScalar => true
                 | _ => false
                 end;
     position_result := fun _ => (0, 0)%Z;
     volume_result := fun _ => 0.5 |}.

(** A machine without pyautogui. *)
Definition bare_host : Host :=
  {| platform_windows := false;
     WINDOWS_AUDIO_AVAILABLE := false;
     PYAUTOGUI_AVAILABLE := false;
     activate_ok := false;
     pyautogui_size := (0, 0)%Z;
     raises := fun _ _ => false;
     position_result := fun _ => (0, 0)%Z;
     volume_result := fun _ => 0 |}.

Definition origin : Landmark := (0, 0, 0).

(** Twenty-one landmarks, all at the origin except the thumb base (2),
    thumb tip (4), index base (6) and index tip (8). *)
Definition hand (thumb_base thumb_tip index_base index_tip : Landmark)
  : list Landmark :=
  [origin; origin; thumb_base; origin; thumb_tip; origin; index_base;
   origin; index_tip] ++ repeat origin 12.

(** No finger extended, thumb tip away from the index tip. *)
Definition closed_hand : list Landmark :=
  hand (0.5, 0.5, 0) (0.5, 0.5, 0) (0.5, 0.4, 0) (0.5, 0.4, 0).

(** Thumb and index extended, the other three folded, no pinch. *)
Definition thumb_and_index : list Landmark :=
  hand (0.4, 0.5, 0) (0.5, 0.5, 0) (0.5, 0.4, 0) (0.5, 0.2, 0).

(** The controller [main.run] builds: Media mode, sensitivity 1.0, made at
    time 0 on [quiet_host]. *)
Definition fresh_controller : Controller :=
  {| mode := MEDIA; sensitivity := 1; current_gesture := NONE;
     last_gesture := NONE; gesture_start_time := 0;
     cooldown_time := 0.8; last_action_time := 0;
     last_rotation := None; rotation_threshold := 25;
     rotation_accumulator := 0;
     last_palm_x := None; last_palm_y := None; last_palm_z := None;
     swipe_threshold := 100; depth_threshold := 0.08;
     finger_states := [false; false; false; false; false];
     mouse_smoothing := 0.3; mouse_anchor := None;
     is_clicking := false; is_dragging := false;
     screen_w := 1920; screen_h := 1080; volume_control := false |}.

(** The controller built with the same arguments on [windows_host]. *)
Definition windows_controller : Controller :=
  {| mode := MEDIA; sensitivity := 1; current_gesture := NONE;
     last_gesture := NONE; gesture_start_time := 0;
     cooldown_time := 0.8; last_action_time := 0;
     last_rotation := None; rotation_threshold := 25;
     rotation_accumulator := 0;
     last_palm_x := None; last_palm_y := None; last_palm_z := None;
     swipe_threshold := 100; depth_threshold := 0.08;
     finger_states := [false; false; false; false; false];
     mouse_smoothing := 0.3; mouse_anchor := None;
     is_clicking := false; is_dragging := false;
     screen_w := 1920; screen_h := 1080; volume_control := true |}.

(** A controller in the middle of a session: baselines set at palm
    (320, 240), rotation 90 degrees, depth 0. *)
Definition tracking : Controller :=
  with_last_palm_x (Some 320%Z)
    (with_last_palm_y (Some 240%Z)
       (with_last_palm_z (Some 0)
          (with_last_rotation (Some 90) fresh_controller))).

(** A frame at palm (320, 240), rotation 90, depth 0. *)
Definition still_frame (o : Q) (lms : list Landmark) : Frame :=
  {| openness := o; rotation := 90; palm_x := 320; palm_y := 240;
     palm_z := 0; landmarks := lms |}.

(** All readings of the clock within one frame equal to [t]. *)
Definition at_time (t : Q) : Clock :=
  {| t_start := t; t_hold := t; t_now := t |}.

(** A controller that has just recognised a fist at time 10. *)
Definition after_fist : Controller :=
  fst (fst (process_frame quiet_host (at_time 10)
              (still_frame 10 closed_hand) fresh_controller [])).

(** ** Series of calls *)

(** Calls that go to pyautogui, as opposed to the audio endpoint. *)
Definition is_pyautogui (c : Call) : bool :=
  match c with
  | GetMasterVolumeLevelScalar | SetMasterVolumeLevelScalar _ => false
  | _ => true
  end.

(** One call of [execute_action] with the clock reading it takes. *)
Record DispatchCall : Type := mkDispatchCall {
  call_now : Q;
  call_gesture : Gesture;
  call_x : Z;
  call_y : Z
}.

(** Successive calls of [execute_action] on one controller; the result
    pairs each clock reading with the [action_taken] it returned. *)
Fixpoint dispatch_series (host : Host) (calls : list DispatchCall)
    (self : Controller) (log : Log) : Controller * Log * list (Q * bool) :=
  match calls with
  | [] => (self, log, [])
  | c :: rest =>
      match execute_action host (call_now c) (call_gesture c)
              (call_x c) (call_y c) self log with
      | (self', log', r) =>
          match dispatch_series host rest self' log' with
          | (self'', log'', outs) =>
              (self'', log'',
               (call_now c, match r with Some b => b | None => false end)
                 :: outs)
          end
      end
  end.

(** The clock readings of the calls that reported an action. *)
Definition taken_times (outs : list (Q * bool)) : list Q :=
  map fst (filter snd outs).

Definition is_rightClick (e : Call * bool) : bool :=
  match fst e with rightClick => true | _ => false end.

(** How many times [rightClick] was called. *)
Definition rightClicks (log : Log) : nat :=
  List.length (filter is_rightClick log).

(** Successive calls of [process_frame], each with its clock readings;
    the result lists what each call returned ([None]: it raised). *)
Fixpoint frame_series (host : Host) (frames : list (Clock * Frame))
    (self : Controller) (log : Log)
  : Controller * Log * list (option (Gesture * bool)) :=
  match frames with
  | [] => (self, log, [])
  | (clk, f) :: rest =>
      match process_frame host clk f self log with
      | (self', log', r) =>
          match frame_series host rest self' log' with
          | (self'', log'', rs) => (self'', log'', r :: rs)
          end
      end
  end.

(** The reading of the hold-time gate that C5 gives: at time [t] the
    gesture [g] has been recognised in every frame since some frame that
    lies more than [hold] back.  [history] pairs the time of each frame
    with the gesture it was classified as. *)
Definition held_continuously (history : list (Q * Gesture)) (g : Gesture)
    (t hold : Q) : Prop :=
  exists t0,
    hold < t - t0
    /\ In (t0, g) history
    /\ forall t' g', In (t', g') history -> t0 <= t' -> t' <= t -> g' = g.

(** A fist at time 10, a relaxed hand at time 20, a fist again at time
    30, the palm at rest throughout. *)
Definition fist_pause_fist : list (Clock * Frame) :=
  [ (at_time 10, still_frame 10 closed_hand);
    (at_time 20, still_frame 50 closed_hand);
    (at_time 30, still_frame 10 closed_hand) ].

(** Four calls in Media mode at times 10, 10.5, 10.7 and 12. *)
Definition four_calls : list DispatchCall :=
  [ mkDispatchCall 10 FIST 0 0; mkDispatchCall 10.5 FIST 0 0;
    mkDispatchCall 10.7 PEACE 0 0; mkDispatchCall 12 SWIPE_LEFT 0 0 ].

(** Three calls with a peace sign. *)
Definition three_peace_calls : list DispatchCall :=
  [ mkDispatchCall 1 PEACE 100 100; mkDispatchCall 2 PEACE 100 100;
    mkDispatchCall 3 PEACE 101 100 ].

(** [fresh_controller] switched to Mouse mode, as key 2 of [main.run]
    does, with a click in progress. *)
Definition mouse_controller : Controller :=
  with_is_clicking true (set_mode MOUSE fresh_controller).

(** ** Notions used in the statements *)

(** What a table of actions may do: it leaves the object alone, it only
    appends to the log, a pyautogui call that raises ends it with the
    exception, and [action_taken] is still [False] when it ends so. *)
Definition table_behaved (host : Host) (actions : Gesture -> M Locals unit)
  : Prop :=
  forall (g : Gesture) (self : Controller) (log : Log),
  exists new flag r,
    actions g (self, false) log = ((self, flag), log ++ new, r)
    /\ (forall c, In (c, false) new -> is_pyautogui c = true -> r = None)
    /\ (r = None -> flag = false).

(** [t2] lies at least [cd] after [t1]. *)
Definition apart (cd t1 t2 : Q) : Prop := cd <= t2 - t1.

(** The fields the gate works with. *)
Definition same_hold_state (s s' : Controller) : Prop :=
  last_gesture s' = last_gesture s
  /\ gesture_start_time s' = gesture_start_time s
  /\ mode s' = mode s.

(** The gate of [process_frame] (lines 501-503): the state after it. *)
Definition after_gate (clk : Clock) (g : Gesture) (s1 : Controller)
  : Controller :=
  if negb (gesture_eqb g NONE) && negb (gesture_eqb g (last_gesture s1))
  then with_last_gesture g (with_gesture_start_time (t_start clk) s1)
  else s1.

(** The controller after the first two frames of [fist_pause_fist]. *)
Definition paused_fist : Controller :=
  fst (fst (frame_series quiet_host (firstn 2 fist_pause_fist)
              fresh_controller [])).


(** ** The main loop (main.py) *)

From Stdlib Require Import Ascii.

(** [np.clip(x, lo, hi)], that is [minimum(maximum(x, lo), hi)]. *)
Definition np_clip (x lo hi : Q) : Q :=
  let m := if x <? lo then lo else x in
  if hi <? m then hi else m.

(** Lines 183-186 of [run]: the mean fingertip distance [mean_dist], in
    pixels of a [w] by [h] image, scaled to an openness between 0 and 100.
    [None] is ZeroDivisionError. *)
Definition raw_openness (mean_dist : Q) (w h : Z) : option Q :=
  let closed_ref := py_max 12.0 (py_min 40.0 (inject_Z (Z.min w h) * 0.04)) in
  let open_ref := py_max 60.0 (inject_Z (Z.min w h) * 0.55) in
  match py_div (mean_dist - closed_ref) (open_ref - closed_ref) with
  | None => None
  | Some q =>
      let raw_openness := q * 100.0 in
      Some (np_clip raw_openness 0.0 100.0)
  end.

(** [list(ControlMode)]. *)
Definition modes : list ControlMode := [MEDIA; MOUSE; WINDOW; PRESENTATION].

(** [l.index(x)]; [None] is ValueError. *)
Fixpoint list_index (l : list ControlMode) (x : ControlMode) : option nat :=
  match l with
  | [] => None
  | a :: t =>
      if ControlMode_eq_dec a x then Some O
      else option_map S (list_index t x)
  end.

(** [ord(c)]. *)
Definition ord (c : ascii) : Z := Z.of_N (N_of_ascii c).

(** What [run] keeps between iterations of its loop. *)
Record App : Type := mkApp {
  gesture_controller : Controller;
  control_enabled : bool;
  running : bool                    (* [False] once the loop is left *)
}.

Definition with_controller (c : Controller) (app : App) : App :=
  {| gesture_controller := c;
     control_enabled := control_enabled app;
     running := running app |}.

(** Lines 233-278: the reaction to [key = cv2.waitKey(1) & 0xFF].  [None]
    is an exception (ValueError of [index], IndexError of [modes[...]],
    ZeroDivisionError of [set_sensitivity]). *)
Definition handle_key (key : Z) (app : App) : option App :=
  let c := gesture_controller app in
  if (key =? 27)%Z then
    Some {| gesture_controller := c;
            control_enabled := control_enabled app;
            running := false |}
  else if (key =? ord "c")%Z || (key =? ord "C")%Z then
    Some {| gesture_controller := c;
            control_enabled := negb (control_enabled app);
            running := running app |}
  else if (key =? ord "m")%Z || (key =? ord "M")%Z then
    match list_index modes (mode c) with
    | None => None
    | Some current_idx =>
        let next_idx := ((current_idx + 1) mod List.length modes)%nat in
        match nth_error modes next_idx with
        | None => None
        | Some m => Some (with_controller (set_mode m c) app)
        end
    end
  else if (key =? ord "1")%Z then Some (with_controller (set_mode MEDIA c) app)
  else if (key =? ord "2")%Z then Some (with_controller (set_mode MOUSE c) app)
  else if (key =? ord "3")%Z then Some (with_controller (set_mode WINDOW c) app)
  else if (key =? ord "4")%Z
  then Some (with_controller (set_mode PRESENTATION c) app)
  else if (key =? ord "+")%Z || (key =? ord "=")%Z then
    option_map (fun c' => with_controller c' app)
      (set_sensitivity (sensitivity c + 0.2) c)
  else if (key =? ord "-")%Z || (key =? ord "_")%Z then
    option_map (fun c' => with_controller c' app)
      (set_sensitivity (sensitivity c - 0.2) c)
  else Some app.

(** A run of key presses, stopping at the first exception or at ESC. *)
Fixpoint handle_keys (keys : list Z) (app : App) : option App :=
  match keys with
  | [] => Some app
  | k :: rest =>
      match handle_key k app with
      | None => None
      | Some app' =>
          if running app' then handle_keys rest app' else Some app'
      end
  end.

(** One iteration of the loop of [run], lines 139-278, without capture and
    drawing: [hand] is what is passed to [process_frame] when a hand was
    found ([results.multi_hand_landmarks]), [key] the key read at the end
    of the iteration.  The result is [(current_gesture, action_taken)]. *)
Definition loop_iteration (host : Host) (clk : Clock) (hand : option Frame)
    (key : Z) : M App (Gesture * bool) :=
  fun app log =>
    let run_frame :=
      match hand with
      | Some f =>
          if control_enabled app then
            match process_frame host clk f (gesture_controller app) log with
            | (c', log', r) => (with_controller c' app, log', r)
            end
          else (app, log, Some (NONE, false))
      | None => (app, log, Some (NONE, false))
      end in
    match run_frame with
    | (app1, log1, Some out) =>
        match handle_key key app1 with
        | Some app2 => (app2, log1, Some out)
        | None => (app1, log1, None)
        end
    | (app1, log1, None) => (app1, log1, None)
    end.

(** ** Counting calls *)

Definition is_call (p : Call -> bool) (e : Call * bool) : bool := p (fst e).

(** Calls of a kind that returned normally. *)
Definition count_ok (p : Call -> bool) (log : Log) : nat :=
  List.length (filter (fun e => p (fst e) && snd e) log).

Definition is_mouseDown (c : Call) : bool :=
  match c with mouseDown => true | _ => false end.

Definition is_mouseUp (c : Call) : bool :=
  match c with mouseUp => true | _ => false end.

Definition is_click (c : Call) : bool :=
  match c with click => true | _ => false end.

Definition is_scroll (c : Call) : bool :=
  match c with scroll _ => true | _ => false end.

Definition b2z (b : bool) : Z := if b then 1%Z else 0%Z.

(** A host none of whose calls raises. *)
Definition never_raises (host : Host) : Prop :=
  forall (l : Log) (c : Call), raises host l c = false.

(** The gestures with an entry in the action table of a rate-gated mode
    (the branches of lines 271-310, 396-427 and 448-471). *)
Definition has_entry (m : ControlMode) (g : Gesture) : bool :=
  match m, g with
  | MEDIA, (FIST | OPEN_HAND | ROTATE_LEFT | ROTATE_RIGHT | SWIPE_LEFT
           | SWIPE_RIGHT | SWIPE_UP | SWIPE_DOWN | PEACE | THUMBS_UP) => true
  | WINDOW, (SWIPE_LEFT | SWIPE_RIGHT | SWIPE_UP | SWIPE_DOWN | FIST | PEACE
            | OPEN_HAND | THUMBS_UP) => true
  | PRESENTATION, (SWIPE_RIGHT | POINTING | SWIPE_LEFT | FIST | OPEN_HAND
                  | PEACE | THUMBS_UP) => true
  | _, _ => false
  end.

(** The four conditions [detect_gesture] tests on the state it is called
    in (lines 202-204, 217, 229 and 232). *)
Definition swipe_x_fires (self : Controller) (palm_x palm_y : Z) : bool :=
  match last_palm_x self, last_palm_y self with
  | Some lx, Some ly =>
      (inject_Z (Z.abs (palm_x - lx)) >? swipe_threshold self)
      && (Z.abs (palm_y - ly) <? Z.abs (palm_x - lx))%Z
  | _, _ => false
  end.

Definition swipe_y_fires (self : Controller) (palm_x palm_y : Z) : bool :=
  match last_palm_x self, last_palm_y self with
  | Some lx, Some ly =>
      (inject_Z (Z.abs (palm_y - ly)) >? swipe_threshold self)
      && (Z.abs (palm_x - lx) <? Z.abs (palm_y - ly))%Z
  | _, _ => false
  end.

Definition rotation_fires (self : Controller) (rotation : Q) : bool :=
  match last_rotation self with
  | Some last =>
      Qabs (rotation_accumulator self + rot_diff rotation last)
        >? rotation_threshold self
  | None => false
  end.

Definition depth_fires (self : Controller) (palm_z : Q) : bool :=
  match last_palm_z self with
  | Some lz =>
      (palm_z - lz <? - depth_threshold self)
      || (palm_z - lz >? depth_threshold self)
  | None => false
  end.

Definition is_depth (g : Gesture) : bool :=
  match g with PALM_PUSH | PALM_PULL => true | _ => false end.

(** A frame whose landmark list is too short. *)
Definition short_frame : Frame :=
  {| openness := 50; rotation := 90; palm_x := 320; palm_y := 240;
     palm_z := 0; landmarks := firstn 20 closed_hand |}.

(** A controller in Mouse mode with the Y baseline at 240. *)
Definition mouse_tracking : Controller := with_mode MOUSE tracking.

(** A controller whose four thresholds are the ones its stored
    sensitivity gives, with that sensitivity inside the clamp. *)
Definition tuned (c : Controller) : Prop :=
  0.3 <= sensitivity c <= 3.0
  /\ cooldown_time c = py_max 0.3 (0.8 / sensitivity c)
  /\ rotation_threshold c = py_max 15 (25 / sensitivity c)
  /\ swipe_threshold c = py_max 60 (100 / sensitivity c)
  /\ depth_threshold c = 0.08 / sensitivity c.

(** The mode after [m] in [list(ControlMode)], cyclically. *)
Definition successor (m : ControlMode) : ControlMode :=
  match m with
  | MEDIA => MOUSE
  | MOUSE => WINDOW
  | WINDOW => PRESENTATION
  | PRESENTATION => MEDIA
  end.

(** One step of the loop: clock readings, the frame of the hand found (if
    any) and the key read. *)
Definition LoopStep : Type := (Clock * option Frame * Z)%type.

(** Iterations of the loop of [run] until ESC or an exception. *)
Fixpoint loop_series (host : Host) (steps : list LoopStep) (app : App)
    (log : Log) : App * Log :=
  match steps with
  | [] => (app, log)
  | (clk, hand, key) :: rest =>
      match loop_iteration host clk hand key app log with
      | (app', log', Some _) =>
          if running app' then loop_series host rest app' log'
          else (app', log')
      | (app', log', None) => (app', log')
      end
  end.

(** The application as [run] starts it. *)
Definition fresh_app : App :=
  {| gesture_controller := fresh_controller;
     control_enabled := true;
     running := true |}.

(** Where a position baseline goes when no swipe is returned (lines
    238-241): to the new value if it was unset or less than 10 pixels
    away, nowhere otherwise. *)
Definition follow (last : option Z) (v : Z) : Z :=
  match last with
  | None => v
  | Some l => if (Z.abs (v - l) <? 10)%Z then v else l
  end.

(** The fields set at construction or by [set_mode] and
    [set_sensitivity] only. *)
Definition same_config (s s' : Controller) : Prop :=
  mode s' = mode s
  /\ sensitivity s' = sensitivity s
  /\ cooldown_time s' = cooldown_time s
  /\ rotation_threshold s' = rotation_threshold s
  /\ swipe_threshold s' = swipe_threshold s
  /\ depth_threshold s' = depth_threshold s
  /\ mouse_smoothing s' = mouse_smoothing s
  /\ screen_w s' = screen_w s
  /\ screen_h s' = screen_h s
  /\ volume_control s' = volume_control s.

(** The fields [execute_action] may write. *)
Definition dispatched (s s' : Controller) : Prop :=
  s' = with_is_dragging (is_dragging s')
         (with_is_clicking (is_clicking s')
            (with_last_action_time (last_action_time s') s)).

(** The gestures every frame of a series was classified as. *)
Definition gestures_of (rs : list (option (Gesture * bool)))
  : list Gesture :=
  flat_map (fun r => match r with Some (g, _) => [g] | None => [] end) rs.

(** Each frame lies less than 10 pixels from the position before it,
    starting from [(x0, y0)]. *)
Fixpoint drifting (x0 y0 : Z) (frames : list (Clock * Frame)) : Prop :=
  match frames with
  | [] => True
  | (_, f) :: rest =>
      (Z.abs (palm_x f - x0) < 10)%Z
      /\ (Z.abs (palm_y f - y0) < 10)%Z
      /\ (21 <= List.length (landmarks f))%nat
      /\ drifting (palm_x f) (palm_y f) rest
  end.

(** On a host that never raises, a table of actions runs to its end and
    sets [action_taken] exactly for the gestures it has an entry for; for
    the others it makes no call. *)
Definition table_complete (host : Host) (m : ControlMode)
    (actions : Gesture -> M Locals unit) : Prop :=
  forall (g : Gesture) (self : Controller) (log : Log),
  exists new,
    actions g (self, false) log
    = ((self, has_entry m g), log ++ new, Some tt)
    /\ (has_entry m g = false -> new = []).

(** The cursor position [_mouse_control] aims at for a palm position
    (lines 330-331). *)
Definition target_x (self : Controller) (palm_x : Z) : Z :=
  py_int (inject_Z (palm_x * screen_w self) / 640).

Definition target_y (self : Controller) (palm_y : Z) : Z :=
  py_int (inject_Z (palm_y * screen_h self) / 480).

(** The five calls with a thumbs-up followed by an open hand. *)
Definition drag_calls : list DispatchCall :=
  [ mkDispatchCall 1 THUMBS_UP 100 100; mkDispatchCall 2 THUMBS_UP 110 100;
    mkDispatchCall 3 THUMBS_UP 120 100; mkDispatchCall 4 OPEN_HAND 120 100;
    mkDispatchCall 5 OPEN_HAND 120 100 ].

(** Three calls with a pinch. *)
Definition pinch_calls : list DispatchCall :=
  [ mkDispatchCall 1 PINCH 100 100; mkDispatchCall 2 PINCH 100 100;
    mkDispatchCall 3 PINCH 100 100 ].

(** A fist in Mouse mode, 30 pixels below the Y baseline of
    [mouse_tracking]. *)
Definition fist_down_frame : Frame :=
  {| openness := 10; rotation := 90; palm_x := 320; palm_y := 270;
     palm_z := 0; landmarks := closed_hand |}.

(** [mouse_tracking] after a fist was held since time 0. *)
Definition mouse_fist : Controller :=
  with_last_gesture FIST mouse_tracking.

(** Four frames of a fist drifting 9 pixels to the right each time. *)
Definition drift_frames : list (Clock * Frame) :=
  map (fun k =>
         (at_time (inject_Z k),
          {| openness := 10; rotation := 90; palm_x := 320 + 9 * k;
             palm_y := 240; palm_z := 0; landmarks := closed_hand |}))
      [1; 2; 3; 4]%Z.

(** ** The cursor smoothing on the IEEE 754 operations

    The same computation as [smoothed], written with the binary64
    operations of the Standard Library's [SpecFloat] (precision 53,
    maximal exponent 1024), to compare the two on given positions. *)

Definition float_of_int (z : Z) : spec_float :=
  binary_normalize 53 1024 z 0 false.

(** The double of the literal [0.3], [0x1.3333333333333p-2]. *)
Definition double_0_3 : spec_float :=
  S754_finite false 5404319552844595 (-54).

(** The value of a finite double. *)
Definition float_value (x : spec_float) : option Q :=
  match x with
  | S754_zero _ => Some 0
  | S754_finite s m e =>
      Some (inject_Z (if s then Zneg m else Zpos m) * 2 ^ e)
  | S754_infinity _ | S754_nan => None
  end.

Definition smoothed_ieee (current target : Z) : option Z :=
  option_map py_int
    (float_value
       (SFadd 53 1024 (float_of_int current)
          (SFmul 53 1024 (float_of_int (target - current))
             (SFsub 53 1024 (float_of_int 1) double_0_3)))).

(** Cursor and target positions on which the two are compared. *)
Definition smoothing_samples : list (Z * Z) :=
  [ (0, 360); (0, 225); (0, 1920); (1919, 0); (960, 540); (540, 960);
    (-5, 7); (7, -5); (1000, 3); (3, 1000); (0, 10); (0, 20); (0, 30);
    (0, 40); (0, 50); (0, 70); (0, 90); (0, 110); (0, 130); (0, 170);
    (123, 1777); (1777, 123); (0, 1000000); (-1000000, 999999);
    (4503599627370495, -4503599627370495);
    (36028797018963969, 1); (1, 36028797018963971) ]%Z.
(** * Properties *)

(** ** Comparisons *)

Lemma Qltb_lt (x y : Q) : (x <? y) = true <-> x < y.
Proof.
  unfold Qltb. rewrite negb_true_iff.
  split; intro H.
  - apply Qnot_le_lt. intro L. apply Qle_bool_iff in L. congruence.
  - destruct (Qle_bool y x) eqn:E; trivial.
    apply Qle_bool_iff in E. exfalso. apply (Qlt_not_le _ _ H E).
Qed.

Lemma Qltb_ge (x y : Q) : (x <? y) = false <-> y <= x.
Proof.
  unfold Qltb. rewrite negb_false_iff. apply Qle_bool_iff.
Qed.

Lemma Qltb_reflect (x y : Q) : reflect (x < y) (x <? y).
Proof.
  destruct (x <? y) eqn:E; constructor.
  - now apply Qltb_lt.
  - apply Qltb_ge in E. now apply Qle_not_lt.
Qed.

Ltac qcases :=
  repeat match goal with
    | |- context [Qltb ?a ?b] =>
        let E := fresh "E" in
        destruct (Qltb_reflect a b) as [E | E]
    | H : context [Qltb ?a ?b] |- _ =>
        let E := fresh "E" in
        destruct (Qltb_reflect a b) as [E | E]
    end.

Lemma py_max_lower (a b : Q) : a <= py_max a b.
Proof. unfold py_max. qcases; lra. Qed.

Lemma py_min_upper (a b : Q) : py_min a b <= a.
Proof. unfold py_min. qcases; lra. Qed.

Lemma py_div_defined (a b : Q) : ~ b == 0 -> py_div a b = Some (a / b).
Proof.
  intro H. unfold py_div.
  destruct (Qeq_bool b 0) eqn:E; trivial.
  apply Qeq_bool_iff in E. contradiction.
Qed.

(** ** Sensitivity *)

(** The value [set_sensitivity] stores lies in the clamp. *)
Lemma clamp_range (s : Q) :
  0.3 <= py_max 0.3 (py_min 3.0 s) <= 3.0.
Proof. unfold py_max, py_min. qcases; lra. Qed.

(** [set_sensitivity] never raises, stores the clamped value and derives
    the four thresholds from that stored value. *)
Lemma set_sensitivity_spec (s : Q) (self : Controller) :
  exists self',
    set_sensitivity s self = Some self'
    /\ sensitivity self' = py_max 0.3 (py_min 3.0 s)
    /\ 0.3 <= sensitivity self' <= 3.0
    /\ cooldown_time self' = py_max 0.3 (0.8 / sensitivity self')
    /\ rotation_threshold self' = py_max 15 (25 / sensitivity self')
    /\ swipe_threshold self' = py_max 60 (100 / sensitivity self')
    /\ depth_threshold self' = 0.08 / sensitivity self'.
Proof.
  pose proof (clamp_range s) as R.
  assert (N : ~ py_max 0.3 (py_min 3.0 s) == 0) by lra.
  unfold set_sensitivity. cbn [sensitivity with_sensitivity with_cooldown_time
    with_rotation_threshold with_swipe_threshold with_depth_threshold].
  rewrite !(py_div_defined _ _ N).
  eexists. split; [reflexivity|]. cbn. repeat split; try reflexivity; apply R.
Qed.

(** The constructor stores its argument as it is and derives the four
    thresholds from it; it raises exactly on a zero argument. *)
Lemma init_spec (host : Host) (t0 : Q) (m : ControlMode) (s : Q) :
  ~ s == 0 ->
  exists self,
    __init__ host t0 m s = Some self
    /\ sensitivity self = s
    /\ cooldown_time self = py_max 0.3 (0.8 / sensitivity self)
    /\ rotation_threshold self = py_max 15 (25 / sensitivity self)
    /\ swipe_threshold self = py_max 60 (100 / sensitivity self)
    /\ depth_threshold self = 0.08 / sensitivity self.
Proof.
  intro N. unfold __init__. rewrite !(py_div_defined _ _ N).
  eexists. split; [reflexivity|]. cbn. repeat split.
Qed.

Example init_fresh_controller :
  __init__ quiet_host 0 MEDIA 1 = Some fresh_controller.
Proof. reflexivity. Qed.

Example init_windows_controller :
  __init__ windows_host 0 MEDIA 1 = Some windows_controller.
Proof. reflexivity. Qed.

Lemma init_zero (host : Host) (t0 : Q) (m : ControlMode) :
  __init__ host t0 m 0 = None.
Proof. reflexivity. Qed.

(** C7, at the input where the code departs from the claim: a controller
    constructed with sensitivity 5.0 stores 5.0, which lies outside
    [0.3, 3.0]; the constructor has no clamp, [set_sensitivity] has one.
    The thresholds are still those derived from the stored value. *)
Theorem init_stores_unclamped_sensitivity (host : Host) (t0 : Q)
    (m : ControlMode) :
  exists self,
    __init__ host t0 m 5 = Some self
    /\ sensitivity self = 5
    /\ ~ (0.3 <= sensitivity self <= 3.0)
    /\ cooldown_time self = py_max 0.3 (0.8 / sensitivity self)
    /\ rotation_threshold self = py_max 15 (25 / sensitivity self)
    /\ swipe_threshold self = py_max 60 (100 / sensitivity self)
    /\ depth_threshold self = 0.08 / sensitivity self.
Proof.
  eexists. split; [reflexivity|]. cbn [sensitivity].
  split; [reflexivity|]. split.
  - intros [_ H]. revert H. apply Qlt_not_le. reflexivity.
  - repeat split.
Qed.

(** ** Rotation difference *)

(** C9 as stated fails: from a previous rotation of 180 degrees to a
    current rotation of 0 the difference is -180, and it is kept; the
    frame is accordingly classified as a rotation to the left, where a
    difference of +180 would make it one to the right. *)
Lemma rot_diff_minus_180_kept :
  0 <= 180 < 360 /\ 0 <= 0 < 360
  /\ rot_diff 0 180 = -180
  /\ ~ (-180 < rot_diff 0 180 <= 180)
  /\ option_map snd
       (detect_gesture (with_last_rotation (Some 180) fresh_controller)
          50 0 320 240 0 closed_hand)
     = Some ROTATE_LEFT.
Proof.
  repeat split; try (vm_compute; congruence).
  intros [H _]. vm_compute in H. discriminate.
Qed.

(** C9, amended: for a previous and a current rotation in [0, 360) the
    difference added to the accumulator is the raw difference moved by at
    most one full turn into the closed interval [-180, 180]; raw
    differences of exactly -180 and 180 are left as they are. *)
Theorem rot_diff_range (rotation last : Q) :
  0 <= last < 360 -> 0 <= rotation < 360 ->
  -180 <= rot_diff rotation last <= 180
  /\ (rot_diff rotation last = rotation - last
      \/ rot_diff rotation last = rotation - last - 360
      \/ rot_diff rotation last = rotation - last + 360)
  /\ (-180 <= rotation - last <= 180 ->
      rot_diff rotation last = rotation - last).
Proof.
  intros Hl Hr. unfold rot_diff.
  destruct (Qltb_reflect 180 (rotation - last)) as [A | A];
    [| destruct (Qltb_reflect (rotation - last) (-180)) as [B | B]].
  - split; [lra|]. split; [auto|]. intro; exfalso; lra.
  - split; [lra|]. split; [auto|]. intro; exfalso; lra.
  - split; [lra|]. split; [auto|]. reflexivity.
Qed.

Lemma rot_diff_range_witness :
  (0 <= 350 < 360 /\ 0 <= 10 < 360)
  /\ -180 <= rot_diff 10 350 <= 180
  /\ (rot_diff 10 350 = 10 - 350
      \/ rot_diff 10 350 = 10 - 350 - 360
      \/ rot_diff 10 350 = 10 - 350 + 360)
  /\ (-180 <= 10 - 350 <= 180 -> rot_diff 10 350 = 10 - 350).
Proof.
  assert (H1 : 0 <= 350 < 360) by (split; vm_compute; congruence).
  assert (H2 : 0 <= 10 < 360) by (split; vm_compute; congruence).
  split; [split; assumption|].
  exact (rot_diff_range 10 350 H1 H2).
Defined.

(** The rotation rule adds exactly [rot_diff] to the accumulator before
    testing it against the threshold. *)
Lemma rotation_rule_accumulates (self : Controller) (rotation last : Q)
    (g : Gesture) :
  last_rotation self = Some last ->
  let acc := rotation_accumulator self + rot_diff rotation last in
  rotation_rule self rotation g =
    if Qabs acc >? rotation_threshold self
    then (with_rotation_accumulator 0
            (with_rotation_accumulator acc self),
          if acc >? 0 then ROTATE_RIGHT else ROTATE_LEFT)
    else (with_rotation_accumulator acc self, g).
Proof.
  intros H acc. unfold rotation_rule. rewrite H. reflexivity.
Qed.

(** ** Reset and mode switch *)

(** C6 as stated fails: after a fist was recognised at time 10, neither
    [reset_state] nor [set_mode] clears [last_gesture] or
    [gesture_start_time]. *)
Lemma reset_keeps_hold_state :
  last_gesture after_fist = FIST
  /\ last_gesture (reset_state after_fist) = FIST
  /\ last_gesture (set_mode WINDOW after_fist) = FIST
  /\ gesture_start_time (reset_state after_fist) = 10
  /\ gesture_start_time (set_mode WINDOW after_fist) = 10
  /\ last_gesture (reset_state after_fist) <> NONE.
Proof. vm_compute. repeat split; congruence. Qed.

(** C6, amended: [set_mode] and [reset_state] clear the position, depth
    and rotation baselines, the rotation accumulator, the mouse anchor
    and the click and drag flags.  Every other field is left as it was:
    [last_gesture] and [gesture_start_time], [last_action_time], the
    sensitivity with its four thresholds (cooldown, rotation, swipe and
    depth), and the rest of the object; [reset_state] keeps the mode,
    [set_mode] stores the mode it is given. *)
Theorem reset_clears_tracking_only (m : ControlMode) (self : Controller) :
  let cleared (s : Controller) :=
    last_palm_x s = None /\ last_palm_y s = None /\ last_palm_z s = None
    /\ last_rotation s = None /\ rotation_accumulator s = 0
    /\ mouse_anchor s = None
    /\ is_clicking s = false /\ is_dragging s = false in
  let kept (s : Controller) :=
    last_gesture s = last_gesture self
    /\ gesture_start_time s = gesture_start_time self
    /\ last_action_time s = last_action_time self
    /\ sensitivity s = sensitivity self
    /\ cooldown_time s = cooldown_time self
    /\ rotation_threshold s = rotation_threshold self
    /\ swipe_threshold s = swipe_threshold self
    /\ depth_threshold s = depth_threshold self
    /\ current_gesture s = current_gesture self
    /\ finger_states s = finger_states self
    /\ mouse_smoothing s = mouse_smoothing self
    /\ screen_w s = screen_w self /\ screen_h s = screen_h self
    /\ volume_control s = volume_control self in
  (cleared (reset_state self) /\ kept (reset_state self)
   /\ mode (reset_state self) = mode self)
  /\ (cleared (set_mode m self) /\ kept (set_mode m self)
      /\ mode (set_mode m self) = m).
Proof. cbn. repeat split. Qed.

(** ** Classification *)

Lemma finger_states_defined (lms : list Landmark) :
  (21 <= List.length lms)%nat ->
  exists a b c d e, _detect_finger_states lms = Some [a; b; c; d; e].
Proof.
  intro H.
  do 21 (destruct lms as [| ? lms]; [cbn in H; lia|]).
  cbn. do 5 eexists. reflexivity.
Qed.

Lemma pinch_defined (lms : list Landmark) :
  (21 <= List.length lms)%nat -> exists p, _detect_pinch lms = Some p.
Proof.
  intro H.
  do 9 (destruct lms as [| ? lms]; [cbn in H; lia|]).
  cbn. eexists. reflexivity.
Qed.

(** With 21 landmarks [detect_gesture] returns. *)
Lemma detect_gesture_defined (self : Controller) (o r : Q) (x y : Z) (z : Q)
    (lms : list Landmark) :
  (21 <= List.length lms)%nat ->
  exists self' g, detect_gesture self o r x y z lms = Some (self', g).
Proof.
  intro H. unfold detect_gesture.
  destruct (finger_states_defined lms H) as (a & b & c & d & e & ->).
  destruct (pinch_defined lms H) as (p & ->).
  destruct (rotation_rule _ _ _) as [s1 g1].
  destruct (swipe_rule _ _ _ _) as [s2 g2].
  eauto.
Qed.

Lemma shape_rules_not_rotate (p : bool) (fs : list bool) (o : Q) :
  is_rotate (shape_rules p fs o) = false.
Proof.
  unfold shape_rules.
  repeat match goal with |- context [if ?b then _ else _] => destruct b end;
    reflexivity.
Qed.

Lemma depth_rule_not_rotate (self : Controller) (z : Q) (g : Gesture) :
  is_rotate g = false -> is_rotate (depth_rule self z g) = false.
Proof.
  intro H. unfold depth_rule.
  destruct (last_palm_z self); trivial.
  repeat match goal with |- context [if ?b then _ else _] => destruct b end;
    trivial.
Qed.

(** The rotation rule either fires, leaving the accumulator at 0, or
    passes the gesture through. *)
Lemma rotation_rule_cases (self : Controller) (r : Q) (g : Gesture) :
  (is_rotate (snd (rotation_rule self r g)) = true
   /\ rotation_accumulator (fst (rotation_rule self r g)) = 0)
  \/ snd (rotation_rule self r g) = g.
Proof.
  unfold rotation_rule.
  destruct (last_rotation self); [| now right].
  match goal with |- context [if ?b then _ else _] => destruct b end;
    [left | now right].
  cbn. split; trivial.
  match goal with |- context [if ?b then _ else _] => destruct b end;
    reflexivity.
Qed.

Lemma swipe_rule_accumulator (self : Controller) (x y : Z) (g : Gesture) :
  rotation_accumulator (fst (swipe_rule self x y g))
  = rotation_accumulator self.
Proof.
  unfold swipe_rule.
  destruct (last_palm_x self), (last_palm_y self); trivial.
  repeat match goal with |- context [if ?b then _ else _] => destruct b end;
    reflexivity.
Qed.

Lemma swipe_rule_gesture (self : Controller) (x y : Z) (g : Gesture) :
  is_swipe (snd (swipe_rule self x y g)) = true
  \/ snd (swipe_rule self x y g) = g.
Proof.
  unfold swipe_rule, swipe_x, swipe_y.
  destruct (last_palm_x self), (last_palm_y self); auto.
  repeat match goal with |- context [if ?b then _ else _] => destruct b end;
    cbn; auto.
Qed.

Lemma update_tracking_accumulator (self : Controller) (x y : Z)
    (g : Gesture) :
  rotation_accumulator (update_tracking self x y g)
  = rotation_accumulator self.
Proof.
  unfold update_tracking.
  destruct (negb (is_swipe g)); trivial.
  repeat (cbn;
          match goal with
          | |- context [match last_palm_x ?s with _ => _ end] =>
              destruct (last_palm_x s)
          | |- context [match last_palm_y ?s with _ => _ end] =>
              destruct (last_palm_y s)
          | |- context [if ?b then _ else _] => destruct b
          end);
    reflexivity.
Qed.

(** C4: whenever [detect_gesture] returns ROTATE_LEFT or ROTATE_RIGHT, the
    rotation accumulator of the state it leaves is 0. *)
Theorem rotate_leaves_accumulator_zero (self self' : Controller)
    (o r : Q) (x y : Z) (z : Q) (lms : list Landmark) (g : Gesture) :
  detect_gesture self o r x y z lms = Some (self', g) ->
  g = ROTATE_LEFT \/ g = ROTATE_RIGHT ->
  rotation_accumulator self' = 0.
Proof.
  unfold detect_gesture.
  destruct (_detect_finger_states lms) as [fs |]; [| discriminate].
  destruct (_detect_pinch lms) as [p |]; [| discriminate].
  set (s0 := with_finger_states fs self).
  set (g0 := depth_rule s0 z (shape_rules p (finger_states s0) o)).
  assert (G0 : is_rotate g0 = false)
    by (apply depth_rule_not_rotate, shape_rules_not_rotate).
  pose proof (rotation_rule_cases s0 r g0) as RC.
  destruct (rotation_rule s0 r g0) as [s1 g1]. cbn [fst snd] in RC.
  pose proof (swipe_rule_accumulator s1 x y g1) as SA.
  pose proof (swipe_rule_gesture s1 x y g1) as SG.
  destruct (swipe_rule s1 x y g1) as [s2 g2]. cbn [fst snd] in SA, SG.
  intros E Hg. injection E as <- <-.
  cbn [rotation_accumulator with_current_gesture with_last_palm_z
       with_last_rotation].
  rewrite update_tracking_accumulator, SA.
  assert (R2 : is_rotate g2 = true) by (destruct Hg as [-> | ->]; reflexivity).
  destruct SG as [SG | SG].
  - destruct g2; discriminate.
  - subst g2. destruct RC as [[_ Z0] | RC]; trivial.
    subst g1. congruence.
Qed.

(** A turn from 90 to 130 degrees in one frame, at the default threshold
    of 25 degrees. *)
Lemma rotate_leaves_accumulator_zero_witness :
  exists self',
    detect_gesture tracking 50 130 320 240 0 closed_hand
      = Some (self', ROTATE_RIGHT)
    /\ rotation_accumulator self' = 0.
Proof.
  eexists. split; [vm_compute; reflexivity|].
  eapply (rotate_leaves_accumulator_zero tracking _ 50 130 320 240 0
            closed_hand ROTATE_RIGHT).
  - vm_compute. reflexivity.
  - right. reflexivity.
Defined.

Lemma rotation_rule_keeps_positions (self : Controller) (r : Q)
    (g : Gesture) :
  last_palm_x (fst (rotation_rule self r g)) = last_palm_x self
  /\ last_palm_y (fst (rotation_rule self r g)) = last_palm_y self
  /\ swipe_threshold (fst (rotation_rule self r g)) = swipe_threshold self.
Proof.
  unfold rotation_rule.
  destruct (last_rotation self); [| auto].
  match goal with |- context [if ?b then _ else _] => destruct b end;
    cbn; auto.
Qed.

Lemma swipe_rule_fires (self : Controller) (x y lx ly : Z) (g : Gesture) :
  last_palm_x self = Some lx -> last_palm_y self = Some ly ->
  let x_diff := (x - lx)%Z in
  let y_diff := (y - ly)%Z in
  (swipe_threshold self < inject_Z (Z.abs x_diff)
   /\ (Z.abs y_diff < Z.abs x_diff)%Z ->
   snd (swipe_rule self x y g) = swipe_x x_diff)
  /\ (swipe_threshold self < inject_Z (Z.abs y_diff)
      /\ (Z.abs x_diff < Z.abs y_diff)%Z ->
      snd (swipe_rule self x y g) = swipe_y y_diff).
Proof.
  intros Hx Hy x_diff y_diff. unfold swipe_rule. rewrite Hx, Hy.
  fold x_diff y_diff. split.
  - intros [T D].
    apply Qltb_lt in T. apply Z.ltb_lt in D. rewrite T, D. reflexivity.
  - intros [T D].
    assert (N : (Z.abs y_diff <? Z.abs x_diff)%Z = false)
      by (apply Z.ltb_ge; lia).
    apply Qltb_lt in T. apply Z.ltb_lt in D.
    rewrite N, andb_false_r, T, D. reflexivity.
Qed.

(** C3: with the X and Y baselines set, a frame that crosses the rotation
    threshold and also crosses the swipe threshold along its dominant
    axis is classified as the swipe of that axis and direction, never as
    a rotation: the swipe rule runs after the rotation rule. *)
Theorem swipe_overrides_rotation (self : Controller) (o r : Q) (x y : Z)
    (z : Q) (lms : list Landmark) (lx ly : Z) (lr : Q) :
  (21 <= List.length lms)%nat ->
  last_palm_x self = Some lx ->
  last_palm_y self = Some ly ->
  last_rotation self = Some lr ->
  rotation_threshold self
    < Qabs (rotation_accumulator self + rot_diff r lr) ->
  let x_diff := (x - lx)%Z in
  let y_diff := (y - ly)%Z in
  (swipe_threshold self < inject_Z (Z.abs x_diff)
   /\ (Z.abs y_diff < Z.abs x_diff)%Z)
  \/ (swipe_threshold self < inject_Z (Z.abs y_diff)
      /\ (Z.abs x_diff < Z.abs y_diff)%Z) ->
  exists self' g,
    detect_gesture self o r x y z lms = Some (self', g)
    /\ is_swipe g = true
    /\ is_rotate g = false
    /\ ((Z.abs y_diff < Z.abs x_diff)%Z -> g = swipe_x x_diff)
    /\ ((Z.abs x_diff < Z.abs y_diff)%Z -> g = swipe_y y_diff).
Proof.
  intros L Hx Hy Hr _ x_diff y_diff S.
  unfold detect_gesture.
  destruct (finger_states_defined lms L) as (a & b & c & d & e & ->).
  destruct (pinch_defined lms L) as (p & ->).
  set (s0 := with_finger_states [a; b; c; d; e] self).
  set (g0 := depth_rule s0 z (shape_rules p (finger_states s0) o)).
  destruct (rotation_rule_keeps_positions s0 r g0) as (Kx & Ky & Kt).
  destruct (rotation_rule s0 r g0) as [s1 g1]. cbn [fst] in Kx, Ky, Kt.
  assert (Hx1 : last_palm_x s1 = Some lx) by (rewrite Kx; exact Hx).
  assert (Hy1 : last_palm_y s1 = Some ly) by (rewrite Ky; exact Hy).
  destruct (swipe_rule_fires s1 x y lx ly g1 Hx1 Hy1) as [FX FY].
  fold x_diff y_diff in FX, FY. rewrite Kt in FX, FY.
  change (swipe_threshold s0) with (swipe_threshold self) in FX, FY.
  destruct (swipe_rule s1 x y g1) as [s2 g2]. cbn [snd] in FX, FY.
  do 2 eexists. split; [reflexivity|].
  destruct S as [[T D] | [T D]].
  - rewrite (FX (conj T D)).
    split; [unfold swipe_x; destruct (x_diff >? 0)%Z; reflexivity|].
    split; [unfold swipe_x; destruct (x_diff >? 0)%Z; reflexivity|].
    split; [reflexivity | intro; lia].
  - rewrite (FY (conj T D)).
    split; [unfold swipe_y; destruct (y_diff <? 0)%Z; reflexivity|].
    split; [unfold swipe_y; destruct (y_diff <? 0)%Z; reflexivity|].
    split; [intro; lia | reflexivity].
Qed.

(** A frame that turns the palm from 90 to 130 degrees (threshold 25)
    while it moves 200 pixels to the right (threshold 100). *)
Lemma swipe_overrides_rotation_witness :
  exists self' g,
    detect_gesture tracking 50 130 520 240 0 closed_hand = Some (self', g)
    /\ is_swipe g = true
    /\ is_rotate g = false
    /\ ((Z.abs (240 - 240) < Z.abs (520 - 320))%Z
        -> g = swipe_x (520 - 320))
    /\ ((Z.abs (520 - 320) < Z.abs (240 - 240))%Z
        -> g = swipe_y (240 - 240)).
Proof.
  apply (swipe_overrides_rotation tracking 50 130 520 240 0 closed_hand
           320 240 90).
  - vm_compute. lia.
  - reflexivity.
  - reflexivity.
  - reflexivity.
  - vm_compute. reflexivity.
  - left. split; [vm_compute; reflexivity | vm_compute; reflexivity].
Defined.

(** What that frame is classified as, computed. *)
Example turn_and_swipe_run :
  option_map snd (detect_gesture tracking 50 130 520 240 0 closed_hand)
  = Some SWIPE_RIGHT.
Proof. vm_compute. reflexivity. Qed.

(** The pointing and peace rules do not look at the thumb. *)
Lemma pointing_ignores_thumb (thumb : bool) (o : Q) :
  shape_rules false [thumb; true; false; false; false] o = POINTING.
Proof. destruct thumb; reflexivity. Qed.

Lemma peace_ignores_thumb (thumb : bool) (o : Q) :
  shape_rules false [thumb; true; true; false; false] o = PEACE.
Proof. destruct thumb; reflexivity. Qed.

(** The order of the shape rules, written on the five finger flags. *)
Lemma shape_rules_order (p t i m r k : bool) (o : Q) :
  shape_rules p [t; i; m; r; k] o =
    if p then PINCH
    else if i && negb m && negb r && negb k then POINTING
    else if i && m && negb r && negb k then PEACE
    else if t && negb i && negb m && negb r && negb k then THUMBS_UP
    else if o <? 25 then FIST
    else if o >? 75 then OPEN_HAND
    else NONE.
Proof.
  unfold shape_rules, flag, any. cbn.
  destruct p, t, i, m, r, k; reflexivity.
Qed.

(** C2, at the input where the code departs from the claim: a hand with 21
    landmarks whose thumb and index finger are both extended, the other
    three folded and no pinch, is classified as POINTING at every
    openness, although the index is not the only finger extended. *)
Theorem thumb_and_index_classified_pointing (o : Q) :
  List.length thumb_and_index = 21%nat
  /\ _detect_finger_states thumb_and_index
     = Some [true; true; false; false; false]
  /\ _detect_pinch thumb_and_index = Some false
  /\ shape_rules false [true; true; false; false; false] o = POINTING
  /\ option_map snd
       (detect_gesture fresh_controller o 90 320 240 0 thumb_and_index)
     = Some POINTING.
Proof.
  split; [reflexivity|]. split; [vm_compute; reflexivity|].
  split; [vm_compute; reflexivity|]. split; [reflexivity|].
  unfold detect_gesture.
  replace (_detect_finger_states thumb_and_index)
    with (Some [true; true; false; false; false]) by (vm_compute; reflexivity).
  replace (_detect_pinch thumb_and_index) with (Some false)
    by (vm_compute; reflexivity).
  reflexivity.
Qed.

(** ** Dispatch in the rate-gated modes *)

Ltac unfold_M :=
  unfold bind, ret, get, modify, try_except, for_range, self_, assign,
    action_taken_True, with_action_taken, invoke, invoke_position,
    invoke_GetMasterVolumeLevelScalar in *.

Ltac run_calls :=
  unfold_M; cbn;
  change (Pos.to_nat 1) with 1%nat;
  change (Pos.to_nat 2) with 2%nat;
  cbn [repeat_body]; unfold_M; cbn;
  repeat (match goal with
          | |- context [raises ?h ?l ?c] =>
              let R := fresh "R" in destruct (raises h l c) eqn:R
          end; cbn).

Ltac close_table :=
  first
    [ exists []; rewrite app_nil_r; do 2 eexists;
      split; [reflexivity|]; split; [intros ? [] | congruence]
    | rewrite <- ?app_assoc; do 3 eexists;
      split; [reflexivity|]; split; [| congruence];
      let c := fresh "c" in
      let Hin := fresh "Hin" in
      intros c Hin ?; try reflexivity; cbn in Hin;
      repeat (destruct Hin as [Hin | Hin];
              [inversion Hin; subst; discriminate |]);
      contradiction ].

Lemma media_actions_behaved (host : Host) :
  table_behaved host (media_actions host).
Proof.
  intros g self log.
  destruct g; unfold media_actions, _adjust_volume; unfold_M; cbn;
    destruct (platform_windows host), (volume_control self),
      (PYAUTOGUI_AVAILABLE host);
    run_calls; close_table.
Qed.

Lemma window_actions_behaved (host : Host) :
  table_behaved host (window_actions host).
Proof.
  intros g self log.
  destruct g; unfold window_actions; run_calls; close_table.
Qed.

Lemma presentation_actions_behaved (host : Host) :
  table_behaved host (presentation_actions host).
Proof.
  intros g self log.
  destruct g; unfold presentation_actions; run_calls; close_table.
Qed.

(** One call of a rate-gated method. *)
Lemma rate_gated_outcome (host : Host) (actions : Gesture -> M Locals unit)
    (now : Q) (g : Gesture) (self : Controller) (log : Log) :
  table_behaved host actions ->
  exists (new : Log) (b : bool),
    rate_gated host actions now g self log
    = (if b then with_last_action_time now self else self,
       log ++ new, Some b)
    /\ (new <> [] \/ b = true ->
        cooldown_time self <= now - last_action_time self)
    /\ (forall c, In (c, false) new -> is_pyautogui c = true -> b = false).
Proof.
  intro TB. unfold rate_gated. unfold_M.
  destruct (Qltb_reflect (now - last_action_time self) (cooldown_time self))
    as [E | E].
  - exists [], false. rewrite app_nil_r. split; [reflexivity|].
    split; [intros [N | N]; congruence | intros ? []].
  - apply Qnot_lt_le in E.
    destruct (PYAUTOGUI_AVAILABLE host); cbn [negb].
    + destruct (TB g self log) as (new & flag & r & -> & F & N).
      exists new, flag.
      destruct r as [[] |]; cbn.
      * destruct flag; cbn; (split; [reflexivity|]); (split; [auto|]);
          intros c Hin Hp; specialize (F c Hin Hp); discriminate.
      * rewrite (N eq_refl). cbn. split; [reflexivity|]. split; auto.
    + exists [], false. rewrite app_nil_r. split; [reflexivity|].
      split; [intros [N | N]; congruence | intros ? []].
Qed.

(** One call of [execute_action] in a mode other than Mouse. *)
Lemma execute_action_rate_gated (host : Host) (now : Q) (g : Gesture)
    (x y : Z) (self : Controller) (log : Log) :
  mode self <> MOUSE ->
  exists (new : Log) (b : bool),
    execute_action host now g x y self log
    = (if b then with_last_action_time now self else self,
       log ++ new, Some b)
    /\ (new <> [] \/ b = true ->
        cooldown_time self <= now - last_action_time self)
    /\ (forall c, In (c, false) new -> is_pyautogui c = true -> b = false).
Proof.
  intro NM. unfold execute_action, bind, get.
  destruct (mode self); try congruence.
  - apply rate_gated_outcome, media_actions_behaved.
  - apply rate_gated_outcome, window_actions_behaved.
  - apply rate_gated_outcome, presentation_actions_behaved.
Qed.

(** The actions taken in a series of calls: the first lies at least one
    cooldown after the last action before the series, and each one at
    least one cooldown after the one before it. *)
Lemma dispatch_series_spaced (host : Host) (calls : list DispatchCall) :
  forall (self : Controller) (log : Log),
  mode self <> MOUSE ->
  let times := taken_times (snd (dispatch_series host calls self log)) in
  HdRel (apart (cooldown_time self)) (last_action_time self) times
  /\ Sorted (apart (cooldown_time self)) times.
Proof.
  induction calls as [| c rest IH]; intros self log NM;
    cbn [dispatch_series].
  - split; constructor.
  - destruct (execute_action_rate_gated host (call_now c) (call_gesture c)
                (call_x c) (call_y c) self log NM)
      as (new & b & -> & G & _).
    destruct b.
    + specialize (IH (with_last_action_time (call_now c) self) (log ++ new)
                    NM).
      destruct (dispatch_series host rest _ _) as [[s2 l2] outs].
      cbn in IH |- *. destruct IH as [H S].
      split; constructor; trivial.
      apply G. now right.
    + specialize (IH self (log ++ new) NM).
      destruct (dispatch_series host rest _ _) as [[s2 l2] outs].
      cbn in IH |- *. exact IH.
Qed.

Lemma apart_transitive (cd : Q) :
  0 <= cd -> forall a b c, apart cd a b -> apart cd b c -> apart cd a c.
Proof. unfold apart. intros. lra. Qed.

(** C1: in Media, Window and Presentation mode a call of the dispatcher
    touches the host only if [now - last_action_time >= cooldown_time],
    it always returns, and whenever it reports an action taken it has set
    [last_action_time] to [now]; hence, over any series of calls, each
    action taken lies at least one cooldown after the one before it, and,
    the cooldown being non-negative, after every earlier one. *)
Theorem cooldown_gates_effects (host : Host) (self : Controller) :
  mode self <> MOUSE ->
  (forall (now : Q) (g : Gesture) (x y : Z) (log : Log),
     let out := execute_action host now g x y self log in
     (snd (fst out) <> log ->
      cooldown_time self <= now - last_action_time self)
     /\ (snd out = Some true -> last_action_time (fst (fst out)) = now)
     /\ (snd out = Some true \/ snd out = Some false))
  /\ (forall (calls : list DispatchCall) (log : Log),
      let times := taken_times (snd (dispatch_series host calls self log)) in
      Sorted (apart (cooldown_time self)) times
      /\ (0 <= cooldown_time self ->
          StronglySorted (apart (cooldown_time self)) times)).
Proof.
  intro NM. split.
  - intros now g x y log.
    destruct (execute_action_rate_gated host now g x y self log NM)
      as (new & b & E & G & _).
    cbv zeta. rewrite E. cbn [fst snd]. split; [| split].
    + intro N. apply G. left. intros ->. apply N. apply app_nil_r.
    + intro B. injection B as ->. reflexivity.
    + destruct b; auto.
  - intros calls log times.
    destruct (dispatch_series_spaced host calls self log NM) as [_ S].
    fold times in S. split; [exact S|].
    intro CD. apply Sorted_StronglySorted; [| exact S].
    intros a b c. apply apart_transitive, CD.
Qed.

(** With a cooldown of 0.8 s, the first and the last of [four_calls] take
    an action. *)
Example four_calls_run :
  snd (dispatch_series quiet_host four_calls fresh_controller [])
  = [(10, true); (10.5, false); (10.7, false); (12, true)]
  /\ snd (fst (dispatch_series quiet_host four_calls fresh_controller []))
    = [(press "playpause", true); (press "prevtrack", true)].
Proof. vm_compute. split; reflexivity. Qed.

Lemma cooldown_gates_effects_witness :
  mode fresh_controller <> MOUSE
  /\ Sorted (apart (cooldown_time fresh_controller))
       (taken_times
          (snd (dispatch_series quiet_host four_calls fresh_controller [])))
  /\ last_action_time
       (fst (fst (execute_action quiet_host 10 FIST 0 0
                    fresh_controller [])))
     = 10.
Proof.
  assert (NM : mode fresh_controller <> MOUSE) by (cbn; discriminate).
  destruct (cooldown_gates_effects quiet_host fresh_controller NM)
    as [One Many].
  split; [exact NM|]. split.
  - exact (proj1 (Many four_calls [])).
  - apply (One 10 FIST 0%Z 0%Z []). vm_compute. reflexivity.
Defined.




(** ** Dispatch in Mouse mode *)

(** [_mouse_control] always returns, only appends to the log and changes
    nothing of the controller but the click and drag flags. *)
Lemma mouse_control_outcome (host : Host) (g : Gesture) (x y : Z)
    (self : Controller) (log : Log) :
  exists (new : Log) (b : bool) (self' : Controller),
    _mouse_control host g x y self log = (self', log ++ new, Some b)
    /\ self' = with_is_dragging (is_dragging self')
                 (with_is_clicking (is_clicking self') self).
Proof.
  unfold _mouse_control.
  destruct (PYAUTOGUI_AVAILABLE host); cbn [negb].
  2: { exists [], false, self. rewrite app_nil_r.
       split; [reflexivity | destruct self; reflexivity]. }
  destruct self as [m s cg lg gst cd lat lr rt ra lx ly lz st dt fs ms ma
                      ic idr sw sh vc].
  unfold mouse_actions.
  destruct g, ic, idr; try destruct ly as [ly |]; unfold_M; cbn -[py_int Qplus Qmult Qminus Qdiv inject_Z];
    repeat match goal with
      | |- context [(Z.abs ?a >? 5)%Z] => destruct (Z.abs a >? 5)%Z
      end;
    unfold_M; cbn -[py_int Qplus Qmult Qminus Qdiv inject_Z];
    repeat (match goal with
            | |- context [raises ?h ?l ?c] =>
                let R := fresh "R" in destruct (raises h l c) eqn:R
            end; cbn -[py_int Qplus Qmult Qminus Qdiv inject_Z]);
    first [ exists []; rewrite app_nil_r; do 2 eexists;
            split; reflexivity
          | rewrite <- ?app_assoc; do 3 eexists; split; reflexivity ].
Qed.

Lemma rightClicks_app (l1 l2 : Log) :
  rightClicks (l1 ++ l2) = (rightClicks l1 + rightClicks l2)%nat.
Proof. unfold rightClicks. rewrite filter_app. apply length_app. Qed.

(** In Mouse mode with pyautogui present, a call with a peace sign calls
    [rightClick] exactly once, whatever the click flag was before. *)
Lemma mouse_peace_outcome (host : Host) (x y : Z) (self : Controller)
    (log : Log) :
  PYAUTOGUI_AVAILABLE host = true ->
  exists (ok : bool) (tail : Log) (b : bool) (self' : Controller),
    _mouse_control host PEACE x y self log
    = (self', log ++ (rightClick, ok) :: tail, Some b)
    /\ rightClicks tail = 0%nat
    /\ mode self' = mode self.
Proof.
  intro PA. unfold _mouse_control. rewrite PA. cbn [negb].
  destruct self as [m s cg lg gst cd lat lr rt ra lx ly lz st dt fs ms ma
                      ic idr sw sh vc].
  unfold mouse_actions.
  destruct ic, idr; run_calls;
    rewrite <- ?app_assoc; do 4 eexists;
    (split; [reflexivity | split; reflexivity]).
Qed.

(** C10: in Mouse mode (pyautogui being present) every dispatch call
    whose gesture is PEACE calls [rightClick], whatever [is_clicking] was
    on entry, since the branch taken for a gesture other than PINCH
    clears the flag first; a series of such calls therefore makes one
    [rightClick] per call. *)
Theorem peace_right_clicks_every_call (host : Host) (self : Controller) :
  PYAUTOGUI_AVAILABLE host = true ->
  mode self = MOUSE ->
  (forall (now : Q) (x y : Z) (log : Log),
     exists (ok : bool) (tail : Log),
       snd (fst (execute_action host now PEACE x y self log))
       = log ++ (rightClick, ok) :: tail
       /\ rightClicks tail = 0%nat)
  /\ (forall (calls : list DispatchCall) (log : Log),
      Forall (fun c => call_gesture c = PEACE) calls ->
      rightClicks (snd (fst (dispatch_series host calls self log)))
      = (rightClicks log + List.length calls)%nat).
Proof.
  intros PA MM. split.
  - intros now x y log.
    unfold execute_action, bind, get. rewrite MM.
    destruct (mouse_peace_outcome host x y self log PA)
      as (ok & tail & b & self' & -> & T & _).
    exists ok, tail. split; [reflexivity | exact T].
  - intros calls. revert self MM.
    induction calls as [| c rest IH]; intros self MM log A;
      cbn [dispatch_series].
    + cbn [fst snd List.length]. now rewrite Nat.add_0_r.
    + inversion A as [| c' rest' Gc Ar]; subst.
      unfold execute_action at 1. unfold bind, get. rewrite MM, Gc.
      destruct (mouse_peace_outcome host (call_x c) (call_y c) self log PA)
        as (ok & tail & b & self' & -> & T & Md).
      specialize (IH self' (eq_trans Md MM)
                    (log ++ (rightClick, ok) :: tail) Ar).
      destruct (dispatch_series host rest self' _) as [[s2 l2] outs].
      cbn [fst snd] in IH |- *. rewrite IH, rightClicks_app.
      change ((rightClick, ok) :: tail) with ([(rightClick, ok)] ++ tail).
      rewrite rightClicks_app, T.
      change (rightClicks [(rightClick, ok)]) with 1%nat.
      cbn [List.length]. lia.
Qed.

(** Three peace signs in a row, starting with the click flag set: three
    right clicks. *)
Example three_peace_calls_run :
  snd (fst (dispatch_series quiet_host three_peace_calls mouse_controller []))
  = [(rightClick, true); (rightClick, true); (rightClick, true)].
Proof. vm_compute. reflexivity. Qed.

Lemma peace_right_clicks_every_call_witness :
  PYAUTOGUI_AVAILABLE quiet_host = true
  /\ mode mouse_controller = MOUSE
  /\ is_clicking mouse_controller = true
  /\ rightClicks
       (snd (fst (dispatch_series quiet_host three_peace_calls
                    mouse_controller [])))
     = (rightClicks [] + List.length three_peace_calls)%nat.
Proof.
  split; [reflexivity|]. split; [reflexivity|]. split; [reflexivity|].
  apply (peace_right_clicks_every_call quiet_host mouse_controller
           eq_refl eq_refl).
  repeat constructor.
Defined.

(** ** The hold-time gate *)

Lemma rotation_rule_hold (self : Controller) (r : Q) (g : Gesture) :
  same_hold_state self (fst (rotation_rule self r g)).
Proof.
  unfold rotation_rule, same_hold_state.
  destruct (last_rotation self); [| auto].
  match goal with |- context [if ?b then _ else _] => destruct b end;
    cbn; auto.
Qed.

Lemma swipe_rule_hold (self : Controller) (x y : Z) (g : Gesture) :
  same_hold_state self (fst (swipe_rule self x y g)).
Proof.
  unfold swipe_rule, same_hold_state.
  destruct (last_palm_x self), (last_palm_y self); auto.
  repeat match goal with |- context [if ?b then _ else _] => destruct b end;
    cbn; auto.
Qed.

Lemma update_tracking_hold (self : Controller) (x y : Z) (g : Gesture) :
  same_hold_state self (update_tracking self x y g).
Proof.
  unfold update_tracking, same_hold_state.
  destruct (negb (is_swipe g)); auto.
  repeat (cbn;
          match goal with
          | |- context [match last_palm_x ?s with _ => _ end] =>
              destruct (last_palm_x s)
          | |- context [match last_palm_y ?s with _ => _ end] =>
              destruct (last_palm_y s)
          | |- context [if ?b then _ else _] => destruct b
          end);
    auto.
Qed.

(** Classification leaves the gate's fields alone. *)
Lemma detect_gesture_hold (self self' : Controller) (o r : Q) (x y : Z)
    (z : Q) (lms : list Landmark) (g : Gesture) :
  detect_gesture self o r x y z lms = Some (self', g) ->
  same_hold_state self self'.
Proof.
  unfold detect_gesture.
  destruct (_detect_finger_states lms) as [fs |]; [| discriminate].
  destruct (_detect_pinch lms) as [p |]; [| discriminate].
  set (s0 := with_finger_states fs self).
  set (g0 := depth_rule s0 z (shape_rules p (finger_states s0) o)).
  pose proof (rotation_rule_hold s0 r g0) as (A1 & A2 & A3).
  destruct (rotation_rule s0 r g0) as [s1 g1]. cbn [fst] in A1, A2, A3.
  pose proof (swipe_rule_hold s1 x y g1) as (B1 & B2 & B3).
  destruct (swipe_rule s1 x y g1) as [s2 g2]. cbn [fst] in B1, B2, B3.
  pose proof (update_tracking_hold s2 x y g2) as (C1 & C2 & C3).
  intro E. injection E as <- <-. unfold same_hold_state. cbn.
  rewrite C1, C2, C3, B1, B2, B3, A1, A2, A3. auto.
Qed.

(** In every mode [execute_action] returns, only appends to the log and
    leaves the gate's fields alone. *)
Lemma execute_action_outcome (host : Host) (now : Q) (g : Gesture)
    (x y : Z) (self : Controller) (log : Log) :
  exists (new : Log) (b : bool) (self' : Controller),
    execute_action host now g x y self log = (self', log ++ new, Some b)
    /\ same_hold_state self self'.
Proof.
  destruct (ControlMode_eq_dec (mode self) MOUSE) as [MM | NM].
  - unfold execute_action, bind, get. rewrite MM.
    destruct (mouse_control_outcome host g x y self log)
      as (new & b & self' & -> & S).
    exists new, b, self'. split; [reflexivity|].
    rewrite S. unfold same_hold_state. cbn. auto.
  - destruct (execute_action_rate_gated host now g x y self log NM)
      as (new & b & -> & _).
    exists new, b, (if b then with_last_action_time now self else self).
    split; [reflexivity|]. destruct b; unfold same_hold_state; cbn; auto.
Qed.

Lemma gesture_eqb_eq (a b : Gesture) : gesture_eqb a b = true <-> a = b.
Proof.
  unfold gesture_eqb. destruct (Gesture_eq_dec a b); split; congruence.
Qed.

Lemma gesture_eqb_neq (a b : Gesture) : gesture_eqb a b = false <-> a <> b.
Proof.
  unfold gesture_eqb. destruct (Gesture_eq_dec a b); split; congruence.
Qed.

(** C5 as stated fails: a fist at time 10 starts the hold timer, the
    relaxed hand at time 20 (classified NONE) does not restart it, and
    the fist at time 30 presses play/pause at once, although at that
    frame the fist has not been recognised continuously for more than
    0.3 s. *)
Lemma effect_after_interrupted_hold :
  let run := frame_series quiet_host fist_pause_fist fresh_controller [] in
  snd run = [Some (FIST, false); Some (NONE, false); Some (FIST, true)]
  /\ snd (fst run) = [(press "playpause", true)]
  /\ ~ held_continuously [(10, FIST); (20, NONE); (30, FIST)] FIST 30
         (hold_time MEDIA).
Proof.
  split; [vm_compute; reflexivity|]. split; [vm_compute; reflexivity|].
  intros (t0 & H & I & C).
  destruct I as [I | [I | [I | []]]].
  - injection I as <-.
    assert (G : NONE = FIST).
    { apply (C 20 NONE); [right; left; reflexivity | |];
        vm_compute; discriminate. }
    discriminate.
  - discriminate.
  - injection I as <-. vm_compute in H. discriminate.
Qed.

(** [process_frame] after a classification that returned. *)
Lemma process_frame_classified (host : Host) (clk : Clock) (f : Frame)
    (self s1 : Controller) (g : Gesture) (log : Log) :
  detect_gesture self (openness f) (rotation f) (palm_x f) (palm_y f)
    (palm_z f) (landmarks f) = Some (s1, g) ->
  process_frame host clk f self log =
    let s2 := after_gate clk g s1 in
    if negb (gesture_eqb g NONE)
       && (t_hold clk - gesture_start_time s2 >? hold_time (mode s2))
    then
      match execute_action host (t_now clk) g (palm_x f) (palm_y f) s2 log
      with
      | (s3, l3, Some b) => (s3, l3, Some (g, b))
      | (s3, l3, None) => (s3, l3, None)
      end
    else (s2, log, Some (g, false)).
Proof.
  intro D. unfold process_frame, detect, after_gate.
  unfold bind at 1. rewrite D.
  unfold bind, get, modify, ret.
  destruct (negb (gesture_eqb g NONE)
            && negb (gesture_eqb g (last_gesture s1))); cbv zeta;
    match goal with |- context [if ?c then _ else _] => destruct c end;
    try reflexivity;
    destruct (execute_action _ _ _ _ _ _ _) as [[s3 l3] [b |]]; reflexivity.
Qed.

(** C5, amended: a call of [process_frame] on a frame with 21 landmarks
    touches the host (or reports an action) only if the classified
    gesture is not NONE, equals [last_gesture], and the clock reading of
    the check exceeds [gesture_start_time] by more than the hold duration
    (0.2 s in Mouse mode, 0.3 s otherwise).  [gesture_start_time] is
    restarted, and [last_gesture] replaced, exactly when the classified
    gesture is not NONE and differs from [last_gesture]; frames
    classified NONE leave both as they are. *)
Theorem hold_gate (host : Host) (clk : Clock) (f : Frame)
    (self : Controller) (log : Log) :
  (21 <= List.length (landmarks f))%nat ->
  exists (g : Gesture) (b : bool) (self' : Controller) (new : Log),
    process_frame host clk f self log = (self', log ++ new, Some (g, b))
    /\ (g <> NONE -> g <> last_gesture self ->
        gesture_start_time self' = t_start clk /\ last_gesture self' = g)
    /\ (g = NONE \/ g = last_gesture self ->
        gesture_start_time self' = gesture_start_time self
        /\ last_gesture self' = last_gesture self)
    /\ (new <> [] \/ b = true ->
        g <> NONE
        /\ last_gesture self' = g
        /\ hold_time (mode self) < t_hold clk - gesture_start_time self').
Proof.
  intro L.
  destruct (detect_gesture_defined self (openness f) (rotation f) (palm_x f)
              (palm_y f) (palm_z f) (landmarks f) L) as (s1 & g & D).
  rewrite (process_frame_classified host clk f self s1 g log D).
  destruct (detect_gesture_hold _ _ _ _ _ _ _ _ _ D) as (H1 & H2 & H3).
  set (s2 := after_gate clk g s1).
  assert (M2 : mode s2 = mode self)
    by (subst s2; unfold after_gate;
        match goal with |- context [if ?c then _ else _] => destruct c end;
        cbn; exact H3).
  assert (R1 : g <> NONE -> g <> last_gesture self ->
               gesture_start_time s2 = t_start clk /\ last_gesture s2 = g).
  { intros N1 N2. subst s2. unfold after_gate.
    apply gesture_eqb_neq in N1. rewrite <- H1 in N2.
    apply gesture_eqb_neq in N2. rewrite N1, N2. cbn. auto. }
  assert (R2 : g = NONE \/ g = last_gesture self ->
               gesture_start_time s2 = gesture_start_time self
               /\ last_gesture s2 = last_gesture self).
  { intros [N | N]; subst s2; unfold after_gate.
    - apply gesture_eqb_eq in N. rewrite N. cbn. auto.
    - rewrite <- H1 in N. apply gesture_eqb_eq in N.
      rewrite N, andb_false_r. auto. }
  assert (R3 : g <> NONE -> last_gesture s2 = g).
  { intro N1. destruct (Gesture_eq_dec g (last_gesture self)) as [Eq | Ne].
    - destruct (R2 (or_intror Eq)) as [_ ->]. auto.
    - exact (proj2 (R1 N1 Ne)). }
  clearbody s2. cbv zeta.
  destruct (gesture_eqb g NONE) eqn:GN; cbn [negb andb].
  - exists g, false, s2, []. rewrite app_nil_r.
    split; [reflexivity|]. split; [exact R1|]. split; [exact R2|].
    intros [N | N]; congruence.
  - apply gesture_eqb_neq in GN.
    destruct (Qltb_reflect (hold_time (mode s2))
                (t_hold clk - gesture_start_time s2)) as [T | T].
    + destruct (execute_action_outcome host (t_now clk) g (palm_x f)
                  (palm_y f) s2 log) as (new & b & s3 & -> & K1 & K2 & K3).
      exists g, b, s3, new. split; [reflexivity|].
      rewrite K1, K2. split; [exact R1|]. split; [exact R2|].
      intros _. rewrite <- M2. auto.
    + exists g, false, s2, []. rewrite app_nil_r.
      split; [reflexivity|]. split; [exact R1|]. split; [exact R2|].
      intros [N | N]; congruence.
Qed.

(** The third frame of [fist_pause_fist]: the fist is back at time 30,
    [last_gesture] is still FIST with its timer at 10, and play/pause is
    pressed. *)
Lemma hold_gate_witness :
  (21 <= List.length (landmarks (still_frame 10 closed_hand)))%nat
  /\ exists (g : Gesture) (b : bool) (self' : Controller) (new : Log),
       process_frame quiet_host (at_time 30) (still_frame 10 closed_hand)
         paused_fist []
       = (self', [] ++ new, Some (g, b))
       /\ (g <> NONE -> g <> last_gesture paused_fist ->
           gesture_start_time self' = t_start (at_time 30)
           /\ last_gesture self' = g)
       /\ (g = NONE \/ g = last_gesture paused_fist ->
           gesture_start_time self' = gesture_start_time paused_fist
           /\ last_gesture self' = last_gesture paused_fist)
       /\ (new <> [] \/ b = true ->
           g <> NONE
           /\ last_gesture self' = g
           /\ hold_time (mode paused_fist)
              < t_hold (at_time 30) - gesture_start_time self').
Proof.
  assert (L : (21 <= List.length (landmarks (still_frame 10 closed_hand)))%nat)
    by (vm_compute; lia).
  split; [exact L|].
  exact (hold_gate quiet_host (at_time 30) (still_frame 10 closed_hand)
           paused_fist [] L).
Defined.

Example paused_fist_run :
  last_gesture paused_fist = FIST
  /\ gesture_start_time paused_fist = 10
  /\ process_frame quiet_host (at_time 30) (still_frame 10 closed_hand)
       paused_fist []
     = (with_last_action_time 30 (with_current_gesture FIST paused_fist),
        [(press "playpause", true)], Some (FIST, true)).
Proof. vm_compute. repeat split; reflexivity. Qed.

(** * Further properties *)

(** ** Thresholds as functions of the sensitivity *)

Lemma Qdiv_antitone (a x y : Q) :
  0 <= a -> 0 < x -> x <= y -> a / y <= a / x.
Proof.
  intros Ha Hx Hxy.
  assert (Hy : 0 < y) by lra.
  apply Qle_shift_div_r; [exact Hy|].
  assert (Q0 : 0 <= a / x) by (apply Qle_shift_div_l; [exact Hx | lra]).
  assert (E : a / x * x == a) by (field; lra).
  rewrite <- E at 1.
  rewrite (Qmult_comm (a / x) x), (Qmult_comm (a / x) y).
  apply Qmult_le_compat_r; assumption.
Qed.

Lemma py_max_monotone (a x y : Q) : x <= y -> py_max a x <= py_max a y.
Proof. intro H. unfold py_max. qcases; lra. Qed.

Lemma clamp_monotone (s1 s2 : Q) :
  s1 <= s2 ->
  py_max 0.3 (py_min 3.0 s1) <= py_max 0.3 (py_min 3.0 s2).
Proof. intro H. unfold py_max, py_min. qcases; lra. Qed.

(** X1: After [set_sensitivity], whatever its argument, the cooldown lies in
    [0.3, 2.67] seconds, the rotation threshold in [15, 83.34] degrees,
    the swipe threshold in [60, 333.34] pixels and the depth threshold in
    [0.0266, 0.2667]; [set_sensitivity] never raises.  The lower ends of
    the first three are the floors of [max], which returns one of its
    arguments.  The other ends come from a division, at the ends of the
    clamp 0.8/0.3, 25/0.3, 100/0.3, 0.08/0.3 and 0.08/3, and are stated
    to the next second or fourth decimal outwards, so that they do not
    depend on how the quotient is rounded. *)
Theorem set_sensitivity_threshold_bounds (s : Q) (self : Controller) :
  exists self',
    set_sensitivity s self = Some self'
    /\ 0.3 <= cooldown_time self' <= 2.67
    /\ 15 <= rotation_threshold self' <= 83.34
    /\ 60 <= swipe_threshold self' <= 333.34
    /\ 0.0266 <= depth_threshold self' <= 0.2667.
Proof.
  destruct (set_sensitivity_spec s self)
    as (self' & E & _ & [Lo Hi] & T1 & T2 & T3 & T4).
  exists self'. split; [exact E|]. rewrite T1, T2, T3, T4.
  set (x := sensitivity self') in *.
  assert (Hx : 0 < x) by lra.
  assert (A : forall a, 0 <= a -> a / 3 <= a / x /\ a / x <= a / 0.3).
  { intros a Ha. split; apply Qdiv_antitone; lra. }
  destruct (A 0.8) as [A1 A2]; [lra|].
  destruct (A 25) as [B1 B2]; [lra|].
  destruct (A 100) as [C1 C2]; [lra|].
  destruct (A 0.08) as [D1 D2]; [lra|].
  assert (E1 : 0.8 / 0.3 == 8 # 3) by reflexivity.
  assert (E2 : 25 / 0.3 == 250 # 3) by reflexivity.
  assert (E3 : 100 / 0.3 == 1000 # 3) by reflexivity.
  assert (E4 : 0.08 / 0.3 == 4 # 15) by reflexivity.
  assert (E5 : 0.08 / 3 == 2 # 75) by reflexivity.
  unfold py_max. qcases; repeat split; lra.
Qed.

(** X2: A higher sensitivity never gives a longer cooldown nor a larger
    rotation, swipe or depth threshold. *)
Theorem thresholds_antitone (s1 s2 : Q) (c1 c2 : Controller) :
  s1 <= s2 ->
  exists c1' c2',
    set_sensitivity s1 c1 = Some c1'
    /\ set_sensitivity s2 c2 = Some c2'
    /\ sensitivity c1' <= sensitivity c2'
    /\ cooldown_time c2' <= cooldown_time c1'
    /\ rotation_threshold c2' <= rotation_threshold c1'
    /\ swipe_threshold c2' <= swipe_threshold c1'
    /\ depth_threshold c2' <= depth_threshold c1'.
Proof.
  intro H.
  destruct (set_sensitivity_spec s1 c1)
    as (c1' & E1 & S1 & [Lo1 Hi1] & A1 & A2 & A3 & A4).
  destruct (set_sensitivity_spec s2 c2)
    as (c2' & E2 & S2 & [Lo2 Hi2] & B1 & B2 & B3 & B4).
  exists c1', c2'. split; [exact E1|]. split; [exact E2|].
  rewrite A1, A2, A3, A4, B1, B2, B3, B4.
  assert (X : sensitivity c1' <= sensitivity c2')
    by (rewrite S1, S2; apply clamp_monotone, H).
  split; [exact X|].
  assert (P : 0 < sensitivity c1') by lra.
  repeat split; try apply py_max_monotone; apply Qdiv_antitone;
    trivial; lra.
Qed.

Lemma thresholds_antitone_witness :
  0.5 <= 2
  /\ exists c1' c2',
       set_sensitivity 0.5 fresh_controller = Some c1'
       /\ set_sensitivity 2 fresh_controller = Some c2'
       /\ sensitivity c1' <= sensitivity c2'
       /\ cooldown_time c2' <= cooldown_time c1'
       /\ rotation_threshold c2' <= rotation_threshold c1'
       /\ swipe_threshold c2' <= swipe_threshold c1'
       /\ depth_threshold c2' <= depth_threshold c1'.
Proof.
  assert (H : 0.5 <= 2) by (vm_compute; discriminate).
  split; [exact H|].
  exact (thresholds_antitone 0.5 2 fresh_controller fresh_controller H).
Defined.

Lemma clamp_idempotent (s : Q) :
  py_max 0.3 (py_min 3.0 (py_max 0.3 (py_min 3.0 s)))
  = py_max 0.3 (py_min 3.0 s).
Proof.
  unfold py_max, py_min.
  destruct (s <? 3.0) eqn:A.
  - destruct (0.3 <? s) eqn:B.
    + rewrite A, B. reflexivity.
    + reflexivity.
  - reflexivity.
Qed.

(** X3: [set_sensitivity] depends on its argument alone: applied to the
    result of an earlier [set_sensitivity] it gives what it gives on the
    original controller, and applied to the sensitivity already stored by
    [set_sensitivity] it changes nothing. *)
Theorem set_sensitivity_overrides (s1 s2 : Q) (c : Controller) :
  exists c1,
    set_sensitivity s1 c = Some c1
    /\ set_sensitivity s2 c1 = set_sensitivity s2 c
    /\ set_sensitivity (sensitivity c1) c1 = Some c1.
Proof.
  pose proof (clamp_range s1) as R1.
  pose proof (clamp_range s2) as R2.
  assert (N1 : ~ py_max 0.3 (py_min 3.0 s1) == 0) by lra.
  assert (N2 : ~ py_max 0.3 (py_min 3.0 s2) == 0) by lra.
  destruct c as [m s cg lg gst cd lat lr rt ra lx ly lz st dt fs ms ma
                   ic idr sw sh vc].
  unfold set_sensitivity.
  cbn [sensitivity with_sensitivity with_cooldown_time
       with_rotation_threshold with_swipe_threshold with_depth_threshold].
  rewrite !(py_div_defined _ _ N1).
  eexists. split; [reflexivity|].
  cbn [sensitivity with_sensitivity with_cooldown_time
       with_rotation_threshold with_swipe_threshold with_depth_threshold].
  rewrite !(py_div_defined _ _ N2). split; [reflexivity|].
  rewrite clamp_idempotent, !(py_div_defined _ _ N1). reflexivity.
Qed.

(** X4: For every non-zero argument, negative ones included, the constructor
    gives a cooldown of at least 0.3 s, a rotation threshold of at least
    15 degrees and a swipe threshold of at least 60 pixels; with a zero
    argument it raises. *)
Theorem init_threshold_floors (host : Host) (t0 : Q) (m : ControlMode)
    (s : Q) :
  (s == 0 -> __init__ host t0 m s = None)
  /\ (~ s == 0 ->
      exists self,
        __init__ host t0 m s = Some self
        /\ 0.3 <= cooldown_time self
        /\ 15 <= rotation_threshold self
        /\ 60 <= swipe_threshold self
        /\ depth_threshold self = 0.08 / s).
Proof.
  split.
  - intro Z. unfold __init__, py_div.
    apply Qeq_bool_iff in Z. rewrite Z. reflexivity.
  - intro N. destruct (init_spec host t0 m s N)
      as (self & E & Es & T1 & T2 & T3 & T4).
    exists self. rewrite T1, T2, T3, T4, Es. split; [exact E|].
    repeat split; try apply py_max_lower.
Qed.

(** ** Openness scaling in the main loop *)

(** X5: The scaling never divides by zero, whatever the image size, and gives
    an openness between 0 and 100 that does not decrease when the mean
    fingertip distance grows. *)
Theorem raw_openness_range (mean_dist mean_dist' : Q) (w h : Z) :
  exists o o',
    raw_openness mean_dist w h = Some o
    /\ raw_openness mean_dist' w h = Some o'
    /\ 0 <= o <= 100
    /\ (mean_dist <= mean_dist' -> o <= o').
Proof.
  unfold raw_openness.
  set (closed_ref := py_max 12.0 (py_min 40.0 (inject_Z (Z.min w h) * 0.04))).
  set (open_ref := py_max 60.0 (inject_Z (Z.min w h) * 0.55)).
  assert (C : 12 <= closed_ref <= 40)
    by (subst closed_ref; unfold py_max, py_min; qcases; lra).
  assert (O : 60 <= open_ref)
    by (subst open_ref; unfold py_max; qcases; lra).
  assert (D : 0 < open_ref - closed_ref) by lra.
  assert (N : ~ open_ref - closed_ref == 0) by lra.
  rewrite !(py_div_defined _ _ N).
  do 2 eexists. split; [reflexivity|]. split; [reflexivity|]. split.
  - unfold np_clip. qcases; lra.
  - intro L.
    assert (M : (mean_dist - closed_ref) / (open_ref - closed_ref)
                <= (mean_dist' - closed_ref) / (open_ref - closed_ref)).
    { unfold Qdiv. apply Qmult_le_compat_r; [lra|].
      apply Qlt_le_weak, Qinv_lt_0_compat, D. }
    unfold np_clip. qcases; lra.
Qed.

(** ** Keys of the main loop *)

Lemma set_mode_tuned (m : ControlMode) (c : Controller) :
  tuned c -> tuned (set_mode m c).
Proof. intro T. exact T. Qed.

(** What one key press can do to the controller: it never raises, keeps a
    tuned controller tuned, and leaves the cooldown and hold clocks and the
    last gesture alone. *)
Lemma handle_key_outcome (key : Z) (app : App) :
  exists app',
    handle_key key app = Some app'
    /\ (tuned (gesture_controller app) -> tuned (gesture_controller app'))
    /\ last_action_time (gesture_controller app')
       = last_action_time (gesture_controller app)
    /\ last_gesture (gesture_controller app')
       = last_gesture (gesture_controller app)
    /\ gesture_start_time (gesture_controller app')
       = gesture_start_time (gesture_controller app).
Proof.
  unfold handle_key.
  set (c := gesture_controller app).
  destruct (key =? 27)%Z; [eexists; split; [reflexivity | cbn; auto]|].
  destruct ((key =? ord "c")%Z || (key =? ord "C")%Z);
    [eexists; split; [reflexivity | cbn; auto]|].
  destruct ((key =? ord "m")%Z || (key =? ord "M")%Z).
  { destruct (mode c); cbn;
      (eexists; split; [reflexivity | cbn; auto]). }
  do 4 (match goal with
        | |- context [if ?b then _ else _] =>
            destruct b; [eexists; split; [reflexivity | cbn; auto]|]
        end).
  destruct ((key =? ord "+")%Z || (key =? ord "=")%Z).
  { destruct (set_sensitivity_spec (sensitivity c + 0.2) c)
      as (c' & E & _ & R & T1 & T2 & T3 & T4).
    rewrite E. eexists. split; [reflexivity|]. cbn.
    split; [intros _; repeat split; tauto|].
    revert E. clear. unfold set_sensitivity.
    repeat match goal with
      | |- context [py_div ?a ?b] => destruct (py_div a b)
      end; try discriminate.
    intro E. injection E as <-. cbn. auto. }
  destruct ((key =? ord "-")%Z || (key =? ord "_")%Z).
  { destruct (set_sensitivity_spec (sensitivity c - 0.2) c)
      as (c' & E & _ & R & T1 & T2 & T3 & T4).
    rewrite E. eexists. split; [reflexivity|]. cbn.
    split; [intros _; repeat split; tauto|].
    revert E. clear. unfold set_sensitivity.
    repeat match goal with
      | |- context [py_div ?a ?b] => destruct (py_div a b)
      end; try discriminate.
    intro E. injection E as <-. cbn. auto. }
  eexists. split; [reflexivity | auto].
Qed.

(** X6: No sequence of key presses raises, takes the sensitivity out of
    [0.3, 3.0] or leaves a threshold that was not derived from the stored
    sensitivity; none touches the cooldown clock, the hold clock or the
    last gesture. *)
Theorem keys_keep_tuned (keys : list Z) :
  forall app : App,
  tuned (gesture_controller app) ->
  exists app',
    handle_keys keys app = Some app'
    /\ tuned (gesture_controller app')
    /\ last_action_time (gesture_controller app')
       = last_action_time (gesture_controller app)
    /\ last_gesture (gesture_controller app')
       = last_gesture (gesture_controller app)
    /\ gesture_start_time (gesture_controller app')
       = gesture_start_time (gesture_controller app).
Proof.
  induction keys as [| k rest IH]; intros app T; cbn [handle_keys].
  - exists app. auto.
  - destruct (handle_key_outcome k app) as (app1 & E & T1 & A1 & A2 & A3).
    rewrite E. destruct (running app1).
    + destruct (IH app1 (T1 T)) as (app2 & E2 & T2 & B1 & B2 & B3).
      exists app2. split; [exact E2|]. split; [exact T2|].
      rewrite B1, B2, B3. auto.
    + exists app1. auto.
Qed.

Example fresh_controller_tuned : tuned fresh_controller.
Proof.
  unfold tuned. cbn. repeat split; try reflexivity;
    vm_compute; discriminate.
Qed.

Lemma keys_keep_tuned_witness :
  tuned (gesture_controller fresh_app)
  /\ exists app',
       handle_keys [ord "+"; ord "+"; ord "m"; ord "-"] fresh_app = Some app'
       /\ tuned (gesture_controller app').
Proof.
  split; [exact fresh_controller_tuned|].
  destruct (keys_keep_tuned [ord "+"; ord "+"; ord "m"; ord "-"] fresh_app
              fresh_controller_tuned) as (app' & E & T & _).
  exists app'. split; assumption.
Defined.

Lemma mode_set_mode (m : ControlMode) (c : Controller) :
  mode (set_mode m c) = m.
Proof. reflexivity. Qed.

Lemma handle_key_mode_key (key : Z) (app : App) :
  key = ord "m" \/ key = ord "M" ->
  handle_key key app
  = Some (with_controller
            (set_mode (successor (mode (gesture_controller app)))
               (gesture_controller app)) app).
Proof.
  intro K. unfold handle_key.
  assert (E1 : (key =? 27)%Z = false)
    by (destruct K as [-> | ->]; vm_compute; reflexivity).
  assert (E2 : (key =? ord "c")%Z || (key =? ord "C")%Z = false)
    by (destruct K as [-> | ->]; vm_compute; reflexivity).
  assert (E3 : (key =? ord "m")%Z || (key =? ord "M")%Z = true)
    by (destruct K as [-> | ->]; vm_compute; reflexivity).
  rewrite E1, E2, E3.
  destruct (mode (gesture_controller app)); reflexivity.
Qed.

(** X7: The keys m and M move to the next mode in the order Media, Mouse,
    Window, Presentation, Media, through [set_mode]; four presses in a
    row bring the mode back. *)
Theorem mode_key_cycles (key : Z) (app : App) :
  key = ord "m" \/ key = ord "M" ->
  running app = true ->
  let c := gesture_controller app in
  handle_key key app
  = Some (with_controller (set_mode (successor (mode c)) c) app)
  /\ exists app',
       handle_keys [key; key; key; key] app = Some app'
       /\ mode (gesture_controller app') = mode c.
Proof.
  intros K Ru c. split; [exact (handle_key_mode_key key app K)|].
  assert (Step : forall a : App,
             running a = true ->
             exists a',
               handle_key key a = Some a'
               /\ running a' = true
               /\ mode (gesture_controller a')
                  = successor (mode (gesture_controller a))).
  { intros a Ra. eexists. split; [exact (handle_key_mode_key key a K)|].
    split; [exact Ra | reflexivity]. }
  destruct (Step app Ru) as (a1 & E1 & R1 & M1).
  destruct (Step a1 R1) as (a2 & E2 & R2 & M2).
  destruct (Step a2 R2) as (a3 & E3 & R3 & M3).
  destruct (Step a3 R3) as (a4 & E4 & R4 & M4).
  exists a4. split.
  - cbn [handle_keys]. rewrite E1, R1, E2, R2, E3, R3, E4, R4. reflexivity.
  - rewrite M4, M3, M2, M1. subst c.
    destruct (mode (gesture_controller app)); reflexivity.
Qed.

Lemma mode_key_cycles_witness :
  (ord "m" = ord "m" \/ ord "m" = ord "M")
  /\ running fresh_app = true
  /\ handle_key (ord "m") fresh_app
     = Some (with_controller (set_mode MOUSE fresh_controller) fresh_app).
Proof.
  split; [left; reflexivity|]. split; [reflexivity|].
  exact (proj1 (mode_key_cycles (ord "m") fresh_app
                  (or_introl eq_refl) eq_refl)).
Defined.

(** ** The main loop while paused or without a hand *)

Lemma loop_iteration_idle (host : Host) (clk : Clock) (hand : option Frame)
    (key : Z) (app : App) (log : Log) :
  control_enabled app = false \/ hand = None ->
  exists app',
    handle_key key app = Some app'
    /\ loop_iteration host clk hand key app log
       = (app', log, Some (NONE, false)).
Proof.
  intro I. destruct (handle_key_outcome key app) as (app' & E & _).
  exists app'. split; [exact E|].
  unfold loop_iteration.
  destruct I as [P | ->].
  - rewrite P. destruct hand; rewrite E; reflexivity.
  - rewrite E. reflexivity.
Qed.

Lemma handle_key_keeps_pause (key : Z) (app app' : App) :
  key <> ord "c" -> key <> ord "C" ->
  handle_key key app = Some app' ->
  control_enabled app' = control_enabled app.
Proof.
  intros N1 N2. unfold handle_key.
  apply Z.eqb_neq in N1, N2. rewrite N1, N2. cbn [orb].
  repeat match goal with
    | |- context [if ?b then _ else _] => destruct b
    end;
    try (intro E; injection E as <-; reflexivity).
  - destruct (list_index modes _); [| discriminate].
    destruct (nth_error modes _); [| discriminate].
    intro E; injection E as <-; reflexivity.
  - destruct (set_sensitivity _ _); [| discriminate].
    intro E; injection E as <-; reflexivity.
  - destruct (set_sensitivity _ _); [| discriminate].
    intro E; injection E as <-; reflexivity.
Qed.

(** X8: While gesture control is switched off (key c) and is not switched on
    again, the loop makes no call into the host, whatever hands are seen
    and whatever other keys are pressed; the same holds for any stretch of
    iterations in which no hand is found. *)
Theorem paused_loop_makes_no_call (host : Host) (steps : list LoopStep) :
  forall (app : App) (log : Log),
  (control_enabled app = false
   /\ Forall (fun st => snd st <> ord "c" /\ snd st <> ord "C") steps)
  \/ Forall (fun st => snd (fst st) = None) steps ->
  snd (loop_series host steps app log) = log.
Proof.
  induction steps as [| [[clk hand] key] rest IH]; intros app log H;
    cbn [loop_series].
  - reflexivity.
  - assert (I : control_enabled app = false \/ hand = None).
    { destruct H as [[P _] | F]; [now left | right].
      inversion F; subst. assumption. }
    destruct (loop_iteration_idle host clk hand key app log I)
      as (app' & K & ->).
    destruct (running app'); [| reflexivity].
    apply IH.
    destruct H as [[P F] | F].
    + left. inversion F as [| ? ? [N1 N2] F']; subst. cbn in N1, N2.
      split; [| exact F'].
      rewrite (handle_key_keeps_pause key app app' N1 N2 K). exact P.
    + right. inversion F; subst. assumption.
Qed.

(** Gesture control switched off after a fist, then three frames with a
    hand while the keys m, + and 2 are pressed. *)
Lemma paused_loop_makes_no_call_witness :
  snd (loop_series quiet_host
         [ (at_time 10, Some (still_frame 10 closed_hand), ord "m");
           (at_time 20, Some (still_frame 10 closed_hand), ord "+");
           (at_time 30, Some (still_frame 10 closed_hand), ord "2") ]
         {| gesture_controller := after_fist;
            control_enabled := false; running := true |}
         [])
  = [].
Proof.
  apply (paused_loop_makes_no_call quiet_host).
  left. split; [reflexivity|].
  constructor; [split; cbn; discriminate|].
  constructor; [split; cbn; discriminate|].
  constructor; [split; cbn; discriminate|].
  constructor.
Defined.

(** ** Classification: landmarks, precedence, baselines *)

(** X9: With fewer than 21 landmarks [detect_gesture] raises, and only then;
    [process_frame] then raises too, having made no call into the host and
    leaving the controller as it was. *)
Theorem short_landmarks_raise (host : Host) (clk : Clock) (f : Frame)
    (self : Controller) (log : Log) :
  (detect_gesture self (openness f) (rotation f) (palm_x f) (palm_y f)
     (palm_z f) (landmarks f) = None
   <-> (List.length (landmarks f) < 21)%nat)
  /\ ((List.length (landmarks f) < 21)%nat ->
      process_frame host clk f self log = (self, log, None)).
Proof.
  assert (Short : (List.length (landmarks f) < 21)%nat ->
                  detect_gesture self (openness f) (rotation f) (palm_x f)
                    (palm_y f) (palm_z f) (landmarks f) = None).
  { generalize (landmarks f) as lms. intros lms H.
    unfold detect_gesture.
    assert (F : _detect_finger_states lms = None).
    { do 21 (destruct lms as [| ? lms]; [reflexivity|]).
      cbn in H. lia. }
    rewrite F. reflexivity. }
  split; [split|].
  - intro N.
    destruct (Nat.lt_ge_cases (List.length (landmarks f)) 21) as [L | L];
      [exact L|].
    destruct (detect_gesture_defined self (openness f) (rotation f)
                (palm_x f) (palm_y f) (palm_z f) (landmarks f) L)
      as (s & g & E).
    congruence.
  - exact Short.
  - intro H. unfold process_frame, detect. unfold bind at 1.
    rewrite (Short H). reflexivity.
Qed.

Lemma short_landmarks_raise_witness :
  (List.length (landmarks short_frame) < 21)%nat
  /\ process_frame quiet_host (at_time 10) short_frame fresh_controller []
     = (fresh_controller, [], None).
Proof.
  assert (H : (List.length (landmarks short_frame) < 21)%nat)
    by (vm_compute; lia).
  split; [exact H|].
  exact (proj2 (short_landmarks_raise quiet_host (at_time 10) short_frame
                  fresh_controller []) H).
Defined.

Lemma shape_rules_plain (p : bool) (fs : list bool) (o : Q) :
  is_swipe (shape_rules p fs o) = false
  /\ is_depth (shape_rules p fs o) = false.
Proof.
  unfold shape_rules.
  repeat match goal with |- context [if ?b then _ else _] => destruct b end;
    split; reflexivity.
Qed.

(** The gesture after the depth rule. *)
Lemma depth_rule_result (self : Controller) (z : Q) (g : Gesture) :
  is_depth g = false -> is_swipe g = false -> is_rotate g = false ->
  let g' := depth_rule self z g in
  is_depth g' = depth_fires self z
  /\ is_swipe g' = false
  /\ is_rotate g' = false
  /\ (depth_fires self z = false -> g' = g).
Proof.
  intros D S R. unfold depth_rule, depth_fires.
  destruct (last_palm_z self) as [lz |]; [| auto].
  destruct (z - lz <? - depth_threshold self); [cbn; repeat split; congruence|].
  destruct (z - lz >? depth_threshold self); cbn; repeat split; congruence.
Qed.

(** The gesture and the accumulator after the rotation rule. *)
Lemma rotation_rule_result (self : Controller) (r : Q) (g : Gesture) :
  is_swipe g = false -> is_rotate g = false ->
  let out := rotation_rule self r g in
  is_rotate (snd out) = rotation_fires self r
  /\ is_swipe (snd out) = false
  /\ (rotation_fires self r = true ->
      is_depth (snd out) = false /\ rotation_accumulator (fst out) = 0)
  /\ (rotation_fires self r = false ->
      snd out = g
      /\ rotation_accumulator (fst out)
         = match last_rotation self with
           | Some last => rotation_accumulator self + rot_diff r last
           | None => rotation_accumulator self
           end).
Proof.
  intros S R. unfold rotation_rule, rotation_fires.
  destruct (last_rotation self) as [last |].
  - cbn [rotation_accumulator with_rotation_accumulator rotation_threshold].
    destruct (Qabs (rotation_accumulator self + rot_diff r last)
              >? rotation_threshold self).
    + cbn [fst snd].
      destruct (rotation_accumulator self + rot_diff r last >? 0);
        repeat split; try reflexivity; discriminate.
    + cbn [fst snd]. repeat split; try assumption; try discriminate.
  - cbn [fst snd]. repeat split; try assumption; try discriminate.
Qed.

(** The gesture after the swipe rule. *)
Lemma swipe_rule_result (self : Controller) (x y : Z) (g : Gesture) :
  is_swipe g = false ->
  let out := swipe_rule self x y g in
  is_swipe (snd out) = swipe_x_fires self x y || swipe_y_fires self x y
  /\ (is_swipe (snd out) = true ->
      is_rotate (snd out) = false /\ is_depth (snd out) = false)
  /\ (is_swipe (snd out) = false -> snd out = g).
Proof.
  intro S. unfold swipe_rule, swipe_x_fires, swipe_y_fires, swipe_x, swipe_y.
  destruct (last_palm_x self) as [lx |], (last_palm_y self) as [ly |];
    cbn [orb fst snd]; try (rewrite S; repeat split; congruence).
  destruct ((inject_Z (Z.abs (x - lx)) >? swipe_threshold self)
            && (Z.abs (y - ly) <? Z.abs (x - lx))%Z).
  - cbn [orb fst snd]. destruct (x - lx >? 0)%Z; repeat split; discriminate.
  - destruct ((inject_Z (Z.abs (y - ly)) >? swipe_threshold self)
              && (Z.abs (x - lx) <? Z.abs (y - ly))%Z); cbn [orb fst snd].
    + destruct (y - ly <? 0)%Z; repeat split; discriminate.
    + rewrite S. repeat split; congruence.
Qed.

(** X10: The order of precedence of [detect_gesture], on the state it is called
    in: a swipe is returned exactly when a swipe condition holds; a
    rotation exactly when the accumulated rotation crosses its threshold
    and no swipe condition holds; a push or pull exactly when the depth
    condition holds and neither of the former; otherwise the gesture of
    the shape rules is returned. *)
Theorem detect_gesture_precedence (self : Controller) (o r : Q) (x y : Z)
    (z : Q) (lms : list Landmark) :
  (21 <= List.length lms)%nat ->
  exists self' g fs p,
    detect_gesture self o r x y z lms = Some (self', g)
    /\ _detect_finger_states lms = Some fs
    /\ _detect_pinch lms = Some p
    /\ let swipe := swipe_x_fires self x y || swipe_y_fires self x y in
       is_swipe g = swipe
       /\ is_rotate g = rotation_fires self r && negb swipe
       /\ is_depth g
          = depth_fires self z && negb (rotation_fires self r) && negb swipe
       /\ (swipe = false -> rotation_fires self r = false ->
           depth_fires self z = false -> g = shape_rules p fs o).
Proof.
  intro L. unfold detect_gesture.
  destruct (finger_states_defined lms L) as (a & b & c & d & e & F).
  destruct (pinch_defined lms L) as (p & P).
  rewrite F, P.
  set (fs := [a; b; c; d; e]).
  set (s0 := with_finger_states fs self).
  change (finger_states s0) with fs.
  destruct (shape_rules_plain p fs o) as [S0 D0].
  pose proof (shape_rules_not_rotate p fs o) as R0.
  destruct (depth_rule_result s0 z (shape_rules p fs o) D0 S0 R0)
    as (D1 & S1 & R1 & K1).
  set (g1 := depth_rule s0 z (shape_rules p fs o)) in *.
  destruct (rotation_rule_result s0 r g1 S1 R1) as (R2 & S2 & F2 & N2).
  destruct (rotation_rule_keeps_positions s0 r g1) as (Kx & Ky & Kt).
  destruct (rotation_rule s0 r g1) as [s2 g2].
  cbn [fst snd] in R2, S2, F2, N2, Kx, Ky, Kt.
  destruct (swipe_rule_result s2 x y g2 S2) as (S3 & X3 & N3).
  assert (Ex : swipe_x_fires s2 x y = swipe_x_fires self x y)
    by (unfold swipe_x_fires; rewrite Kx, Ky, Kt; reflexivity).
  assert (Ey : swipe_y_fires s2 x y = swipe_y_fires self x y)
    by (unfold swipe_y_fires; rewrite Kx, Ky, Kt; reflexivity).
  rewrite Ex, Ey in S3.
  destruct (swipe_rule s2 x y g2) as [s3 g3]. cbn [fst snd] in S3, X3, N3.
  change (rotation_fires s0 r) with (rotation_fires self r) in *.
  change (depth_fires s0 z) with (depth_fires self z) in *.
  exists (with_current_gesture g3
            (with_last_palm_z (Some z)
               (with_last_rotation (Some r) (update_tracking s3 x y g3)))),
    g3, fs, p.
  split; [reflexivity|]. split; [reflexivity|]. split; [reflexivity|].
  cbv zeta. split; [exact S3|].
  destruct (swipe_x_fires self x y || swipe_y_fires self x y).
  - destruct (X3 S3) as [A B]. rewrite A, B, !andb_false_r.
    repeat split; discriminate.
  - rewrite (N3 S3), !andb_true_r.
    destruct (rotation_fires self r).
    + destruct (F2 eq_refl) as [A _]. rewrite R2, A, andb_false_r.
      repeat split; discriminate.
    + destruct (N2 eq_refl) as [-> _]. rewrite R1, D1, andb_true_r.
      repeat split; trivial.
Qed.

Lemma detect_gesture_precedence_witness :
  (21 <= List.length closed_hand)%nat
  /\ exists g,
       option_map snd (detect_gesture tracking 50 130 520 240 0 closed_hand)
       = Some g
       /\ is_swipe g = true /\ is_rotate g = false.
Proof.
  assert (L : (21 <= List.length closed_hand)%nat) by (vm_compute; lia).
  split; [exact L|].
  destruct (detect_gesture_precedence tracking 50 130 520 240 0 closed_hand L)
    as (s & g & fs & p & E & _ & _ & S & R & _).
  exists g. rewrite E. split; [reflexivity|].
  rewrite S, R. vm_compute. split; reflexivity.
Defined.

(** ** What each step of the controller may write *)

Ltac break_ifs :=
  repeat (cbn;
          match goal with
          | |- context [match last_palm_x ?s with _ => _ end] =>
              destruct (last_palm_x s)
          | |- context [match last_palm_y ?s with _ => _ end] =>
              destruct (last_palm_y s)
          | |- context [if ?b then _ else _] => destruct b
          end).

Lemma same_config_refl (s : Controller) : same_config s s.
Proof. unfold same_config. repeat split. Qed.

Lemma same_config_trans (a b c : Controller) :
  same_config a b -> same_config b c -> same_config a c.
Proof.
  unfold same_config.
  intros (A1 & A2 & A3 & A4 & A5 & A6 & A7 & A8 & A9 & A10)
         (B1 & B2 & B3 & B4 & B5 & B6 & B7 & B8 & B9 & B10).
  repeat split; congruence.
Qed.

Lemma same_config_tuned (s s' : Controller) :
  same_config s s' -> tuned s -> tuned s'.
Proof.
  unfold same_config, tuned.
  intros (A1 & A2 & A3 & A4 & A5 & A6 & _) (T0 & T1 & T2 & T3 & T4).
  rewrite A2, A3, A4, A5, A6. auto.
Qed.

Lemma rotation_rule_config (self : Controller) (r : Q) (g : Gesture) :
  same_config self (fst (rotation_rule self r g)).
Proof.
  unfold rotation_rule.
  destruct (last_rotation self); [| apply same_config_refl].
  match goal with |- context [if ?b then _ else _] => destruct b end;
    unfold same_config; cbn; repeat split.
Qed.

Lemma swipe_rule_config (self : Controller) (x y : Z) (g : Gesture) :
  same_config self (fst (swipe_rule self x y g)).
Proof.
  unfold swipe_rule.
  destruct (last_palm_x self), (last_palm_y self);
    try apply same_config_refl.
  repeat match goal with |- context [if ?b then _ else _] => destruct b end;
    unfold same_config; cbn; repeat split.
Qed.

Lemma update_tracking_config (self : Controller) (x y : Z) (g : Gesture) :
  same_config self (update_tracking self x y g).
Proof.
  unfold update_tracking, same_config.
  destruct (negb (is_swipe g)); [| repeat split].
  break_ifs; repeat split.
Qed.

Lemma detect_gesture_config (self self' : Controller) (o r : Q) (x y : Z)
    (z : Q) (lms : list Landmark) (g : Gesture) :
  detect_gesture self o r x y z lms = Some (self', g) ->
  same_config self self'.
Proof.
  unfold detect_gesture.
  destruct (_detect_finger_states lms) as [fs |]; [| discriminate].
  destruct (_detect_pinch lms) as [p |]; [| discriminate].
  set (s0 := with_finger_states fs self).
  set (g0 := depth_rule s0 z (shape_rules p (finger_states s0) o)).
  pose proof (rotation_rule_config s0 r g0) as A.
  destruct (rotation_rule s0 r g0) as [s1 g1]. cbn [fst] in A.
  pose proof (swipe_rule_config s1 x y g1) as B.
  destruct (swipe_rule s1 x y g1) as [s2 g2]. cbn [fst] in B.
  pose proof (update_tracking_config s2 x y g2) as C.
  intro E. injection E as <- <-.
  assert (S0 : same_config self s0) by (unfold same_config; repeat split).
  apply (same_config_trans _ _ _ S0).
  apply (same_config_trans _ _ _ A).
  apply (same_config_trans _ _ _ B).
  apply (same_config_trans _ _ _ C).
  unfold same_config. cbn. repeat split.
Qed.

Lemma dispatched_refl (s : Controller) : dispatched s s.
Proof. unfold dispatched. destruct s; reflexivity. Qed.

(** X11: [execute_action] writes at most the time of the last action and the
    click and drag flags: it always returns, only appends to the log, and
    leaves every other field of the controller (mode, thresholds,
    baselines, accumulator, hold clock) as it was. *)
Theorem execute_action_writes (host : Host) (now : Q) (g : Gesture)
    (x y : Z) (self : Controller) (log : Log) :
  exists (new : Log) (b : bool) (self' : Controller),
    execute_action host now g x y self log = (self', log ++ new, Some b)
    /\ dispatched self self'
    /\ (mode self = MOUSE -> last_action_time self' = last_action_time self)
    /\ (mode self <> MOUSE ->
        is_clicking self' = is_clicking self
        /\ is_dragging self' = is_dragging self).
Proof.
  destruct (ControlMode_eq_dec (mode self) MOUSE) as [MM | NM].
  - unfold execute_action, bind, get. rewrite MM.
    destruct (mouse_control_outcome host g x y self log)
      as (new & b & self' & -> & S).
    exists new, b, self'. split; [reflexivity|].
    assert (L : last_action_time self' = last_action_time self)
      by (rewrite S; reflexivity).
    split; [| split; [intros _; exact L | intro N; congruence]].
    unfold dispatched. rewrite L. rewrite S at 1.
    destruct self; reflexivity.
  - destruct (execute_action_rate_gated host now g x y self log NM)
      as (new & b & -> & _).
    exists new, b, (if b then with_last_action_time now self else self).
    split; [reflexivity|].
    split; [| split; [intro M; congruence | intros _]].
    + unfold dispatched. destruct b; destruct self; reflexivity.
    + destruct b; split; reflexivity.
Qed.

(** One [process_frame] on a frame with 21 landmarks: the state it leaves
    is the state after classification and the hold-time gate, with at
    most the three fields of [execute_action] written. *)
Lemma process_frame_writes (host : Host) (clk : Clock) (f : Frame)
    (self : Controller) (log : Log) :
  (21 <= List.length (landmarks f))%nat ->
  exists (s1 self' : Controller) (g : Gesture) (b : bool) (new : Log),
    detect_gesture self (openness f) (rotation f) (palm_x f) (palm_y f)
      (palm_z f) (landmarks f) = Some (s1, g)
    /\ process_frame host clk f self log = (self', log ++ new, Some (g, b))
    /\ dispatched (after_gate clk g s1) self'.
Proof.
  intro L.
  destruct (detect_gesture_defined self (openness f) (rotation f) (palm_x f)
              (palm_y f) (palm_z f) (landmarks f) L) as (s1 & g & D).
  rewrite (process_frame_classified host clk f self s1 g log D).
  cbv zeta. set (s2 := after_gate clk g s1).
  match goal with |- context [if ?c then _ else _] => destruct c end.
  - destruct (execute_action_writes host (t_now clk) g (palm_x f) (palm_y f)
                s2 log) as (new & b & s3 & -> & W & _).
    exists s1, s3, g, b, new. auto.
  - exists s1, s2, g, false, []. rewrite app_nil_r.
    split; [exact D|]. split; [reflexivity|].
    apply dispatched_refl.
Qed.

Lemma after_gate_config (clk : Clock) (g : Gesture) (s : Controller) :
  same_config s (after_gate clk g s).
Proof.
  unfold after_gate.
  match goal with |- context [if ?c then _ else _] => destruct c end;
    unfold same_config; cbn; repeat split.
Qed.

Lemma dispatched_config (s s' : Controller) :
  dispatched s s' -> same_config s s'.
Proof.
  unfold dispatched. intros ->. unfold same_config. cbn. repeat split.
Qed.

(** X12: [process_frame] never changes the mode, the sensitivity, a threshold,
    the screen size or the volume endpoint, whether it returns or
    raises. *)
Theorem process_frame_keeps_config (host : Host) (clk : Clock) (f : Frame)
    (self : Controller) (log : Log) :
  same_config self (fst (fst (process_frame host clk f self log))).
Proof.
  destruct (Nat.lt_ge_cases (List.length (landmarks f)) 21) as [S | L].
  - rewrite (proj2 (short_landmarks_raise host clk f self log) S).
    apply same_config_refl.
  - destruct (process_frame_writes host clk f self log L)
      as (s1 & self' & g & b & new & D & -> & W).
    cbn [fst].
    apply (same_config_trans _ _ _ (detect_gesture_config _ _ _ _ _ _ _ _ _ D)).
    apply (same_config_trans _ _ _ (after_gate_config clk g s1)).
    apply dispatched_config, W.
Qed.

(** X13: Throughout the main loop a tuned controller stays tuned: whatever
    frames arrive and whatever keys are pressed, the sensitivity stays in
    [0.3, 3.0] and the four thresholds stay the ones derived from it. *)
Theorem loop_keeps_tuned (host : Host) (steps : list LoopStep) :
  forall (app : App) (log : Log),
  tuned (gesture_controller app) ->
  tuned (gesture_controller (fst (loop_series host steps app log))).
Proof.
  induction steps as [| [[clk hand] key] rest IH]; intros app log T;
    cbn [loop_series].
  - exact T.
  - unfold loop_iteration.
    set (run_frame :=
           match hand with
           | Some f =>
               if control_enabled app then
                 match process_frame host clk f (gesture_controller app) log
                 with
                 | (c', log', r) => (with_controller c' app, log', r)
                 end
               else (app, log, Some (NONE, false))
           | None => (app, log, Some (NONE, false))
           end).
    assert (T1 : tuned (gesture_controller (fst (fst run_frame)))).
    { subst run_frame. destruct hand as [f |]; [| exact T].
      destruct (control_enabled app); [| exact T].
      pose proof (process_frame_keeps_config host clk f
                    (gesture_controller app) log) as K.
      destruct (process_frame host clk f (gesture_controller app) log)
        as [[c' log'] r].
      cbn [fst] in K |- *. exact (same_config_tuned _ _ K T). }
    destruct run_frame as [[app1 log1] [out |]]; cbn [fst] in T1;
      [| exact T1].
    destruct (handle_key_outcome key app1) as (app2 & E & T2 & _).
    rewrite E. destruct (running app2); [| exact (T2 T1)].
    apply IH. exact (T2 T1).
Qed.

Lemma loop_keeps_tuned_witness :
  tuned (gesture_controller fresh_app)
  /\ tuned (gesture_controller
             (fst (loop_series quiet_host
                     [ (at_time 10, Some (still_frame 10 closed_hand),
                        ord "+");
                       (at_time 20, None, ord "m");
                       (at_time 30, Some (still_frame 10 closed_hand),
                        ord "-") ]
                     fresh_app []))).
Proof.
  split; [exact fresh_controller_tuned|].
  apply (loop_keeps_tuned quiet_host). exact fresh_controller_tuned.
Defined.

(** ** Baselines and the rotation accumulator *)

Lemma swipe_rule_positions (self : Controller) (x y : Z) (g : Gesture) :
  let out := swipe_rule self x y g in
  (swipe_x_fires self x y = true ->
   fst out = with_last_palm_x (Some x) self
   /\ (snd out = SWIPE_LEFT \/ snd out = SWIPE_RIGHT))
  /\ (swipe_x_fires self x y = false -> swipe_y_fires self x y = true ->
      fst out = with_last_palm_y (Some y) self
      /\ (snd out = SWIPE_UP \/ snd out = SWIPE_DOWN))
  /\ (swipe_x_fires self x y = false -> swipe_y_fires self x y = false ->
      out = (self, g)).
Proof.
  unfold swipe_rule, swipe_x_fires, swipe_y_fires, swipe_x, swipe_y.
  cbv zeta.
  destruct (last_palm_x self) as [lx |], (last_palm_y self) as [ly |];
    try (split; [| split]; intros; try discriminate; reflexivity).
  destruct ((inject_Z (Z.abs (x - lx)) >? swipe_threshold self)
            && (Z.abs (y - ly) <? Z.abs (x - lx))%Z);
    [| destruct ((inject_Z (Z.abs (y - ly)) >? swipe_threshold self)
                 && (Z.abs (x - lx) <? Z.abs (y - ly))%Z)];
    (split; [| split]); intros; try discriminate; try reflexivity;
    (split; [reflexivity|]); cbn [snd];
    match goal with |- context [if ?b then _ else _] => destruct b end;
    auto.
Qed.

Lemma update_tracking_positions (self : Controller) (x y : Z)
    (g : Gesture) :
  (is_swipe g = true -> update_tracking self x y g = self)
  /\ (is_swipe g = false ->
      last_palm_x (update_tracking self x y g)
      = Some (follow (last_palm_x self) x)
      /\ last_palm_y (update_tracking self x y g)
         = Some (follow (last_palm_y self) y)).
Proof.
  unfold update_tracking, follow. split; intros ->; cbn [negb];
    [reflexivity|].
  destruct (last_palm_x self) as [lx |] eqn:Ex;
    [destruct (Z.abs (x - lx) <? 10)%Z |];
    cbn [last_palm_y with_last_palm_x];
    (destruct (last_palm_y self) as [ly |] eqn:Ey;
     [destruct (Z.abs (y - ly) <? 10)%Z |]);
    cbn; auto.
Qed.

(** X14: How the baselines move in one [detect_gesture]: the rotation and depth
    baselines always move to the frame; a horizontal swipe moves the X
    baseline to the frame and leaves the Y baseline, a vertical swipe the
    converse; without a swipe each position baseline moves to the frame if
    it was unset or less than 10 pixels away, and stays otherwise. *)
Theorem baseline_law (self self' : Controller) (o r : Q) (x y : Z)
    (z : Q) (lms : list Landmark) (g : Gesture) :
  detect_gesture self o r x y z lms = Some (self', g) ->
  last_rotation self' = Some r
  /\ last_palm_z self' = Some z
  /\ (g = SWIPE_LEFT \/ g = SWIPE_RIGHT ->
      last_palm_x self' = Some x /\ last_palm_y self' = last_palm_y self)
  /\ (g = SWIPE_UP \/ g = SWIPE_DOWN ->
      last_palm_y self' = Some y /\ last_palm_x self' = last_palm_x self)
  /\ (is_swipe g = false ->
      last_palm_x self' = Some (follow (last_palm_x self) x)
      /\ last_palm_y self' = Some (follow (last_palm_y self) y)).
Proof.
  unfold detect_gesture.
  destruct (_detect_finger_states lms) as [fs |]; [| discriminate].
  destruct (_detect_pinch lms) as [p |]; [| discriminate].
  set (s0 := with_finger_states fs self).
  set (g0 := depth_rule s0 z (shape_rules p (finger_states s0) o)).
  assert (S0 : is_swipe g0 = false).
  { subst g0.
    destruct (shape_rules_plain p (finger_states s0) o) as [A B].
    exact (proj1 (proj2 (depth_rule_result s0 z _ B A
                           (shape_rules_not_rotate _ _ _)))). }
  destruct (rotation_rule_keeps_positions s0 r g0) as (Kx & Ky & Kt).
  pose proof (rotation_rule_result s0 r g0 S0) as RR.
  assert (S1 : is_swipe (snd (rotation_rule s0 r g0)) = false).
  { apply RR. subst g0.
    destruct (shape_rules_plain p (finger_states s0) o) as [A B].
    exact (proj1 (proj2 (proj2 (depth_rule_result s0 z _ B A
                                  (shape_rules_not_rotate _ _ _))))). }
  clear RR.
  destruct (rotation_rule s0 r g0) as [s1 g1]. cbn [fst snd] in *.
  destruct (swipe_rule_positions s1 x y g1) as (PX & PY & PN).
  destruct (swipe_rule s1 x y g1) as [s2 g2] eqn:SR. cbn [fst snd] in *.
  destruct (update_tracking_positions s2 x y g2) as [US UN].
  intro E. injection E as <- <-.
  cbn [last_rotation last_palm_z last_palm_x last_palm_y
       with_current_gesture with_last_palm_z with_last_rotation].
  split; [reflexivity|]. split; [reflexivity|].
  change (last_palm_x s0) with (last_palm_x self) in Kx.
  change (last_palm_y s0) with (last_palm_y self) in Ky.
  destruct (swipe_x_fires s1 x y) eqn:FX.
  - destruct (PX eq_refl) as [-> G].
    assert (SW : is_swipe g2 = true) by (destruct G as [-> | ->]; reflexivity).
    rewrite (US SW). cbn [last_palm_x last_palm_y with_last_palm_x].
    rewrite Ky. split; [auto|]. split.
    + intros [-> | ->]; destruct G; discriminate.
    + congruence.
  - destruct (swipe_y_fires s1 x y) eqn:FY.
    + destruct (PY eq_refl eq_refl) as [-> G].
      assert (SW : is_swipe g2 = true)
        by (destruct G as [-> | ->]; reflexivity).
      rewrite (US SW). cbn [last_palm_x last_palm_y with_last_palm_y].
      rewrite Kx. split.
      * intros [-> | ->]; destruct G; discriminate.
      * split; [auto | congruence].
    + pose proof (PN eq_refl eq_refl) as EQ. injection EQ as -> ->.
      rewrite <- Kx, <- Ky. split; [| split].
      * intros [-> | ->]; discriminate.
      * intros [-> | ->]; discriminate.
      * exact UN.
Qed.

Lemma baseline_law_witness :
  exists self',
    detect_gesture tracking 50 130 520 240 0 closed_hand
    = Some (self', SWIPE_RIGHT)
    /\ last_palm_x self' = Some 520%Z
    /\ last_palm_y self' = last_palm_y tracking.
Proof.
  eexists. split; [vm_compute; reflexivity|].
  apply (baseline_law tracking _ 50 130 520 240 0 closed_hand SWIPE_RIGHT).
  - vm_compute. reflexivity.
  - right. reflexivity.
Defined.

(** [detect_gesture] on a controller none of whose baselines is set. *)
Lemma detect_gesture_unset (self : Controller) (o r : Q) (x y : Z) (z : Q)
    (lms : list Landmark) (fs : list bool) (p : bool) :
  last_palm_x self = None -> last_palm_y self = None ->
  last_palm_z self = None -> last_rotation self = None ->
  _detect_finger_states lms = Some fs ->
  _detect_pinch lms = Some p ->
  detect_gesture self o r x y z lms
  = Some (with_current_gesture (shape_rules p fs o)
            (with_last_palm_z (Some z)
               (with_last_rotation (Some r)
                  (with_last_palm_y (Some y)
                     (with_last_palm_x (Some x)
                        (with_finger_states fs self))))),
          shape_rules p fs o).
Proof.
  intros Hx Hy Hz Hr F P. unfold detect_gesture. rewrite F, P.
  set (s0 := with_finger_states fs self).
  change (finger_states s0) with fs.
  set (g := shape_rules p fs o).
  assert (Hx0 : last_palm_x s0 = None) by exact Hx.
  assert (Hy0 : last_palm_y s0 = None) by exact Hy.
  assert (Hz0 : last_palm_z s0 = None) by exact Hz.
  assert (Hr0 : last_rotation s0 = None) by exact Hr.
  assert (D : depth_rule s0 z g = g)
    by (unfold depth_rule; rewrite Hz0; reflexivity).
  assert (R : rotation_rule s0 r g = (s0, g))
    by (unfold rotation_rule; rewrite Hr0; reflexivity).
  assert (S : swipe_rule s0 x y g = (s0, g))
    by (unfold swipe_rule; rewrite Hx0; reflexivity).
  assert (U : update_tracking s0 x y g
              = with_last_palm_y (Some y) (with_last_palm_x (Some x) s0)).
  { assert (Sg : is_swipe g = false) by apply shape_rules_plain.
    unfold update_tracking. rewrite Sg. cbn [negb].
    rewrite Hx0.
    assert (Hy1 : last_palm_y (with_last_palm_x (Some x) s0) = None)
      by exact Hy0.
    rewrite Hy1. reflexivity. }
  rewrite D, R, S, U. reflexivity.
Qed.

(** X15: After a mode switch or a reset the first frame is classified by the
    shape rules alone, whatever the jump in position, rotation or depth
    since the frames before the switch, and it sets all four baselines to
    its own values with the accumulator at 0. *)
Theorem first_frame_after_reset (m : ControlMode) (c s : Controller)
    (o r : Q) (x y : Z) (z : Q) (lms : list Landmark) :
  (21 <= List.length lms)%nat ->
  s = set_mode m c \/ s = reset_state c ->
  exists self' fs p,
    _detect_finger_states lms = Some fs
    /\ _detect_pinch lms = Some p
    /\ detect_gesture s o r x y z lms = Some (self', shape_rules p fs o)
    /\ last_palm_x self' = Some x /\ last_palm_y self' = Some y
    /\ last_palm_z self' = Some z /\ last_rotation self' = Some r
    /\ rotation_accumulator self' = 0.
Proof.
  intros L H.
  destruct (finger_states_defined lms L) as (a & b & c0 & d & e & F).
  destruct (pinch_defined lms L) as (p & P).
  assert (U : last_palm_x s = None /\ last_palm_y s = None
              /\ last_palm_z s = None /\ last_rotation s = None
              /\ rotation_accumulator s = 0)
    by (destruct H as [-> | ->]; repeat split).
  destruct U as (Hx & Hy & Hz & Hr & Ha).
  eexists. exists [a; b; c0; d; e], p.
  split; [exact F|]. split; [exact P|].
  split; [exact (detect_gesture_unset s o r x y z lms _ p Hx Hy Hz Hr F P)|].
  repeat split. exact Ha.
Qed.

Lemma first_frame_after_reset_witness :
  (21 <= List.length closed_hand)%nat
  /\ exists self' fs p,
       detect_gesture (set_mode WINDOW tracking) 10 300 900 10 1 closed_hand
       = Some (self', shape_rules p fs 10)
       /\ last_palm_x self' = Some 900%Z.
Proof.
  assert (L : (21 <= List.length closed_hand)%nat) by (vm_compute; lia).
  split; [exact L|].
  destruct (first_frame_after_reset WINDOW tracking
              (set_mode WINDOW tracking) 10 300 900 10 1 closed_hand L
              (or_introl eq_refl))
    as (s & fs & p & _ & _ & E & Hx & _).
  exists s, fs, p. split; assumption.
Defined.

(** X16: The accumulated rotation stays within the threshold: after any
    [detect_gesture] that had a rotation baseline, and after any other one
    if it was within the threshold before, the accumulator is at most the
    (unchanged, non-negative) rotation threshold in absolute value. *)
Theorem accumulator_bounded (self self' : Controller) (o r : Q) (x y : Z)
    (z : Q) (lms : list Landmark) (g : Gesture) :
  detect_gesture self o r x y z lms = Some (self', g) ->
  0 <= rotation_threshold self ->
  last_rotation self <> None
  \/ Qabs (rotation_accumulator self) <= rotation_threshold self ->
  rotation_threshold self' = rotation_threshold self
  /\ Qabs (rotation_accumulator self') <= rotation_threshold self'.
Proof.
  intros D T H.
  destruct (detect_gesture_config _ _ _ _ _ _ _ _ _ D)
    as (_ & _ & _ & RT & _).
  split; [exact RT|]. rewrite RT.
  revert D. unfold detect_gesture.
  destruct (_detect_finger_states lms) as [fs |]; [| discriminate].
  destruct (_detect_pinch lms) as [p |]; [| discriminate].
  set (s0 := with_finger_states fs self).
  set (g0 := depth_rule s0 z (shape_rules p (finger_states s0) o)).
  assert (A : Qabs (rotation_accumulator (fst (rotation_rule s0 r g0)))
              <= rotation_threshold self).
  { unfold rotation_rule.
    change (last_rotation s0) with (last_rotation self).
    destruct (last_rotation self) as [last |].
    - cbn [rotation_accumulator with_rotation_accumulator
           rotation_threshold].
      change (rotation_accumulator s0) with (rotation_accumulator self).
      change (rotation_threshold s0) with (rotation_threshold self).
      destruct (Qltb_reflect (rotation_threshold self)
                  (Qabs (rotation_accumulator self + rot_diff r last)))
        as [C | C]; cbn [fst rotation_accumulator with_rotation_accumulator].
      + exact T.
      + apply Qnot_lt_le, C.
    - cbn [fst]. destruct H as [H | H]; [congruence | exact H]. }
  pose proof (swipe_rule_accumulator (fst (rotation_rule s0 r g0)) x y
                (snd (rotation_rule s0 r g0))) as B.
  destruct (rotation_rule s0 r g0) as [s1 g1]. cbn [fst snd] in A, B.
  destruct (swipe_rule s1 x y g1) as [s2 g2]. cbn [fst] in B.
  intro E. injection E as <- <-.
  cbn [rotation_accumulator with_current_gesture with_last_palm_z
       with_last_rotation].
  rewrite update_tracking_accumulator, B. exact A.
Qed.

Lemma accumulator_bounded_witness :
  exists self',
    detect_gesture tracking 50 100 320 240 0 closed_hand = Some (self', NONE)
    /\ rotation_accumulator self' = 10
    /\ Qabs (rotation_accumulator self') <= rotation_threshold self'.
Proof.
  eexists. split; [vm_compute; reflexivity|].
  split; [vm_compute; reflexivity|].
  apply (accumulator_bounded tracking _ 50 100 320 240 0 closed_hand NONE).
  - vm_compute. reflexivity.
  - vm_compute. discriminate.
  - left. discriminate.
Defined.

(** ** Dispatch without pyautogui, and on a host that never fails *)

(** X17: Without pyautogui [execute_action] does nothing in any mode: no call
    into the host (the Windows volume endpoint included), no change of
    the controller, [False] returned. *)
Theorem no_pyautogui_no_effect (host : Host) (now : Q) (g : Gesture)
    (x y : Z) (self : Controller) (log : Log) :
  PYAUTOGUI_AVAILABLE host = false ->
  execute_action host now g x y self log = (self, log, Some false).
Proof.
  intro PA.
  assert (RG : forall actions,
             rate_gated host actions now g self log
             = (self, log, Some false)).
  { intro actions. unfold rate_gated, bind, get, ret. rewrite PA.
    destruct (now - last_action_time self <? cooldown_time self);
      reflexivity. }
  unfold execute_action, bind, get.
  destruct (mode self).
  - apply RG.
  - unfold _mouse_control. rewrite PA. reflexivity.
  - apply RG.
  - apply RG.
Qed.

Lemma no_pyautogui_no_effect_witness :
  PYAUTOGUI_AVAILABLE bare_host = false
  /\ execute_action bare_host 10 FIST 0 0 fresh_controller []
     = (fresh_controller, [], Some false).
Proof.
  split; [reflexivity|].
  exact (no_pyautogui_no_effect bare_host 10 FIST 0 0 fresh_controller []
           eq_refl).
Defined.

Ltac run_quiet NR :=
  unfold_M; cbn;
  change (Pos.to_nat 1) with 1%nat;
  change (Pos.to_nat 2) with 2%nat;
  cbn [repeat_body]; unfold_M; cbn;
  repeat (rewrite NR; cbn).

Ltac close_complete :=
  first
    [ exists []; rewrite app_nil_r; split; [reflexivity | reflexivity]
    | rewrite <- ?app_assoc; eexists;
      split; [reflexivity | discriminate] ].

Lemma media_actions_complete (host : Host) :
  never_raises host -> table_complete host MEDIA (media_actions host).
Proof.
  intros NR g self log.
  destruct g; unfold media_actions, _adjust_volume; unfold_M; cbn;
    destruct (platform_windows host), (volume_control self),
      (PYAUTOGUI_AVAILABLE host);
    run_quiet NR; close_complete.
Qed.

Lemma window_actions_complete (host : Host) :
  never_raises host -> table_complete host WINDOW (window_actions host).
Proof.
  intros NR g self log.
  destruct g; unfold window_actions; run_quiet NR; close_complete.
Qed.

Lemma presentation_actions_complete (host : Host) :
  never_raises host ->
  table_complete host PRESENTATION (presentation_actions host).
Proof.
  intros NR g self log.
  destruct g; unfold presentation_actions; run_quiet NR; close_complete.
Qed.

Lemma rate_gated_complete (host : Host) (m : ControlMode)
    (actions : Gesture -> M Locals unit) (now : Q) (g : Gesture)
    (self : Controller) (log : Log) :
  table_complete host m actions ->
  PYAUTOGUI_AVAILABLE host = true ->
  let b := has_entry m g
           && negb (now - last_action_time self <? cooldown_time self) in
  exists new,
    rate_gated host actions now g self log
    = (if b then with_last_action_time now self else self,
       log ++ new, Some b)
    /\ (b = false -> new = []).
Proof.
  intros TC PA. unfold rate_gated, bind, get, ret, modify,
    with_action_taken, try_except. rewrite PA. cbn [negb].
  destruct (now - last_action_time self <? cooldown_time self).
  - rewrite andb_false_r. exists []. rewrite app_nil_r.
    split; reflexivity.
  - rewrite andb_true_r. cbn [negb].
    destruct (TC g self log) as (new & -> & N).
    exists new. cbn [fst snd].
    destruct (has_entry m g); split; try reflexivity; auto.
Qed.

(** X18: In Media, Window and Presentation mode, on a host with pyautogui none
    of whose calls raises, [execute_action] reports an action taken
    exactly when the gesture has an entry in the table of the mode and
    the cooldown has elapsed; then, and only then, it sets
    [last_action_time]; otherwise it makes no call at all. *)
Theorem action_taken_iff (host : Host) (now : Q) (g : Gesture) (x y : Z)
    (self : Controller) (log : Log) :
  never_raises host ->
  PYAUTOGUI_AVAILABLE host = true ->
  mode self <> MOUSE ->
  let b := has_entry (mode self) g
           && negb (now - last_action_time self <? cooldown_time self) in
  exists new,
    execute_action host now g x y self log
    = (if b then with_last_action_time now self else self,
       log ++ new, Some b)
    /\ (b = false -> new = []).
Proof.
  intros NR PA NM. unfold execute_action, bind, get.
  destruct (mode self); try congruence.
  - apply rate_gated_complete; [apply media_actions_complete, NR | exact PA].
  - apply rate_gated_complete; [apply window_actions_complete, NR | exact PA].
  - apply rate_gated_complete;
      [apply presentation_actions_complete, NR | exact PA].
Qed.

Lemma action_taken_iff_witness :
  never_raises quiet_host
  /\ PYAUTOGUI_AVAILABLE quiet_host = true
  /\ mode fresh_controller <> MOUSE
  /\ exists new,
       execute_action quiet_host 10 PINCH 0 0 fresh_controller []
       = (fresh_controller, [] ++ new, Some false)
       /\ new = [].
Proof.
  assert (NR : never_raises quiet_host) by (intros l c; reflexivity).
  assert (NM : mode fresh_controller <> MOUSE) by (cbn; discriminate).
  split; [exact NR|]. split; [reflexivity|]. split; [exact NM|].
  destruct (action_taken_iff quiet_host 10 PINCH 0 0 fresh_controller []
              NR eq_refl NM) as (new & E & N).
  exists new. split; [exact E | exact (N eq_refl)].
Defined.

(** X19: A gesture without an entry in the table of the mode makes no call and
    does not consume the cooldown, on any host and however long ago the
    last action was. *)
Theorem unmapped_gesture_ignored (host : Host) (now : Q) (g : Gesture)
    (x y : Z) (self : Controller) (log : Log) :
  mode self <> MOUSE ->
  has_entry (mode self) g = false ->
  execute_action host now g x y self log = (self, log, Some false).
Proof.
  intros NM H.
  assert (RG : forall actions,
             actions g = ret tt ->
             rate_gated host actions now g self log
             = (self, log, Some false)).
  { intros actions A. unfold rate_gated, bind, get, ret, modify,
      with_action_taken, try_except.
    destruct (now - last_action_time self <? cooldown_time self);
      [reflexivity|].
    destruct (PYAUTOGUI_AVAILABLE host); [| reflexivity].
    cbn [negb]. rewrite A. reflexivity. }
  unfold execute_action, bind, get.
  destruct (mode self); try congruence; apply RG;
    destruct g; try discriminate; reflexivity.
Qed.

Lemma unmapped_gesture_ignored_witness :
  mode fresh_controller <> MOUSE
  /\ has_entry (mode fresh_controller) PALM_PUSH = false
  /\ execute_action broken_host 10 PALM_PUSH 0 0 fresh_controller []
     = (fresh_controller, [], Some false).
Proof.
  assert (NM : mode fresh_controller <> MOUSE) by (cbn; discriminate).
  split; [exact NM|]. split; [reflexivity|].
  exact (unmapped_gesture_ignored broken_host 10 PALM_PUSH 0 0
           fresh_controller [] NM eq_refl).
Defined.

(** ** Mouse mode: drag, click, scroll and cursor *)

Lemma count_ok_app (p : Call -> bool) (l1 l2 : Log) :
  count_ok p (l1 ++ l2) = (count_ok p l1 + count_ok p l2)%nat.
Proof. unfold count_ok. rewrite filter_app. apply length_app. Qed.

Ltac run_mouse :=
  unfold_M; cbn -[py_int Qplus Qmult Qminus Qdiv inject_Z];
  repeat match goal with
    | |- context [(Z.abs ?a >? 5)%Z] =>
        let E := fresh "SC" in destruct (Z.abs a >? 5)%Z eqn:E
    end;
  unfold_M; cbn -[py_int Qplus Qmult Qminus Qdiv inject_Z];
  repeat (match goal with
          | |- context [raises ?h ?l ?c] =>
              let R := fresh "R" in destruct (raises h l c) eqn:R
          end; cbn -[py_int Qplus Qmult Qminus Qdiv inject_Z]).

(** One call of [_mouse_control]: successful presses and releases of the
    button against the drag flag, and successful clicks of a pinch
    against the click flag. *)
Lemma mouse_control_flags (host : Host) (g : Gesture) (x y : Z)
    (self : Controller) (log : Log) :
  exists (new : Log) (b : bool) (self' : Controller),
    _mouse_control host g x y self log = (self', log ++ new, Some b)
    /\ (Z.of_nat (count_ok is_mouseDown new)
        - Z.of_nat (count_ok is_mouseUp new)
        = b2z (is_dragging self') - b2z (is_dragging self))%Z
    /\ (g = PINCH ->
        Z.of_nat (count_ok is_click new)
        = b2z (is_clicking self') - b2z (is_clicking self))%Z
    /\ (g <> PINCH -> count_ok is_click new = 0%nat).
Proof.
  unfold _mouse_control.
  destruct (PYAUTOGUI_AVAILABLE host); cbn [negb].
  2: { exists [], false, self. rewrite app_nil_r.
       split; [reflexivity|]. cbn. repeat split; lia. }
  destruct self as [m s cg lg gst cd lat lr rt ra lx ly lz st dt fs ms ma
                      ic idr sw sh vc].
  unfold mouse_actions.
  destruct g, ic, idr; try destruct ly as [ly |]; run_mouse;
    first [ exists []; rewrite app_nil_r; do 2 eexists;
            split; [reflexivity|]
          | rewrite <- ?app_assoc; do 3 eexists; split; [reflexivity|] ];
    cbn; repeat split; try reflexivity; try congruence.
Qed.

Lemma execute_action_mouse (host : Host) (now : Q) (g : Gesture) (x y : Z)
    (self : Controller) (log : Log) :
  mode self = MOUSE ->
  execute_action host now g x y self log = _mouse_control host g x y self log.
Proof. intro M. unfold execute_action, bind, get. rewrite M. reflexivity. Qed.

Lemma mouse_control_mode (host : Host) (g : Gesture) (x y : Z)
    (self : Controller) (log : Log) :
  mode (fst (fst (_mouse_control host g x y self log))) = mode self.
Proof.
  destruct (mouse_control_outcome host g x y self log)
    as (new & b & self' & -> & S).
  cbn [fst]. rewrite S. reflexivity.
Qed.

(** X20: In Mouse mode, on any host and over any series of dispatch calls, the
    button presses that went through exceed the releases that went
    through by exactly one while a drag is on and by none otherwise:
    presses and releases alternate, no drag is started twice and none is
    released twice. *)
Theorem drag_balance (host : Host) (calls : list DispatchCall) :
  forall (self : Controller) (log : Log),
  mode self = MOUSE ->
  let out := dispatch_series host calls self log in
  exists new,
    snd (fst out) = log ++ new
    /\ (Z.of_nat (count_ok is_mouseDown new)
        - Z.of_nat (count_ok is_mouseUp new)
        = b2z (is_dragging (fst (fst out))) - b2z (is_dragging self))%Z.
Proof.
  induction calls as [| c rest IH]; intros self log MM;
    cbn [dispatch_series].
  - exists []. rewrite app_nil_r. cbn. split; [reflexivity | lia].
  - rewrite (execute_action_mouse host _ _ _ _ self log MM).
    pose proof (mouse_control_mode host (call_gesture c) (call_x c)
                  (call_y c) self log) as Md.
    destruct (mouse_control_flags host (call_gesture c) (call_x c)
                (call_y c) self log) as (new & b & self' & E & B & _).
    rewrite E in Md |- *. cbn [fst] in Md.
    specialize (IH self' (log ++ new) (eq_trans Md MM)).
    destruct (dispatch_series host rest self' (log ++ new))
      as [[s2 l2] outs].
    cbn [fst snd] in IH |- *.
    destruct IH as (new2 & -> & B2).
    exists (new ++ new2). split; [symmetry; apply app_assoc|].
    rewrite !count_ok_app, !Nat2Z.inj_add. lia.
Qed.

(** A thumbs-up held for three calls and then released: one press and one
    release of the button. *)
Example drag_calls_run :
  snd (fst (dispatch_series quiet_host drag_calls
              (set_mode MOUSE fresh_controller) []))
  = [ (mouseDown, true); (position, true); (moveTo 251 157, true);
      (mouseUp, true); (position, true); (moveTo 251 157, true) ].
Proof. vm_compute. reflexivity. Qed.

Lemma drag_balance_witness :
  mode (set_mode MOUSE fresh_controller) = MOUSE
  /\ exists new,
       snd (fst (dispatch_series quiet_host drag_calls
                   (set_mode MOUSE fresh_controller) []))
       = [] ++ new
       /\ (Z.of_nat (count_ok is_mouseDown new)
           - Z.of_nat (count_ok is_mouseUp new)
           = b2z (is_dragging
                    (fst (fst (dispatch_series quiet_host drag_calls
                                 (set_mode MOUSE fresh_controller) []))))
             - b2z (is_dragging (set_mode MOUSE fresh_controller)))%Z.
Proof.
  split; [reflexivity|].
  exact (drag_balance quiet_host drag_calls (set_mode MOUSE fresh_controller)
           [] eq_refl).
Defined.

(** X21: In Mouse mode a pinch held over any number of calls clicks at most
    once, on any host: the clicks that went through are one if the click
    flag is set at the end and was not at the start, none otherwise. *)
Theorem sustained_pinch_clicks_once (host : Host)
    (calls : list DispatchCall) :
  forall (self : Controller) (log : Log),
  mode self = MOUSE ->
  Forall (fun c => call_gesture c = PINCH) calls ->
  let out := dispatch_series host calls self log in
  exists new,
    snd (fst out) = log ++ new
    /\ (Z.of_nat (count_ok is_click new)
        = b2z (is_clicking (fst (fst out))) - b2z (is_clicking self))%Z
    /\ (count_ok is_click new <= 1)%nat.
Proof.
  induction calls as [| c rest IH]; intros self log MM A;
    cbn [dispatch_series].
  - exists []. rewrite app_nil_r. cbn. repeat split; lia.
  - inversion A as [| c' rest' Gc Ar]; subst.
    rewrite (execute_action_mouse host _ _ _ _ self log MM).
    pose proof (mouse_control_mode host (call_gesture c) (call_x c)
                  (call_y c) self log) as Md.
    destruct (mouse_control_flags host (call_gesture c) (call_x c)
                (call_y c) self log) as (new & b & self' & E & _ & K & _).
    specialize (K Gc).
    rewrite E in Md |- *. cbn [fst] in Md.
    specialize (IH self' (log ++ new) (eq_trans Md MM) Ar).
    destruct (dispatch_series host rest self' (log ++ new))
      as [[s2 l2] outs].
    cbn [fst snd] in IH |- *.
    destruct IH as (new2 & -> & K2 & _).
    exists (new ++ new2). split; [symmetry; apply app_assoc|].
    rewrite !count_ok_app, !Nat2Z.inj_add.
    assert (T : (Z.of_nat (count_ok is_click new)
                 + Z.of_nat (count_ok is_click new2)
                 = b2z (is_clicking s2) - b2z (is_clicking self))%Z) by lia.
    split; [exact T|].
    destruct (is_clicking s2), (is_clicking self); cbn in T; lia.
Qed.

Example pinch_calls_run :
  snd (fst (dispatch_series quiet_host pinch_calls
              (set_mode MOUSE fresh_controller) []))
  = [(click, true)].
Proof. vm_compute. reflexivity. Qed.

Lemma sustained_pinch_clicks_once_witness :
  mode (set_mode MOUSE fresh_controller) = MOUSE
  /\ Forall (fun c => call_gesture c = PINCH) pinch_calls
  /\ exists new,
       snd (fst (dispatch_series quiet_host pinch_calls
                   (set_mode MOUSE fresh_controller) []))
       = [] ++ new
       /\ (count_ok is_click new <= 1)%nat.
Proof.
  assert (A : Forall (fun c => call_gesture c = PINCH) pinch_calls)
    by (repeat constructor).
  split; [reflexivity|]. split; [exact A|].
  destruct (sustained_pinch_clicks_once quiet_host pinch_calls
              (set_mode MOUSE fresh_controller) [] eq_refl A)
    as (new & E & _ & K).
  exists new. split; assumption.
Defined.

(** One call of [_mouse_control]: where its [scroll] and [moveTo] calls
    come from. *)
Lemma mouse_control_calls (host : Host) (g : Gesture) (x y : Z)
    (self : Controller) (log : Log) :
  exists (new : Log) (b : bool) (self' : Controller),
    _mouse_control host g x y self log = (self', log ++ new, Some b)
    /\ (forall a ok, In (scroll a, ok) new ->
        g = FIST
        /\ exists ly,
             last_palm_y self = Some ly
             /\ a = ((y - ly) * 2)%Z /\ (5 < Z.abs a)%Z)
    /\ (forall nx ny ok, In (moveTo nx ny, ok) new ->
        (g = OPEN_HAND \/ g = POINTING)
        /\ nx = smoothed (fst (position_result host log)) (target_x self x)
                          (mouse_smoothing self)
        /\ ny = smoothed (snd (position_result host log)) (target_y self y)
                          (mouse_smoothing self)).
Proof.
  unfold _mouse_control.
  destruct (PYAUTOGUI_AVAILABLE host); cbn [negb].
  2: { exists [], false, self. rewrite app_nil_r.
       split; [reflexivity|]. split; intros; contradiction. }
  destruct self as [m s cg lg gst cd lat lr rt ra lx ly lz st dt fs ms ma
                      ic idr sw sh vc].
  unfold mouse_actions, target_x, target_y.
  destruct g, ic, idr; try destruct ly as [ly |]; run_mouse;
    first [ exists []; rewrite app_nil_r; do 2 eexists;
            split; [reflexivity|]
          | rewrite <- ?app_assoc; do 3 eexists; split; [reflexivity|] ];
    (split;
     [ intros a ok Hin; cbn in Hin;
       repeat (destruct Hin as [Hin | Hin];
               [ try discriminate; injection Hin as <- <-;
                 (split; [reflexivity|]); eexists;
                 (split; [reflexivity|]); (split; [reflexivity|]);
                 match goal with
                 | H : (Z.abs _ >? 5)%Z = true |- _ =>
                     apply Z.gtb_lt in H; exact H
                 end
               |]);
       contradiction
     | intros nx ny ok Hin; cbn in Hin;
       repeat (destruct Hin as [Hin | Hin];
               [ try discriminate; injection Hin as <- <- <-;
                 (split; [auto|]); split; reflexivity
               |]);
       contradiction ]).
Qed.

Lemma after_gate_last_palm_y (clk : Clock) (g : Gesture) (s : Controller) :
  last_palm_y (after_gate clk g s) = last_palm_y s.
Proof.
  unfold after_gate.
  match goal with |- context [if ?c then _ else _] => destruct c end;
    reflexivity.
Qed.

(** X22: Through [process_frame] a scroll is never small: every [scroll] call
    a frame causes in Mouse mode has an amount of at least 20 in absolute
    value, since a fist that moved less than 10 pixels from the Y baseline
    has just moved that baseline to itself. *)
Theorem scroll_at_least_20 (host : Host) (clk : Clock) (f : Frame)
    (self self' : Controller) (log new : Log)
    (r : option (Gesture * bool)) (a : Z) (ok : bool) :
  mode self = MOUSE ->
  process_frame host clk f self log = (self', log ++ new, r) ->
  In (scroll a, ok) new ->
  (20 <= Z.abs a)%Z.
Proof.
  intros MM E Hin.
  assert (Nil : forall s r', (s, log, r') = (self', log ++ new, r) -> False).
  { intros s r' EQ. injection EQ as _ EL _.
    rewrite <- (app_nil_r log) in EL at 1.
    apply app_inv_head in EL. subst new. contradiction. }
  destruct (Nat.lt_ge_cases (List.length (landmarks f)) 21) as [S | L].
  { rewrite (proj2 (short_landmarks_raise host clk f self log) S) in E.
    exfalso. exact (Nil _ _ E). }
  destruct (detect_gesture_defined self (openness f) (rotation f) (palm_x f)
              (palm_y f) (palm_z f) (landmarks f) L) as (s1 & g & D).
  rewrite (process_frame_classified host clk f self s1 g log D) in E.
  cbv zeta in E.
  set (s2 := after_gate clk g s1) in *.
  assert (M2 : mode s2 = MOUSE).
  { destruct (after_gate_config clk g s1) as (A & _).
    destruct (detect_gesture_config _ _ _ _ _ _ _ _ _ D) as (B & _).
    subst s2. congruence. }
  match type of E with context [if ?c then _ else _] => destruct c end;
    [| exfalso; exact (Nil _ _ E)].
  rewrite (execute_action_mouse host _ _ _ _ s2 log M2) in E.
  destruct (mouse_control_calls host g (palm_x f) (palm_y f) s2 log)
    as (new' & b & s3 & E' & SC & _).
  rewrite E' in E. injection E as _ EL _.
  apply app_inv_head in EL. subst new'.
  destruct (SC a ok Hin) as (-> & ly & Ly & -> & Big).
  subst s2. rewrite after_gate_last_palm_y in Ly.
  destruct (baseline_law _ _ _ _ _ _ _ _ _ D) as (_ & _ & _ & _ & Keep).
  destruct (Keep eq_refl) as [_ Ky]. rewrite Ky in Ly.
  injection Ly as <-. unfold follow in *.
  destruct (last_palm_y self) as [l |].
  - destruct (Z.abs (palm_y f - l) <? 10)%Z eqn:C.
    + replace ((palm_y f - palm_y f) * 2)%Z with 0%Z in Big by lia.
      cbn in Big. lia.
    + apply Z.ltb_ge in C. lia.
  - replace ((palm_y f - palm_y f) * 2)%Z with 0%Z in Big by lia.
    cbn in Big. lia.
Qed.

Example fist_down_run :
  process_frame quiet_host (at_time 10) fist_down_frame mouse_fist []
  = (with_current_gesture FIST mouse_fist, [(scroll 60, true)],
     Some (FIST, true)).
Proof. vm_compute. reflexivity. Qed.

Lemma scroll_at_least_20_witness : (20 <= Z.abs 60)%Z.
Proof.
  apply (scroll_at_least_20 quiet_host (at_time 10) fist_down_frame
           mouse_fist (with_current_gesture FIST mouse_fist) []
           [(scroll 60, true)] (Some (FIST, true)) 60 true).
  - reflexivity.
  - vm_compute. reflexivity.
  - left. reflexivity.
Defined.

(** [int(v)] of a value between two integers lies between them. *)
Lemma py_int_between (a b : Z) (v : Q) :
  inject_Z a <= v -> v <= inject_Z b -> (a <= py_int v <= b)%Z.
Proof.
  destruct v as [n d]. unfold Qle, py_int. cbn [Qnum Qden inject_Z].
  intros A B.
  pose proof (Z.quot_rem' n (Zpos d)) as QR.
  assert (Dp : (0 < Zpos d)%Z) by lia.
  destruct (Z.le_gt_cases 0 n) as [P | N].
  - pose proof (Z.rem_bound_pos n (Zpos d) P Dp) as RB. nia.
  - assert (N' : (n <= 0)%Z) by lia.
    pose proof (Z.rem_bound_pos_neg n (Zpos d) Dp N') as RB. nia.
Qed.

(** *** Rounding to double precision

    Rounding to the nearest double never crosses an integer that is
    itself a double: below [2^53] every integer is one. *)

Lemma rne_le (q : Q) (n : Z) : q <= inject_Z n -> (rne q <= n)%Z.
Proof.
  intro H. unfold rne.
  pose proof (Qfloor_resp_le _ _ H) as F. rewrite Qfloor_Z in F.
  pose proof (Qfloor_le q) as L.
  destruct (Z.eq_dec (Qfloor q) n) as [E | N].
  - assert (C : Qcompare (q - inject_Z (Qfloor q)) (1 # 2) = Lt).
    { rewrite <- Qlt_alt. rewrite E in *. lra. }
    rewrite C. lia.
  - destruct (Qcompare _ _); [destruct (Z.even _)| |]; lia.
Qed.

Lemma rne_ge (q : Q) (n : Z) : inject_Z n <= q -> (n <= rne q)%Z.
Proof.
  intro H. unfold rne.
  pose proof (Qfloor_resp_le _ _ H) as F. rewrite Qfloor_Z in F.
  destruct (Qcompare _ _); [destruct (Z.even _)| |]; lia.
Qed.

Lemma binade_small (q : Q) :
  Qabs q < inject_Z (2 ^ 53) -> (binade q <= 52)%Z.
Proof.
  intro H. unfold binade.
  set (e := (Z.log2 (Z.abs (Qnum q)) - Z.log2 (Zpos (Qden q)))%Z).
  destruct (Qle_bool (2 ^ e) (Qabs q)) eqn:T.
  - apply Qle_bool_iff in T.
    assert (L : 2 ^ e < 2 ^ 53)
      by (eapply Qle_lt_trans; [exact T | exact H]).
    destruct (Z.le_gt_cases 53 e) as [G | G]; [|lia].
    exfalso. apply (Qpower_le_compat_l 2) in G; [|lra]. lra.
  - assert (E : (e <= 53)%Z); [|lia].
    subst e. destruct q as [n d]. cbn [Qnum Qden] in *.
    unfold Qabs, Qlt, inject_Z in H. cbn [Qnum Qden] in H.
    pose proof (Z.log2_spec (Zpos d) ltac:(lia)) as [_ D].
    assert (B : (Z.abs n < 2 ^ (54 + Z.log2 (Zpos d)))%Z).
    { rewrite Z.pow_add_r by (try apply Z.log2_nonneg; lia).
      replace (Z.succ (Z.log2 (Zpos d))) with (Z.log2 (Zpos d) + 1)%Z in D
        by lia.
      rewrite Z.pow_add_r in D by (try apply Z.log2_nonneg; lia).
      change (2 ^ 54)%Z with (2 ^ 53 * 2)%Z. change (2 ^ 1)%Z with 2%Z in D.
      nia. }
    destruct (Z.eq_dec (Z.abs n) 0) as [Z0 | NZ].
    + rewrite Z0. pose proof (Z.log2_nonneg (Zpos d)).
      change (Z.log2 0) with 0%Z. lia.
    + apply Z.log2_lt_pow2 in B; lia.
Qed.

(** Below [2^53] the unit in the last place is at most 1, so an integer
    bound of the exact value bounds the rounded one. *)
Lemma round64_scale (q : Q) :
  Qabs q < inject_Z (2 ^ 53) ->
  exists e : Z,
    (e <= 0)%Z /\ 0 < 2 ^ e
    /\ round64 q = inject_Z (rne (q / 2 ^ e)) * 2 ^ e
    /\ forall n : Z, inject_Z n / 2 ^ e == inject_Z (n * 2 ^ (- e)).
Proof.
  intro B. pose proof (binade_small q B) as S.
  exists (Z.max (binade q - 52) (-1074)).
  split; [lia|]. split; [apply Qpower_0_lt; lra|].
  split; [reflexivity|].
  intro n. rewrite inject_Z_mult, Zpower_Qpower by lia.
  rewrite Qpower_opp. reflexivity.
Qed.

Lemma round64_le (q : Q) (n : Z) :
  Qabs q < inject_Z (2 ^ 53) -> q <= inject_Z n -> round64 q <= inject_Z n.
Proof.
  intros B H. destruct (round64_scale q B) as (e & E & P & -> & I).
  assert (R : (rne (q / 2 ^ e) <= n * 2 ^ (- e))%Z).
  { apply rne_le. rewrite <- I. apply Qmult_le_compat_r; [exact H|].
    apply Qlt_le_weak, Qinv_lt_0_compat, P. }
  rewrite Zle_Qle in R. rewrite <- I in R.
  apply (Qmult_le_compat_r _ _ (2 ^ e)) in R; [|lra].
  assert (F : inject_Z n / 2 ^ e * 2 ^ e == inject_Z n) by (field; lra).
  rewrite F in R. exact R.
Qed.

Lemma round64_ge (q : Q) (n : Z) :
  Qabs q < inject_Z (2 ^ 53) -> inject_Z n <= q -> inject_Z n <= round64 q.
Proof.
  intros B H. destruct (round64_scale q B) as (e & E & P & -> & I).
  assert (R : (n * 2 ^ (- e) <= rne (q / 2 ^ e))%Z).
  { apply rne_ge. rewrite <- I. apply Qmult_le_compat_r; [exact H|].
    apply Qlt_le_weak, Qinv_lt_0_compat, P. }
  rewrite Zle_Qle in R. rewrite <- I in R.
  apply (Qmult_le_compat_r _ _ (2 ^ e)) in R; [|lra].
  assert (F : inject_Z n / 2 ^ e * 2 ^ e == inject_Z n) by (field; lra).
  rewrite F in R. exact R.
Qed.

(** A value between two integers below [2^53] is rounded to a value
    between them. *)
Lemma round64_between (a b : Z) (q : Q) :
  (Z.abs a < 2 ^ 53)%Z -> (Z.abs b < 2 ^ 53)%Z ->
  inject_Z a <= q <= inject_Z b ->
  inject_Z a <= round64 q <= inject_Z b.
Proof.
  intros A B [L U].
  assert (Q53 : Qabs q < inject_Z (2 ^ 53)).
  { apply Qabs_Qlt_condition.
    assert (A' : (- 2 ^ 53 < a)%Z) by lia.
    assert (B' : (b < 2 ^ 53)%Z) by lia.
    rewrite Zlt_Qlt in A', B'. rewrite inject_Z_opp in A'.
    split; lra. }
  split; [apply round64_ge | apply round64_le]; assumption.
Qed.

(** Converting an int below [2^53] to a float is exact. *)
Lemma round64_int (z : Z) :
  (Z.abs z < 2 ^ 53)%Z -> round64 (inject_Z z) == inject_Z z.
Proof.
  intro B.
  destruct (round64_between z z (inject_Z z) B B) as [L U]; [lra|].
  apply Qle_antisym; assumption.
Qed.

(** The smoothed cursor position lies between the current position and
    the target, for positions that are doubles. *)
Lemma smoothed_between (c t : Z) (ms : Q) :
  0 <= ms <= 1 ->
  (Z.abs c < 2 ^ 52)%Z -> (Z.abs t < 2 ^ 52)%Z ->
  (Z.min c t <= smoothed c t ms <= Z.max c t)%Z.
Proof.
  intros M C T. unfold smoothed.
  assert (P52 : (2 ^ 53 = 2 * 2 ^ 52)%Z) by reflexivity.
  assert (S1 : 0 <= round64 ms <= 1)
    by (apply (round64_between 0 1); [reflexivity | reflexivity | exact M]).
  assert (K : 0 <= round64 (1 - round64 ms) <= 1)
    by (apply (round64_between 0 1);
        [reflexivity | reflexivity | unfold inject_Z; lra]).
  set (k := round64 (1 - round64 ms)) in *.
  assert (Ec : round64 (inject_Z c) == inject_Z c)
    by (apply round64_int; lia).
  assert (Ed : round64 (inject_Z (t - c)) == inject_Z t - inject_Z c).
  { rewrite round64_int by lia.
    unfold Zminus. rewrite inject_Z_plus, inject_Z_opp. ring. }
  set (cf := round64 (inject_Z c)) in *.
  set (df := round64 (inject_Z (t - c))) in *.
  assert (Dz : inject_Z (t - c) == inject_Z t - inject_Z c)
    by (unfold Zminus; rewrite inject_Z_plus, inject_Z_opp; ring).
  destruct (Z.le_gt_cases c t) as [L | G].
  - rewrite Z.min_l, Z.max_r by lia.
    assert (D : 0 <= inject_Z t - inject_Z c)
      by (rewrite Zle_Qle in L; lra).
    assert (X : 0 <= df * k <= inject_Z (t - c)).
    { rewrite Dz.
      assert (0 <= df * k) by (apply Qmult_le_0_compat; lra).
      assert (df * k <= df * 1)
        by (rewrite !(Qmult_comm df); apply Qmult_le_compat_r; lra).
      lra. }
    apply (round64_between 0 (t - c)) in X; [|lia|lia].
    destruct X as [X1 X2]. rewrite Dz in X2. change (inject_Z 0) with 0 in X1.
    apply py_int_between; apply (round64_between c t); try lia; split; lra.
  - rewrite Z.min_r, Z.max_l by lia.
    assert (D : inject_Z t - inject_Z c <= 0)
      by (apply Z.lt_le_incl in G; rewrite Zle_Qle in G; lra).
    assert (X : inject_Z (t - c) <= df * k <= 0).
    { rewrite Dz.
      assert (0 <= (- df) * k) by (apply Qmult_le_0_compat; lra).
      assert ((- df) * k <= (- df) * 1)
        by (rewrite !(Qmult_comm (- df)); apply Qmult_le_compat_r; lra).
      lra. }
    apply (round64_between (t - c) 0) in X; [|lia|lia].
    destruct X as [X1 X2]. rewrite Dz in X1. change (inject_Z 0) with 0 in X2.
    apply py_int_between; apply (round64_between t c); try lia; split; lra.
Qed.

(** Where the rounding shows: from 0 towards 360 the exact value is 252,
    the product [360 * 0.7] in doubles is just below it. *)
Example smoothed_rounds_down :
  smoothed 0 360 0.3 = 251%Z
  /\ py_int (inject_Z 0 + inject_Z (360 - 0) * (1 - 0.3)) = 252%Z.
Proof. vm_compute. split; reflexivity. Qed.

(** On the sample positions [smoothed] returns what the IEEE 754
    operations return; [round64] gives the literal 0.3 its double. *)
Example smoothed_matches_ieee :
  forallb (fun p => match smoothed_ieee (fst p) (snd p) with
                    | Some z => Z.eqb z (smoothed (fst p) (snd p) 0.3)
                    | None => false
                    end) smoothing_samples = true
  /\ float_value double_0_3 = Some (round64 0.3).
Proof. vm_compute. split; reflexivity. Qed.

(** X23: The cursor never overshoots: every [moveTo] of [_mouse_control], for a
    smoothing factor in [0, 1] such as the 0.3 of the constructor and
    for cursor and target coordinates below [2^52] in magnitude, goes to
    a point that lies, in each coordinate, between the current cursor
    position and the target position of the palm. *)
Theorem cursor_never_overshoots (host : Host) (g : Gesture) (x y : Z)
    (self self' : Controller) (log new : Log) (r : option bool)
    (nx ny : Z) (ok : bool) :
  0 <= mouse_smoothing self <= 1 ->
  (Z.abs (fst (position_result host log)) < 2 ^ 52)%Z ->
  (Z.abs (snd (position_result host log)) < 2 ^ 52)%Z ->
  (Z.abs (target_x self x) < 2 ^ 52)%Z ->
  (Z.abs (target_y self y) < 2 ^ 52)%Z ->
  _mouse_control host g x y self log = (self', log ++ new, r) ->
  In (moveTo nx ny, ok) new ->
  let cx := fst (position_result host log) in
  let cy := snd (position_result host log) in
  (Z.min cx (target_x self x) <= nx <= Z.max cx (target_x self x))%Z
  /\ (Z.min cy (target_y self y) <= ny <= Z.max cy (target_y self y))%Z.
Proof.
  intros MS Bx By Tx Ty E Hin cx cy.
  destruct (mouse_control_calls host g x y self log)
    as (new' & b & s3 & E' & _ & MV).
  rewrite E' in E. injection E as _ EL _.
  apply app_inv_head in EL. subst new'.
  destruct (MV nx ny ok Hin) as (_ & -> & ->).
  split; apply smoothed_between; assumption.
Qed.

Lemma cursor_never_overshoots_witness :
  0 <= mouse_smoothing mouse_tracking <= 1
  /\ (Z.min 0 (target_x mouse_tracking 120) <= 251
      <= Z.max 0 (target_x mouse_tracking 120))%Z.
Proof.
  assert (MS : 0 <= mouse_smoothing mouse_tracking <= 1)
    by (split; vm_compute; discriminate).
  split; [exact MS|].
  apply (cursor_never_overshoots quiet_host OPEN_HAND 120 100
           mouse_tracking mouse_tracking []
           [(position, true); (moveTo 251 157, true)] (Some true)
           251 157 true MS).
  - vm_compute. reflexivity.
  - vm_compute. reflexivity.
  - vm_compute. reflexivity.
  - vm_compute. reflexivity.
  - vm_compute. reflexivity.
  - right; left. reflexivity.
Defined.

(** X24: A palm inside the 640 by 480 reference frame is mapped to a target
    inside the screen. *)
Theorem target_within_screen (self : Controller) (x y : Z) :
  (0 <= x <= 640)%Z -> (0 <= y <= 480)%Z ->
  (0 <= screen_w self)%Z -> (0 <= screen_h self)%Z ->
  (0 <= target_x self x <= screen_w self)%Z
  /\ (0 <= target_y self y <= screen_h self)%Z.
Proof.
  intros X Y W H. unfold target_x, target_y.
  split; apply py_int_between; unfold Qle, Qdiv, Qmult, Qinv, inject_Z;
    cbn [Qnum Qden]; nia.
Qed.

Lemma target_within_screen_witness :
  (0 <= 320 <= 640)%Z /\ (0 <= 240 <= 480)%Z
  /\ (0 <= target_x fresh_controller 320 <= screen_w fresh_controller)%Z
  /\ (0 <= target_y fresh_controller 240 <= screen_h fresh_controller)%Z.
Proof.
  assert (X : (0 <= 320 <= 640)%Z) by lia.
  assert (Y : (0 <= 240 <= 480)%Z) by lia.
  split; [exact X|]. split; [exact Y|].
  apply (target_within_screen fresh_controller 320 240 X Y);
    vm_compute; discriminate.
Defined.

(** ** Volume adjustment *)

Lemma repeat_body_quiet (host : Host) (c : Call) (n : nat) :
  never_raises host ->
  forall (s : Locals) (log : Log),
  repeat_body n (invoke host c) s log
  = (s, log ++ repeat (c, true) n, Some tt).
Proof.
  intro NR. induction n as [| n IH]; intros s log; cbn [repeat_body repeat].
  - unfold ret. rewrite app_nil_r. reflexivity.
  - unfold bind, invoke. rewrite NR. rewrite IH.
    rewrite <- app_assoc. reflexivity.
Qed.

(** X25: On Windows with the audio endpoint in use, [_adjust_volume] never
    raises, never touches pyautogui, makes at most one query and one
    setting of the volume, and only ever sets a level between 0 and 1,
    whatever the change asked for and whatever level the endpoint
    reports. *)
Theorem adjust_volume_windows (host : Host) (change : Q)
    (self : Controller) (b : bool) (log : Log) :
  platform_windows host = true ->
  volume_control self = true ->
  exists new,
    _adjust_volume host change (self, b) log
    = ((self, b), log ++ new, Some tt)
    /\ (List.length new <= 2)%nat
    /\ (forall c ok, In (c, ok) new -> is_pyautogui c = false)
    /\ (forall v ok, In (SetMasterVolumeLevelScalar v, ok) new ->
        0 <= v <= 1).
Proof.
  intros W V.
  assert (R : forall v : Q, 0 <= py_max 0.0 (py_min 1.0 v) <= 1)
    by (intro v; unfold py_max, py_min; qcases; lra).
  unfold _adjust_volume. unfold bind at 1. unfold self_. cbn [fst].
  rewrite W, V. cbn [andb].
  unfold try_except, bind, invoke_GetMasterVolumeLevelScalar, invoke, ret.
  destruct (raises host log GetMasterVolumeLevelScalar).
  - eexists. split; [reflexivity|]. split; [cbn; lia|].
    split; intros ? ? [H | []]; inversion H; subst; reflexivity.
  - match goal with
    | |- context [raises host ?l ?c] => destruct (raises host l c)
    end;
      rewrite <- app_assoc;
      (eexists; split; [reflexivity|]; split; [cbn; lia|]; split;
       [ intros ? ? [H | [H | []]]; inversion H; subst; reflexivity
       | intros ? ? [H | [H | []]]; inversion H; subst; apply R ]).
Qed.

Lemma adjust_volume_windows_witness :
  platform_windows windows_host = true
  /\ volume_control windows_controller = true
  /\ exists new,
       _adjust_volume windows_host 0.1 (windows_controller, false) []
       = ((windows_controller, false), [] ++ new, Some tt)
       /\ (List.length new <= 2)%nat.
Proof.
  split; [reflexivity|]. split; [reflexivity|].
  destruct (adjust_volume_windows windows_host 0.1 windows_controller false
              [] eq_refl eq_refl) as (new & E & Len & _).
  exists new. split; assumption.
Defined.

Lemma py_int_small (v : Q) : 0 <= v -> v < 1 -> py_int v = 0%Z.
Proof.
  destruct v as [n d]. unfold Qle, Qlt, py_int. cbn [Qnum Qden].
  intros A B. apply Z.quot_small. lia.
Qed.

(** X26: Without the Windows endpoint, on a host with pyautogui none of whose
    calls raises, [_adjust_volume] presses one key [int(|change| * 20)]
    times: volume-up for a positive change, volume-down otherwise; a
    change smaller than 0.05 in absolute value presses nothing. *)
Theorem adjust_volume_keys (host : Host) (change : Q) (self : Controller)
    (b : bool) (log : Log) :
  never_raises host ->
  PYAUTOGUI_AVAILABLE host = true ->
  platform_windows host && volume_control self = false ->
  let n := Z.to_nat (py_int (Qabs change * 20)) in
  let key := if change >? 0 then "volumeup"%string
             else "volumedown"%string in
  _adjust_volume host change (self, b) log
  = ((self, b), log ++ repeat (press key, true) n, Some tt)
  /\ (Qabs change < 0.05 -> n = O).
Proof.
  intros NR PA NW n key. split.
  - unfold _adjust_volume. unfold bind at 1. unfold self_. cbn [fst].
    rewrite NW, PA. unfold for_range. subst n key.
    destruct (change >? 0); apply repeat_body_quiet, NR.
  - intro Small. subst n.
    assert (P : 0 <= Qabs change) by apply Qabs_nonneg.
    rewrite py_int_small; [reflexivity | lra | lra].
Qed.

Lemma adjust_volume_keys_witness :
  never_raises quiet_host
  /\ PYAUTOGUI_AVAILABLE quiet_host = true
  /\ _adjust_volume quiet_host (-0.1) (fresh_controller, false) []
     = ((fresh_controller, false),
        [] ++ repeat (press "volumedown", true)
                (Z.to_nat (py_int (Qabs (-0.1) * 20))),
        Some tt).
Proof.
  assert (NR : never_raises quiet_host) by (intros l c; reflexivity).
  split; [exact NR|]. split; [reflexivity|].
  exact (proj1 (adjust_volume_keys quiet_host (-0.1) fresh_controller false
                  [] NR eq_refl eq_refl)).
Defined.

(** ** Slow drift *)

Lemma after_gate_last_palm_x (clk : Clock) (g : Gesture) (s : Controller) :
  last_palm_x (after_gate clk g s) = last_palm_x s.
Proof.
  unfold after_gate.
  match goal with |- context [if ?c then _ else _] => destruct c end;
    reflexivity.
Qed.

Lemma no_swipe_when_close (self : Controller) (x y x0 y0 : Z) :
  10 <= swipe_threshold self ->
  last_palm_x self = Some x0 -> last_palm_y self = Some y0 ->
  (Z.abs (x - x0) < 10)%Z -> (Z.abs (y - y0) < 10)%Z ->
  swipe_x_fires self x y || swipe_y_fires self x y = false.
Proof.
  intros T Hx Hy Dx Dy. unfold swipe_x_fires, swipe_y_fires.
  rewrite Hx, Hy.
  assert (A : forall d : Z, (Z.abs d < 10)%Z ->
                            (inject_Z (Z.abs d) >? swipe_threshold self)
                            = false).
  { intros d D. apply Qltb_ge.
    assert (inject_Z (Z.abs d) <= inject_Z 10)
      by (rewrite <- Zle_Qle; lia).
    change (inject_Z 10) with 10 in *. lra. }
  rewrite (A _ Dx), (A _ Dy). reflexivity.
Qed.

(** X27: Slow drift never arms a swipe: over any series of frames each less
    than 10 pixels away, in X and in Y, from the one before it (the first
    one from the baselines), with a swipe threshold of at least 10 pixels
    as every constructed controller has, no frame is classified as a
    swipe, however far the palm gets in the end. *)
Theorem slow_drift_never_swipes (host : Host)
    (frames : list (Clock * Frame)) :
  forall (self : Controller) (log : Log) (x0 y0 : Z),
  10 <= swipe_threshold self ->
  last_palm_x self = Some x0 ->
  last_palm_y self = Some y0 ->
  drifting x0 y0 frames ->
  Forall (fun g => is_swipe g = false)
    (gestures_of (snd (frame_series host frames self log))).
Proof.
  induction frames as [| [clk f] rest IH]; intros self log x0 y0 T Hx Hy D;
    cbn [frame_series].
  - constructor.
  - destruct D as (Dx & Dy & L & D).
    pose proof (process_frame_keeps_config host clk f self log) as K.
    destruct (process_frame_writes host clk f self log L)
      as (s1 & self' & g & b & new & E & P & W).
    rewrite P in K |- *. cbn [fst] in K.
    destruct (detect_gesture_precedence self (openness f) (rotation f)
                (palm_x f) (palm_y f) (palm_z f) (landmarks f) L)
      as (s1' & g' & fs & p & E' & _ & _ & SW & _).
    rewrite E in E'. injection E' as <- <-.
    rewrite (no_swipe_when_close self _ _ x0 y0 T Hx Hy Dx Dy) in SW.
    destruct (baseline_law _ _ _ _ _ _ _ _ _ E) as (_ & _ & _ & _ & Keep).
    destruct (Keep SW) as [Bx By].
    assert (Hx' : last_palm_x self' = Some (palm_x f)).
    { rewrite W. cbn [last_palm_x with_is_dragging with_is_clicking
                      with_last_action_time].
      rewrite after_gate_last_palm_x, Bx, Hx. unfold follow.
      apply Z.ltb_lt in Dx. rewrite Dx. reflexivity. }
    assert (Hy' : last_palm_y self' = Some (palm_y f)).
    { rewrite W. cbn [last_palm_y with_is_dragging with_is_clicking
                      with_last_action_time].
      rewrite after_gate_last_palm_y, By, Hy. unfold follow.
      apply Z.ltb_lt in Dy. rewrite Dy. reflexivity. }
    assert (T' : 10 <= swipe_threshold self').
    { destruct K as (_ & _ & _ & _ & ST & _). rewrite ST. exact T. }
    specialize (IH self' (log ++ new) (palm_x f) (palm_y f) T' Hx' Hy' D).
    destruct (frame_series host rest self' (log ++ new)) as [[s2 l2] rs].
    cbn [snd] in IH |- *. cbn [gestures_of flat_map app].
    constructor; [exact SW | exact IH].
Qed.

Example drift_frames_run :
  gestures_of (snd (frame_series quiet_host drift_frames tracking []))
  = [FIST; FIST; FIST; FIST]
  /\ last_palm_x (fst (fst (frame_series quiet_host drift_frames tracking [])))
    = Some 356%Z.
Proof. vm_compute. split; reflexivity. Qed.

Lemma slow_drift_never_swipes_witness :
  10 <= swipe_threshold tracking
  /\ drifting 320 240 drift_frames
  /\ Forall (fun g => is_swipe g = false)
       (gestures_of (snd (frame_series quiet_host drift_frames tracking []))).
Proof.
  assert (T : 10 <= swipe_threshold tracking) by (vm_compute; discriminate).
  assert (D : drifting 320 240 drift_frames).
  { cbn. repeat split; try lia. all: vm_compute; discriminate. }
  split; [exact T|]. split; [exact D|].
  exact (slow_drift_never_swipes quiet_host drift_frames tracking [] 320 240
           T eq_refl eq_refl D).
Defined.
